(** * The services of intern-AI-tool: model and properties

    A shallow embedding of [src/bot-server/app.py]: the keyword and
    model-based resolution of the target application
    ([identify_application]), the model-driven edit of a configuration
    document with its brace-slicing extraction
    ([apply_configuration_change]), the request handler
    ([handle_message]) and the start-up of the service; and of the two
    stores, [src/schema-server/app.py] and [src/values-server/app.py].

    Python text is a sequence of Unicode code points; standard output, the
    outbound HTTP requests and the objects the handler holds references to
    are threaded through an explicit state.  What the interpreter refuses
    is part of the model: a line that standard output cannot encode, an
    integer of too many digits, a document nested too deep. *)

From Stdlib Require Import Ascii String DecimalString Bool Arith NArith ZArith Lia List.
Import ListNotations.

Set Warnings "-register-all".

(* ================================================================== *)
(** * Text *)

Module Text.

Local Open Scope N_scope.

(** A Python [str]: a sequence of code points. *)
Definition text := list N.

(** A literal of the source, one code point per character (literals given
    this way are ASCII; other code points are written as numbers). *)
Definition lit (s : string) : text :=
  List.map N_of_ascii (list_ascii_of_string s).

Definition text_eqb (a b : text) : bool :=
  if list_eq_dec N.eq_dec a b then true else false.

Definition dquote : N := 34.
Definition newline : N := 10.
Definition lbrace : N := 123.
Definition rbrace : N := 125.
Definition arrow : N := 8594.

(** [str.lower()]: each code point is replaced by its lower-case form.
    Exact below U+0100 and at the two other code points whose lower-case
    form contains an ASCII letter (U+0130 and U+212A); the remaining code
    points, whose lower-case forms never contain an ASCII letter, are
    left as they are. *)
Definition lower_cp (c : N) : text :=
  if (65 <=? c) && (c <=? 90) then [c + 32]
  else if (192 <=? c) && (c <=? 222) && negb (c =? 215) then [c + 32]
  else if c =? 304 then [105; 775]
  else if c =? 8490 then [107]
  else [c].

Definition py_lower (s : text) : text := flat_map lower_cp s.

(** [str.isspace()] for one code point. *)
Definition py_isspace (c : N) : bool :=
  ((9 <=? c) && (c <=? 13)) || ((28 <=? c) && (c <=? 32))
  || (c =? 133) || (c =? 160) || (c =? 5760)
  || ((8192 <=? c) && (c <=? 8202))
  || (c =? 8232) || (c =? 8233) || (c =? 8239) || (c =? 8287)
  || (c =? 12288).

Fixpoint py_lstrip (s : text) : text :=
  match s with
  | c :: r => if py_isspace c then py_lstrip r else s
  | [] => []
  end.

Definition py_rstrip (s : text) : text := rev (py_lstrip (rev s)).

(** [str.strip()] *)
Definition py_strip (s : text) : text := py_rstrip (py_lstrip s).

Fixpoint startswith (p s : text) : bool :=
  match p, s with
  | [], _ => true
  | a :: p', b :: s' => (a =? b) && startswith p' s'
  | _ :: _, [] => false
  end.

(** [sub in s] *)
Fixpoint py_in (sub s : text) : bool :=
  startswith sub s ||
  match s with
  | [] => false
  | _ :: r => py_in sub r
  end.

(** [s.find(c)] for a one-character needle: the lowest index, or -1. *)
Fixpoint py_find (c : N) (s : text) : Z :=
  match s with
  | [] => (-1)%Z
  | x :: r =>
      if x =? c then 0%Z
      else let i := py_find c r in if (i <? 0)%Z then (-1)%Z else (i + 1)%Z
  end.

(** [s.rfind(c)] for a one-character needle: the highest index, or -1. *)
Fixpoint py_rfind (c : N) (s : text) : Z :=
  match s with
  | [] => (-1)%Z
  | x :: r =>
      let i := py_rfind c r in
      if (0 <=? i)%Z then (i + 1)%Z
      else if x =? c then 0%Z else (-1)%Z
  end.

(** A slice bound as Python clamps it for a sequence of length [len]. *)
Definition slice_bound (len k : Z) : Z :=
  if (k <? 0)%Z then Z.max 0 (k + len)%Z else Z.min k len.

(** [s[i:j]] *)
Definition py_slice (s : text) (i j : Z) : text :=
  let len := Z.of_nat (length s) in
  let i' := slice_bound len i in
  let j' := slice_bound len j in
  firstn (Z.to_nat (j' - i')) (skipn (Z.to_nat i') s).

(** [re.sub(r'[^a-z]', '', s)] *)
Definition re_sub_non_lowercase (s : text) : text :=
  filter (fun c => (97 <=? c) && (c <=? 122)) s.

(** Lines joined by a line feed, as the lines of a triple-quoted literal. *)
Fixpoint join_lines (ls : list text) : text :=
  match ls with
  | [] => []
  | [l] => l
  | l :: rest => l ++ newline :: join_lines rest
  end.

End Text.
Export Text.

(* ================================================================== *)
(** * JSON values, as Python objects *)

Module Json.

Local Open Scope Z_scope.

(** A Python [float] read from JSON text, kept as the decimal it was
    written as: sign, digits and power of ten. *)
Inductive pyfloat :=
| Dec (neg : bool) (digits : N) (exp10 : Z)
| NaN
| Inf (neg : bool).

(** What [json.loads] returns: [None], [bool], [int], [float], [str],
    [list] and [dict].  A [dict] keeps its keys in insertion order and
    holds each key once. *)
Inductive json :=
| JNull
| JBool (b : bool)
| JInt (z : Z)
| JFloat (f : pyfloat)
| JString (s : text)
| JArray (items : list json)
| JObject (members : list (text * json)).

Definition dict := list (text * json).

(** [d[k] = v] *)
Fixpoint dict_set (k : text) (v : json) (d : dict) : dict :=
  match d with
  | [] => [(k, v)]
  | (k', v') :: r =>
      if text_eqb k' k then (k', v) :: r else (k', v') :: dict_set k v r
  end.

(** [d.get(k)] *)
Fixpoint dict_get (k : text) (d : dict) : option json :=
  match d with
  | [] => None
  | (k', v') :: r => if text_eqb k' k then Some v' else dict_get k r
  end.

(** The decimal rounds to the double zero: it is zero, or at most half the
    least positive double, 2^-1075. *)
Definition float_is_zero (f : pyfloat) : bool :=
  match f with
  | Dec _ m e =>
      (m =? 0)%N || ((e <? 0) && (Z.of_N m * 2 ^ 1075 <=? 10 ^ (- e)))
  | NaN | Inf _ => false
  end.

(** The nesting of a value: 0 for a value that is no container, one more
    than the deepest of its items for a container. *)
Fixpoint depth (v : json) : nat :=
  match v with
  | JArray items =>
      S ((fix deepest (l : list json) : nat :=
            match l with
            | [] => O
            | x :: r => Nat.max (depth x) (deepest r)
            end) items)
  | JObject members =>
      S ((fix deepest (l : list (text * json)) : nat :=
            match l with
            | [] => O
            | (_, x) :: r => Nat.max (depth x) (deepest r)
            end) members)
  | _ => O
  end.

(** Truth value of an object, as [if x:] and [not x] test it. *)
Definition truthy (v : json) : bool :=
  match v with
  | JNull => false
  | JBool b => b
  | JInt z => negb (z =? 0)
  | JFloat f => negb (float_is_zero f)
  | JString s => match s with [] => false | _ => true end
  | JArray l => match l with [] => false | _ => true end
  | JObject m => match m with [] => false | _ => true end
  end.

End Json.
Export Json.

(* ================================================================== *)
(** * [json.loads]

    The decoder of the standard library ([json.decoder], [json.scanner]),
    with its default settings: strict strings, [NaN], [Infinity] and
    [-Infinity] accepted, the last of several equal keys kept.  The decoder
    gives up where the interpreter does: on an integer of more digits than
    [sys.get_int_max_str_digits()] allows ([ValueError]) and on containers
    nested deeper than the recursion limit leaves room for
    ([RecursionError]). *)

Module Decoder.

Local Open Scope N_scope.

(** The limits of the interpreter that the decoder meets:
    [max_str_digits], the digits an integer may have when it is read from
    text, 0 for no limit (4300 unless the interpreter is told otherwise);
    [max_depth], the containers that may be open at once where the decoder
    is called (less than the recursion limit, 1000 by default, by the
    depth of the call). *)
Record limits := mk_limits {
  max_str_digits : nat;
  max_depth : nat
}.

(** What the interpreter refuses to decode. *)
Inductive refusal :=
| TooManyDigits
| TooDeep.

Inductive parse_result (A : Type) :=
| Parsed (a : A) (rest : text)
| Invalid
| Refused (r : refusal)
| OutOfFuel.
Arguments Parsed {A} a rest.
Arguments Invalid {A}.
Arguments Refused {A} r.
Arguments OutOfFuel {A}.

(** [WHITESPACE = ' \t\n\r'] *)
Definition is_ws (c : N) : bool :=
  (c =? 32) || (c =? 9) || (c =? 10) || (c =? 13).

Fixpoint skip_ws (s : text) : text :=
  match s with
  | c :: r => if is_ws c then skip_ws r else s
  | [] => []
  end.

Definition is_digit (c : N) : bool := (48 <=? c) && (c <=? 57).

(** The longest run of digits at the head of [s], and what follows it. *)
Fixpoint span_digits (s : text) : text * text :=
  match s with
  | c :: r =>
      if is_digit c then let (ds, rest) := span_digits r in (c :: ds, rest)
      else ([], s)
  | [] => ([], [])
  end.

(** Value of a run of decimal digits. *)
Definition digits_value (ds : text) : N :=
  fold_left (fun acc d => 10 * acc + (d - 48)) ds 0.

Definition hex_value (c : N) : option N :=
  if is_digit c then Some (c - 48)
  else if (97 <=? c) && (c <=? 102) then Some (c - 87)
  else if (65 <=? c) && (c <=? 70) then Some (c - 55)
  else None.

(** The four hexadecimal digits of a [\uXXXX] escape. *)
Definition hex4 (s : text) : option (N * text) :=
  match s with
  | a :: b :: c :: d :: rest =>
      match hex_value a, hex_value b, hex_value c, hex_value d with
      | Some x, Some y, Some z, Some w =>
          Some (((x * 16 + y) * 16 + z) * 16 + w, rest)
      | _, _, _, _ => None
      end
  | _ => None
  end.

Definition is_high_surrogate (u : N) : bool := (55296 <=? u) && (u <=? 56319).
Definition is_low_surrogate (u : N) : bool := (56320 <=? u) && (u <=? 57343).
Definition join_surrogates (hi lo : N) : N :=
  65536 + (hi - 55296) * 1024 + (lo - 56320).

(** One-character escapes: the [BACKSLASH] table. *)
Definition backslash (c : N) : option N :=
  if c =? 34 then Some 34
  else if c =? 92 then Some 92
  else if c =? 47 then Some 47
  else if c =? 98 then Some 8
  else if c =? 102 then Some 12
  else if c =? 110 then Some 10
  else if c =? 114 then Some 13
  else if c =? 116 then Some 9
  else None.

Definition emit (ch : N) (k : option (text * text)) : option (text * text) :=
  match k with
  | Some (str, rest) => Some (ch :: str, rest)
  | None => None
  end.

(** [scanstring], from the character after the opening quote: the decoded
    string and the text after the closing quote.  A high surrogate escape
    followed by a low surrogate escape is one code point. *)
Fixpoint scanstring (s : text) : option (text * text) :=
  match s with
  | [] => None
  | c :: r =>
      if c =? 34 then Some ([], r)
      else if c =? 92 then
        match r with
        | [] => None
        | esc :: r1 =>
            if esc =? 117 then
              match r1 with
              | a :: b :: c' :: d :: r2 =>
                  match hex4 [a; b; c'; d] with
                  | None => None
                  | Some (uni, _) =>
                      match r2 with
                      | bs :: u :: a2 :: b2 :: c2 :: d2 :: r3 =>
                          if is_high_surrogate uni && (bs =? 92) && (u =? 117)
                          then
                            match hex4 [a2; b2; c2; d2] with
                            | None => None
                            | Some (uni2, _) =>
                                if is_low_surrogate uni2
                                then emit (join_surrogates uni uni2)
                                          (scanstring r3)
                                else emit uni (scanstring r2)
                            end
                          else emit uni (scanstring r2)
                      | _ => emit uni (scanstring r2)
                      end
                  end
              | _ => None
              end
            else
              match backslash esc with
              | None => None
              | Some ch => emit ch (scanstring r1)
              end
        end
      else if c <=? 31 then None
      else emit c (scanstring r)
  end.

(** [NUMBER_RE]: an optional minus sign; a zero, or a non-zero digit and
    any digits; optionally a dot and one digit or more; optionally [e] or
    [E], an optional sign and one digit or more.  Without fraction and
    exponent the number is an [int], otherwise a [float]. *)
Definition scan_number (s : text) : option (json * text) :=
  let '(neg, s1) :=
    match s with
    | c :: r => if c =? 45 then (true, r) else (false, s)
    | [] => (false, s)
    end in
  let integer :=
    match s1 with
    | c :: r =>
        if c =? 48 then Some ([c], r)
        else if is_digit c then
          let (ds, rest) := span_digits r in Some (c :: ds, rest)
        else None
    | [] => None
    end in
  match integer with
  | None => None
  | Some (int_ds, s2) =>
      let '(frac, s3) :=
        match s2 with
        | dot :: d :: r =>
            if (dot =? 46) && is_digit d then
              let (ds, rest) := span_digits r in (Some (d :: ds), rest)
            else (None, s2)
        | _ => (None, s2)
        end in
      let '(exp, s4) :=
        match s3 with
        | e :: r =>
            if (e =? 101) || (e =? 69) then
              let '(eneg, r1) :=
                match r with
                | sg :: r' =>
                    if sg =? 45 then (true, r')
                    else if sg =? 43 then (false, r')
                    else (false, r)
                | [] => (false, r)
                end in
              match span_digits r1 with
              | ([], _) => (None, s3)
              | (es, rest) =>
                  let v := Z.of_N (digits_value es) in
                  (Some (if eneg then (- v)%Z else v), rest)
              end
            else (None, s3)
        | [] => (None, s3)
        end in
      match frac, exp with
      | None, None =>
          let v := Z.of_N (digits_value int_ds) in
          Some (JInt (if neg then (- v)%Z else v), s4)
      | _, _ =>
          let fs := match frac with Some ds => ds | None => [] end in
          let e := match exp with Some e => e | None => 0%Z end in
          Some (JFloat (Dec neg (digits_value (int_ds ++ fs))
                            (e - Z.of_nat (length fs))%Z),
                s4)
      end
  end.

(** The digits of the integer literal at the head of [s]: one for a
    zero, the run of digits otherwise; the sign does not count. *)
Definition int_digits (s : text) : nat :=
  let s1 :=
    match s with
    | c :: r => if c =? 45 then r else s
    | [] => s
    end in
  match s1 with
  | c :: _ => if c =? 48 then 1%nat else length (fst (span_digits s1))
  | [] => O
  end.

(** [int(literal)] refuses a literal of [n] digits. *)
Definition too_many_digits (lim : limits) (n : nat) : bool :=
  negb (Nat.eqb (max_str_digits lim) 0) && Nat.ltb (max_str_digits lim) n.

(** [_scan_once], [JSONObject] and [JSONArray].  The two loops carry what
    they have read so far; the fuel decreases at every call; [room] is
    the number of containers that may still be opened. *)
Fixpoint scan_once (lim : limits) (fuel room : nat) (s : text) {struct fuel}
  : parse_result json :=
  match fuel with
  | O => OutOfFuel
  | S n =>
      match s with
      | [] => Invalid
      | c :: r =>
          if c =? 34 then
            match scanstring r with
            | Some (str, rest) => Parsed (JString str) rest
            | None => Invalid
            end
          else if c =? 123 then
            match room with
            | O => Refused TooDeep
            | S room' =>
                match skip_ws r with
                | c1 :: r1 =>
                    if c1 =? 125 then Parsed (JObject []) r1
                    else JSONObject lim n room' [] (c1 :: r1)
                | [] => Invalid
                end
            end
          else if c =? 91 then
            match room with
            | O => Refused TooDeep
            | S room' =>
                match skip_ws r with
                | c1 :: r1 =>
                    if c1 =? 93 then Parsed (JArray []) r1
                    else JSONArray lim n room' [] (c1 :: r1)
                | [] => Invalid
                end
            end
          else if startswith (lit "null") s then Parsed JNull (skipn 4 s)
          else if startswith (lit "true") s
               then Parsed (JBool true) (skipn 4 s)
          else if startswith (lit "false") s
               then Parsed (JBool false) (skipn 5 s)
          else
            match scan_number s with
            | Some (JInt z, rest) =>
                if too_many_digits lim (int_digits s)
                then Refused TooManyDigits
                else Parsed (JInt z) rest
            | Some (v, rest) => Parsed v rest
            | None =>
                if startswith (lit "NaN") s
                then Parsed (JFloat NaN) (skipn 3 s)
                else if startswith (lit "Infinity") s
                then Parsed (JFloat (Inf false)) (skipn 8 s)
                else if startswith (lit "-Infinity") s
                then Parsed (JFloat (Inf true)) (skipn 9 s)
                else Invalid
            end
      end
  end

(** At the opening quote of a member's name, [pairs] read so far. *)
with JSONObject (lim : limits) (fuel room : nat) (pairs : dict) (s : text)
    {struct fuel} : parse_result json :=
  match fuel with
  | O => OutOfFuel
  | S n =>
      match s with
      | q :: r =>
          if q =? 34 then
            match scanstring r with
            | None => Invalid
            | Some (key, r1) =>
                match skip_ws r1 with
                | colon :: r2 =>
                    if colon =? 58 then
                      match scan_once lim n room (skip_ws r2) with
                      | Parsed value r3 =>
                          let pairs' := dict_set key value pairs in
                          match skip_ws r3 with
                          | c :: r4 =>
                              if c =? 125 then Parsed (JObject pairs') r4
                              else if c =? 44
                              then JSONObject lim n room pairs' (skip_ws r4)
                              else Invalid
                          | [] => Invalid
                          end
                      | Invalid => Invalid
                      | Refused x => Refused x
                      | OutOfFuel => OutOfFuel
                      end
                    else Invalid
                | [] => Invalid
                end
            end
          else Invalid
      | [] => Invalid
      end
  end

(** At the first character of an item, [values] read so far. *)
with JSONArray (lim : limits) (fuel room : nat) (values : list json)
    (s : text) {struct fuel} : parse_result json :=
  match fuel with
  | O => OutOfFuel
  | S n =>
      match scan_once lim n room s with
      | Parsed value r1 =>
          let values' := values ++ [value] in
          match skip_ws r1 with
          | c :: r2 =>
              if c =? 93 then Parsed (JArray values') r2
              else if c =? 44
              then JSONArray lim n room values' (skip_ws r2)
              else Invalid
          | [] => Invalid
          end
      | Invalid => Invalid
      | Refused x => Refused x
      | OutOfFuel => OutOfFuel
      end
  end.

(** Fuel that is never used up on [s]. *)
Definition fuel_for (s : text) : nat := 2 * length s + 3.

(** What [json.loads(s)] does: it returns a value, raises
    [JSONDecodeError], or gives up on a limit. *)
Inductive decoded :=
| Value (v : json)
| Malformed
| Exceeds (r : refusal).

(** [json.loads(s)]: one value between optional white space. *)
Definition json_decode (lim : limits) (s : text) : decoded :=
  let s1 := skip_ws s in
  match scan_once lim (fuel_for s1) (max_depth lim) s1 with
  | Parsed v rest =>
      match skip_ws rest with
      | [] => Value v
      | _ :: _ => Malformed
      end
  | Invalid | OutOfFuel => Malformed
  | Refused r => Exceeds r
  end.

(** The value [json.loads(s)] returns, [None] when it raises. *)
Definition json_loads (lim : limits) (s : text) : option json :=
  match json_decode lim s with
  | Value v => Some v
  | Malformed | Exceeds _ => None
  end.

(** Limits that no value of the text [s] meets: the text is decoded by
    the grammar alone. *)
Definition no_limits (s : text) : limits := mk_limits 0 (length s).

(** The limits of an interpreter left as it is installed: 4300 digits,
    and the recursion limit of 1000 less a few calls. *)
Definition default_limits : limits := mk_limits 4300 990.

End Decoder.
Export Decoder.

(* ================================================================== *)
(** * Facts about the decoder *)

Module DecoderFacts.

Local Open Scope N_scope.

Lemma json_loads_value (lim : limits) (s : text) (v : json) :
  json_loads lim s = Some v <-> json_decode lim s = Value v.
Proof.
  unfold json_loads. destruct (json_decode lim s); split; congruence.
Qed.

(** The loop of [JSONObject] returns objects only. *)
Lemma JSONObject_returns_object (lim : limits) (fuel : nat) :
  forall room pairs s v rest,
    JSONObject lim fuel room pairs s = Parsed v rest -> exists m, v = JObject m.
Proof.
  induction fuel as [|n IH]; intros room pairs s v rest H; [discriminate|].
  simpl in H.
  destruct s as [|q r0]; [discriminate|].
  destruct (q =? 34); [|discriminate].
  destruct (scanstring r0) as [[key r1]|]; [|discriminate].
  destruct (skip_ws r1) as [|colon r2]; [discriminate|].
  destruct (colon =? 58); [|discriminate].
  destruct (scan_once lim n room (skip_ws r2)) as [value r3| | |];
    try discriminate.
  destruct (skip_ws r3) as [|c r4]; [discriminate|].
  destruct (c =? 125).
  - injection H as <- _. eauto.
  - destruct (c =? 44); [|discriminate]. exact (IH _ _ _ _ _ H).
Qed.

(** One step of each of the three functions. *)
Lemma scan_once_step (lim : limits) (n room : nat) (s : text) :
  scan_once lim (S n) room s
  = match s with
    | [] => Invalid
    | c :: r =>
        if c =? 34 then
          match scanstring r with
          | Some (str, rest) => Parsed (JString str) rest
          | None => Invalid
          end
        else if c =? 123 then
          match room with
          | O => Refused TooDeep
          | S room' =>
              match skip_ws r with
              | c1 :: r1 =>
                  if c1 =? 125 then Parsed (JObject []) r1
                  else JSONObject lim n room' [] (c1 :: r1)
              | [] => Invalid
              end
          end
        else if c =? 91 then
          match room with
          | O => Refused TooDeep
          | S room' =>
              match skip_ws r with
              | c1 :: r1 =>
                  if c1 =? 93 then Parsed (JArray []) r1
                  else JSONArray lim n room' [] (c1 :: r1)
              | [] => Invalid
              end
          end
        else if startswith (lit "null") s then Parsed JNull (skipn 4 s)
        else if startswith (lit "true") s then Parsed (JBool true) (skipn 4 s)
        else if startswith (lit "false") s
        then Parsed (JBool false) (skipn 5 s)
        else
          match scan_number s with
          | Some (JInt z, rest) =>
              if too_many_digits lim (int_digits s)
              then Refused TooManyDigits
              else Parsed (JInt z) rest
          | Some (v, rest) => Parsed v rest
          | None =>
              if startswith (lit "NaN") s then Parsed (JFloat NaN) (skipn 3 s)
              else if startswith (lit "Infinity") s
              then Parsed (JFloat (Inf false)) (skipn 8 s)
              else if startswith (lit "-Infinity") s
              then Parsed (JFloat (Inf true)) (skipn 9 s)
              else Invalid
          end
    end.
Proof. reflexivity. Qed.

Lemma JSONObject_step (lim : limits) (n room : nat) (pairs : dict)
    (s : text) :
  JSONObject lim (S n) room pairs s
  = match s with
    | q :: r =>
        if q =? 34 then
          match scanstring r with
          | None => Invalid
          | Some (key, r1) =>
              match skip_ws r1 with
              | colon :: r2 =>
                  if colon =? 58 then
                    match scan_once lim n room (skip_ws r2) with
                    | Parsed value r3 =>
                        match skip_ws r3 with
                        | c :: r4 =>
                            if c =? 125
                            then Parsed (JObject (dict_set key value pairs)) r4
                            else if c =? 44
                            then JSONObject lim n room
                                   (dict_set key value pairs) (skip_ws r4)
                            else Invalid
                        | [] => Invalid
                        end
                    | Invalid => Invalid
                    | Refused x => Refused x
                    | OutOfFuel => OutOfFuel
                    end
                  else Invalid
              | [] => Invalid
              end
          end
        else Invalid
    | [] => Invalid
    end.
Proof. reflexivity. Qed.

Lemma JSONArray_step (lim : limits) (n room : nat) (values : list json)
    (s : text) :
  JSONArray lim (S n) room values s
  = match scan_once lim n room s with
    | Parsed value r1 =>
        match skip_ws r1 with
        | c :: r2 =>
            if c =? 93 then Parsed (JArray (values ++ [value])) r2
            else if c =? 44
            then JSONArray lim n room (values ++ [value]) (skip_ws r2)
            else Invalid
        | [] => Invalid
        end
    | Invalid => Invalid
    | Refused x => Refused x
    | OutOfFuel => OutOfFuel
    end.
Proof. reflexivity. Qed.

(** Text that starts with an opening brace decodes to an object, if it
    decodes. *)
Lemma json_loads_brace (lim : limits) (r : text) (v : json) :
  json_loads lim (lbrace :: r) = Some v -> exists m, v = JObject m.
Proof.
  unfold json_loads, json_decode.
  change (skip_ws (lbrace :: r)) with (lbrace :: r).
  unfold fuel_for. rewrite Nat.add_comm.
  change (3 + 2 * length (lbrace :: r))%nat
    with (S (2 + 2 * length (lbrace :: r)))%nat.
  set (n := (2 + 2 * length (lbrace :: r))%nat).
  rewrite scan_once_step.
  change (lbrace =? 34) with false. change (lbrace =? 123) with true.
  cbv beta iota.
  destruct (max_depth lim) as [|room]; [discriminate|].
  destruct (skip_ws r) as [|c1 r1]; [discriminate|].
  destruct (c1 =? 125).
  - destruct (skip_ws r1); [|discriminate]. intros H. injection H as <-. eauto.
  - destruct (JSONObject lim n room [] (c1 :: r1)) as [v' rest| | |] eqn:E;
      try discriminate.
    destruct (skip_ws rest); [|discriminate]. intros H. injection H as <-.
    exact (JSONObject_returns_object _ _ _ _ _ _ _ E).
Qed.

Lemma json_loads_empty (lim : limits) : json_loads lim [] = None.
Proof. reflexivity. Qed.

(** ** The fuel is never used up *)

Lemma skip_ws_length (s : text) : (length (skip_ws s) <= length s)%nat.
Proof.
  induction s as [|c r IH]; [apply Nat.le_refl|].
  cbn [skip_ws]. destruct (is_ws c); cbn [length]; lia.
Qed.

Lemma span_digits_length (s ds rest : text) :
  span_digits s = (ds, rest) -> (length rest <= length s)%nat.
Proof.
  revert ds rest. induction s as [|c r IH]; intros ds rest H.
  - injection H as _ <-. apply Nat.le_refl.
  - cbn [span_digits] in H. destruct (is_digit c).
    + destruct (span_digits r) as [ds' rest'] eqn:E.
      injection H as _ <-. specialize (IH _ _ eq_refl). cbn [length]. lia.
    + injection H as _ <-. apply Nat.le_refl.
Qed.

Lemma emit_some (ch : N) (k : option (text * text)) (str rest : text) :
  emit ch k = Some (str, rest) -> exists str', k = Some (str', rest).
Proof.
  destruct k as [[str' rest']|]; [|discriminate].
  intros H. injection H as _ <-. eauto.
Qed.

(** A string that is scanned ends before the end of the text. *)
Lemma scanstring_length (n : nat) :
  forall s str rest,
    (length s <= n)%nat -> scanstring s = Some (str, rest) ->
    (length rest < length s)%nat.
Proof.
  induction n as [|n IH]; intros s str rest Hn H.
  - destruct s; [discriminate|cbn in Hn; lia].
  - destruct s as [|c r]; [discriminate|]. cbn [length] in Hn.
    assert (Hrec : forall s' str',
               (length s' <= length r)%nat ->
               scanstring s' = Some (str', rest) ->
               (length rest < length (c :: r))%nat).
    { intros s' str' Hle Hs'. cbn [length].
      assert (length rest < length s')%nat by (apply (IH s' str'); [lia|exact Hs']).
      lia. }
    cbn [scanstring] in H.
    destruct (c =? 34).
    { injection H as _ <-. cbn [length]. lia. }
    destruct (c =? 92).
    2:{ destruct (c <=? 31); [discriminate|].
        apply emit_some in H. destruct H as [str' H].
        apply (Hrec r str'); [lia|exact H]. }
    destruct r as [|esc r1]; [discriminate|].
    destruct (esc =? 117).
    2:{ destruct (backslash esc); [|discriminate].
        apply emit_some in H. destruct H as [str' H].
        apply (Hrec r1 str'); [cbn [length]; lia|exact H]. }
    destruct r1 as [|a [|b [|c' [|d r2]]]]; try discriminate.
    destruct (hex4 [a; b; c'; d]) as [[uni u_rest]|]; [|discriminate].
    assert (Hr2 : forall str',
               scanstring r2 = Some (str', rest) ->
               (length rest < length (c :: esc :: a :: b :: c' :: d :: r2))%nat).
    { intros str' Hs'. apply (Hrec r2 str'); [cbn [length]; lia|exact Hs']. }
    destruct r2 as [|bs [|u [|a2 [|b2 [|c2 [|d2 r3]]]]]];
      try (apply emit_some in H; destruct H as [str' H];
           exact (Hr2 str' H)).
    destruct (is_high_surrogate uni && (bs =? 92) && (u =? 117)).
    2:{ apply emit_some in H. destruct H as [str' H]. exact (Hr2 str' H). }
    destruct (hex4 [a2; b2; c2; d2]) as [[uni2 u_rest2]|]; [|discriminate].
    destruct (is_low_surrogate uni2).
    + apply emit_some in H. destruct H as [str' H].
      apply (Hrec r3 str'); [cbn [length]; lia|exact H].
    + apply emit_some in H. destruct H as [str' H]. exact (Hr2 str' H).
Qed.

Ltac destruct_innermost H :=
  match type of H with
  | context [ match ?x with _ => _ end ] =>
      lazymatch x with
      | context [ match _ with _ => _ end ] => fail
      | _ => destruct x eqn:?
      end
  end.

(** A number that is scanned takes at least one character. *)
Lemma scan_number_length (s : text) (v : json) (rest : text) :
  scan_number s = Some (v, rest) -> (length rest < length s)%nat.
Proof.
  unfold scan_number. intros H.
  repeat (destruct_innermost H; try discriminate H).
  all: repeat match goal with
              | E : span_digits _ = (_, _) |- _ =>
                  apply span_digits_length in E
              | E : (_, _) = (_, _) |- _ => injection E as ? ?
              | E : Some _ = Some _ |- _ => injection E as ? ?
              end; subst; cbn [length] in *; lia.
Qed.

(** What the lengths of the texts at hand are known to satisfy. *)
Ltac lengths :=
  repeat match goal with
         | E : skip_ws ?a = _ |- _ =>
             let L := fresh "L" in
             pose proof (skip_ws_length a) as L; rewrite E in L; clear E
         | E : scanstring ?a = Some (_, _) |- _ =>
             apply (scanstring_length (length a) a _ _ (Nat.le_refl _)) in E
         | E : scan_number _ = Some (_, _) |- _ =>
             apply scan_number_length in E
         | E : Parsed _ _ = Parsed _ _ |- _ => injection E as ? ?; subst
         end;
  repeat match goal with
         | K : context [ length (skip_ws ?x) ] |- _ =>
             lazymatch goal with
             | _ : (length (skip_ws x) <= length x)%nat |- _ => fail
             | _ => pose proof (skip_ws_length x)
             end
         | |- context [ length (skip_ws ?x) ] =>
             lazymatch goal with
             | _ : (length (skip_ws x) <= length x)%nat |- _ => fail
             | _ => pose proof (skip_ws_length x)
             end
         end;
  cbn [length] in *.

(** Whatever is parsed takes at least one character. *)
Lemma parsers_advance (lim : limits) (n : nat) :
  (forall room s v rest,
      scan_once lim n room s = Parsed v rest -> (length rest < length s)%nat)
  /\ (forall room pairs s v rest,
        JSONObject lim n room pairs s = Parsed v rest ->
        (length rest < length s)%nat)
  /\ (forall room values s v rest,
        JSONArray lim n room values s = Parsed v rest ->
        (length rest < length s)%nat).
Proof.
  induction n as [|n (IHv & IHo & IHa)];
    [repeat split; intros; discriminate|].
  split; [|split].
  - intros room s v rest H. rewrite scan_once_step in H.
    repeat (destruct_innermost H; try discriminate H);
      try (apply IHo in H); try (apply IHa in H);
      try match type of H with
          | context [ skipn ?k ?x ] =>
              let L := fresh "L" in
              pose proof (length_skipn k x) as L;
              set (y := skipn k x) in *; clearbody y
          end;
      lengths; lia.
  - intros room pairs s v rest H. rewrite JSONObject_step in H.
    repeat (destruct_innermost H; try discriminate H);
      try (apply IHo in H);
      repeat match goal with
             | E : scan_once lim n _ _ = Parsed _ _ |- _ => apply IHv in E
             end;
      lengths; lia.
  - intros room values s v rest H. rewrite JSONArray_step in H.
    repeat (destruct_innermost H; try discriminate H);
      try (apply IHa in H);
      repeat match goal with
             | E : scan_once lim n _ _ = Parsed _ _ |- _ => apply IHv in E
             end;
      lengths; lia.
Qed.

Ltac destruct_innermost_goal :=
  match goal with
  | |- context [ match ?x with _ => _ end ] =>
      lazymatch x with
      | context [ match _ with _ => _ end ] => fail
      | _ => destruct x eqn:?
      end
  end.

Ltac advance lim :=
  repeat match goal with
         | E : scan_once lim ?n _ _ = Parsed _ _ |- _ =>
             apply (proj1 (parsers_advance lim n)) in E
         end.

(** With twice the length of the text for fuel, and a little more, none of
    the three functions runs out of it. *)
Lemma fuel_suffices (lim : limits) (n : nat) :
  (forall room s,
      (2 * length s + 1 <= n)%nat -> scan_once lim n room s <> OutOfFuel)
  /\ (forall room pairs s,
        (2 * length s + 2 <= n)%nat ->
        JSONObject lim n room pairs s <> OutOfFuel)
  /\ (forall room values s,
        (2 * length s + 2 <= n)%nat ->
        JSONArray lim n room values s <> OutOfFuel).
Proof.
  induction n as [|n (IHv & IHo & IHa)].
  { repeat split; intros; lia. }
  split; [|split].
  - intros room s Hn. rewrite scan_once_step.
    repeat destruct_innermost_goal; try discriminate;
      [apply IHo|apply IHa]; lengths; lia.
  - intros room pairs s Hn. rewrite JSONObject_step.
    repeat destruct_innermost_goal; try discriminate.
    + apply IHo. advance lim. lengths. lia.
    + match goal with
      | E : scan_once lim n _ ?x = OutOfFuel |- _ =>
          exfalso; revert E; apply IHv
      end.
      lengths. lia.
  - intros room values s Hn. rewrite JSONArray_step.
    repeat destruct_innermost_goal; try discriminate.
    + apply IHa. advance lim. lengths. lia.
    + match goal with
      | E : scan_once lim n _ ?x = OutOfFuel |- _ =>
          exfalso; revert E; apply IHv
      end.
      lia.
Qed.

(** [json_decode] decides: its [Malformed] never stands for fuel that ran
    out. *)
Theorem json_loads_total (lim : limits) (s : text) :
  scan_once lim (fuel_for (skip_ws s)) (max_depth lim) (skip_ws s)
  <> OutOfFuel.
Proof.
  apply (proj1 (fuel_suffices lim (fuel_for (skip_ws s)))).
  unfold fuel_for. lia.
Qed.

End DecoderFacts.

(* ================================================================== *)
(** * The runtime: exceptions, output, outbound requests, objects *)

Module Runtime.

(** The exception classes the service meets, all below [Exception].
    [RequestException] stands for [requests.exceptions.RequestException]
    and the transport failures below it; [RequestsJSONDecodeError] is the
    error of [Response.json()], which is both a [RequestException] and a
    [json.JSONDecodeError]. *)
Inductive exn :=
| RequestException (info : text)
| RequestsJSONDecodeError (doc : text)
| JSONDecodeError (doc : text)
| AttributeError (attribute : text)
| TypeError (operation : text)
| UnboundLocalError (variable : text)
| ValueError (info : text)
| RecursionError
| UnicodeEncodeError (line : text)
| OtherException (info : text).

Definition is_RequestException (e : exn) : bool :=
  match e with
  | RequestException _ | RequestsJSONDecodeError _ => true
  | _ => false
  end.

Definition is_JSONDecodeError (e : exn) : bool :=
  match e with
  | RequestsJSONDecodeError _ | JSONDecodeError _ => true
  | _ => false
  end.

Inductive http_method := GET | POST.

(** A call of [requests.get] or [requests.post]. *)
Record http_request := mk_request {
  method : http_method;
  url : text;
  payload : option json;
  timeout : Z
}.

Record http_response := mk_response {
  status_code : Z;
  response_text : text
}.

(** ** Standard output

    Standard output encodes UTF-8.  A surrogate, U+D800 to U+DFFF, has no
    encoding: with the error handler [strict], [print] raises
    [UnicodeEncodeError] on a line that holds one; with the handler
    [surrogateescape], which the interpreter takes in the C and POSIX
    locales, the surrogates U+DC80 to U+DCFF are written as the bytes
    they stand for and the others raise. *)
Inductive error_handler := strict | surrogateescape.

Definition is_surrogate (c : N) : bool := ((55296 <=? c) && (c <=? 57343))%N.

Definition escaped_byte (c : N) : bool := ((56448 <=? c) && (c <=? 56575))%N.

Definition encodable (errors : error_handler) (c : N) : bool :=
  negb (is_surrogate c)
  || match errors with
     | surrogateescape => escaped_byte c
     | strict => false
     end.

(** The line can be written to standard output. *)
Definition printable (errors : error_handler) (line : text) : bool :=
  forallb (encodable errors) line.

(** A line without surrogates, which every handler writes. *)
Definition plain (line : text) : bool :=
  forallb (fun c => negb (is_surrogate c)) line.

(** What the service cannot decide by itself: the answers of the network;
    the renderings of the interpreter and its libraries whose wording is
    theirs ([str(e)], [json.dumps(v, indent=2)], [str(v)] of an object
    that is not a string); the error handler of standard output; the
    limits the decoder meets; and [encoder_depth], the containers that
    [jsonify] may find open inside the outermost one before the encoder
    runs into the recursion limit.  [json.dumps(v, indent=2)] gives up in
    the same way, on a value nested too deep for it.  The messages of
    exceptions and the renderings of objects escape what cannot be
    written: they are lines that standard output takes. *)
Record runtime := mk_runtime {
  http : http_request -> exn + http_response;
  exn_str : exn -> text;
  json_dumps : json -> exn + text;
  repr_str : json -> text;
  stdout_errors : error_handler;
  decoder : limits;
  encoder_depth : nat;
  exn_str_printable :
    forall e, printable stdout_errors (exn_str e) = true;
  repr_str_printable :
    forall v, printable stdout_errors (repr_str v) = true
}.

(** A reference to an object: its index among the objects created. *)
Definition ref := nat.

Record world := mk_world {
  stdout : list text;
  calls : list http_request;
  objects : list json
}.

Definition empty_world : world := mk_world [] [] [].

(** A computation: it changes the world and returns or raises. *)
Definition M (A : Type) : Type := world -> world * (exn + A).

Definition ret {A} (a : A) : M A := fun w => (w, inr a).

Definition raise {A} (e : exn) : M A := fun w => (w, inl e).

Definition bind {A B} (m : M A) (k : A -> M B) : M B :=
  fun w =>
    match m w with
    | (w', inr a) => k a w'
    | (w', inl e) => (w', inl e)
    end.

(** [try: m  except Exception as e: h e] *)
Definition try_except {A} (m : M A) (h : exn -> M A) : M A :=
  fun w =>
    match m w with
    | (w', inl e) => h e w'
    | r => r
    end.

Definition lift {A} (r : exn + A) : M A := fun w => (w, r).

(** The world after one more line of output. *)
Definition printed (line : text) (w : world) : world :=
  mk_world (stdout w ++ [line]) (calls w) (objects w).

(** The world after one more object. *)
Definition allocated (v : json) (w : world) : world :=
  mk_world (stdout w) (calls w) (objects w ++ [v]).

(** The world after one more outbound request. *)
Definition called (req : http_request) (w : world) : world :=
  mk_world (stdout w) (calls w ++ [req]) (objects w).

(** [l] with [v] in the place of its item of index [r]. *)
Fixpoint replaced (r : nat) (v : json) (l : list json) : list json :=
  match l, r with
  | [], _ => []
  | _ :: rest, O => v :: rest
  | x :: rest, S r' => x :: replaced r' v rest
  end.

(** The world after the object behind [r] has been given the value [v]. *)
Definition updated (r : ref) (v : json) (w : world) : world :=
  mk_world (stdout w) (calls w) (replaced r v (objects w)).

(** [print(line)]: the line is written whole, or not at all. *)
Definition print (rt : runtime) (line : text) : M unit :=
  fun w =>
    if printable (stdout_errors rt) line then (printed line w, inr tt)
    else (w, inl (UnicodeEncodeError line)).

(** A new object holding [v]. *)
Definition new_object (v : json) : M ref :=
  fun w => (allocated v w, inr (length (objects w))).

Definition deref (w : world) (r : ref) : json := nth r (objects w) JNull.

Definition load (r : ref) : M json := fun w => (w, inr (deref w r)).

(** A change of an object in place, as [d[k] = x], [d.update(...)] or
    [l.append(x)] make: the object behind [r] holds [v] from now on, for
    everyone that refers to it.  The service never does this; that it
    does not is what the frame properties say. *)
Definition update (r : ref) (v : json) : M unit :=
  fun w => (updated r v w, inr tt).

Definition send (rt : runtime) (req : http_request) : M http_response :=
  fun w => (called req w, http rt req).

(** The exception of a refusal: [ValueError] from [int], [RecursionError]
    from the scanner. *)
Definition refusal_exn (r : refusal) : exn :=
  match r with
  | TooManyDigits =>
      ValueError (lit "Exceeds the limit for integer string conversion")
  | TooDeep => RecursionError
  end.

(** [json.loads(s)] *)
Definition loads (lim : limits) (s : text) : exn + json :=
  match json_decode lim s with
  | Value v => inr v
  | Malformed => inl (JSONDecodeError s)
  | Exceeds r => inl (refusal_exn r)
  end.

(** [Response.json()]: the decoding error becomes the one of [requests],
    the other exceptions pass. *)
Definition response_json (rt : runtime) (r : http_response) : M json :=
  match json_decode (decoder rt) (response_text r) with
  | Value v => ret v
  | Malformed => raise (RequestsJSONDecodeError (response_text r))
  | Exceeds x => raise (refusal_exn x)
  end.

(** [str(z)] for an [int]. *)
Definition int_str (z : Z) : text := lit (NilEmpty.string_of_int (Z.to_int z)).

(** [f'{v}'] *)
Definition format (rt : runtime) (v : json) : text :=
  match v with
  | JString s => s
  | _ => repr_str rt v
  end.

(** [v.lower()] *)
Definition str_lower (v : json) : exn + text :=
  match v with
  | JString s => inr (py_lower s)
  | _ => inl (AttributeError (lit "lower"))
  end.

(** [v.strip()] *)
Definition str_strip (v : json) : exn + text :=
  match v with
  | JString s => inr (py_strip s)
  | _ => inl (AttributeError (lit "strip"))
  end.

(** [v.get(k, default)] *)
Definition get_default (v : json) (k : text) (default : json) : exn + json :=
  match v with
  | JObject d =>
      inr (match dict_get k d with Some x => x | None => default end)
  | _ => inl (AttributeError (lit "get"))
  end.

(** [k in v], for a string [k]. *)
Definition contains (k : text) (v : json) : exn + bool :=
  match v with
  | JObject d =>
      inr (match dict_get k d with Some _ => true | None => false end)
  | JArray l =>
      inr (existsb
             (fun x => match x with JString s => text_eqb s k | _ => false end)
             l)
  | JString s => inr (py_in k s)
  | _ => inl (TypeError (lit "in"))
  end.

(** [v[k]], for a string [k]. *)
Definition getitem (v : json) (k : text) : exn + json :=
  match v with
  | JObject d =>
      match dict_get k d with
      | Some x => inr x
      | None => inl (OtherException (lit "KeyError"))
      end
  | _ => inl (TypeError (lit "getitem"))
  end.

Declare Scope monad_scope.
Delimit Scope monad_scope with monad.
Notation "x <- m ;; k" := (bind m (fun x => k))
  (at level 61, m at next level, right associativity) : monad_scope.
Notation "m ;; k" := (bind m (fun _ => k))
  (at level 61, right associativity) : monad_scope.

(** How the operations compose. *)
Lemma bind_ret {A B} (a : A) (k : A -> M B) (w : world) :
  bind (ret a) k w = k a w.
Proof. reflexivity. Qed.

Lemma bind_lift {A B} (r : exn + A) (k : A -> M B) (w : world) :
  bind (lift r) k w
  = match r with inr a => k a w | inl e => (w, inl e) end.
Proof. unfold bind, lift. now destruct r. Qed.

Lemma bind_print {B} (rt : runtime) (line : text) (k : unit -> M B)
    (w : world) :
  printable (stdout_errors rt) line = true ->
  bind (print rt line) k w = k tt (printed line w).
Proof. intros H. unfold bind, print. now rewrite H. Qed.

Lemma bind_print_refused {B} (rt : runtime) (line : text) (k : unit -> M B)
    (w : world) :
  printable (stdout_errors rt) line = false ->
  bind (print rt line) k w = (w, inl (UnicodeEncodeError line)).
Proof. intros H. unfold bind, print. now rewrite H. Qed.

Lemma bind_new_object {B} (v : json) (k : ref -> M B) (w : world) :
  bind (new_object v) k w = k (length (objects w)) (allocated v w).
Proof. reflexivity. Qed.

Lemma bind_load {B} (r : ref) (k : json -> M B) (w : world) :
  bind (load r) k w = k (deref w r) w.
Proof. reflexivity. Qed.

Lemma bind_send {B} (rt : runtime) (req : http_request)
    (k : http_response -> M B) (w : world) :
  bind (send rt req) k w
  = match http rt req with
    | inr response => k response (called req w)
    | inl e => (called req w, inl e)
    end.
Proof. unfold bind, send. now destruct (http rt req). Qed.

Lemma bind_response_json {B} (rt : runtime) (r : http_response)
    (k : json -> M B) (w : world) :
  bind (response_json rt r) k w
  = match json_decode (decoder rt) (response_text r) with
    | Value v => k v w
    | Malformed => (w, inl (RequestsJSONDecodeError (response_text r)))
    | Exceeds x => (w, inl (refusal_exn x))
    end.
Proof. unfold bind, response_json. now destruct (json_decode _ _) as [v| |x]. Qed.

(** When the body decodes. *)
Lemma bind_response_value {B} (rt : runtime) (r : http_response)
    (k : json -> M B) (w : world) (v : json) :
  json_loads (decoder rt) (response_text r) = Some v ->
  bind (response_json rt r) k w = k v w.
Proof.
  intros H. apply DecoderFacts.json_loads_value in H.
  now rewrite bind_response_json, H.
Qed.

Lemma loads_value (lim : limits) (s : text) (v : json) :
  json_loads lim s = Some v -> loads lim s = inr v.
Proof.
  intros H. apply DecoderFacts.json_loads_value in H. unfold loads.
  now rewrite H.
Qed.

(** ** Lines that can be written *)

Lemma printable_app (errors : error_handler) (a b : text) :
  printable errors (a ++ b) = printable errors a && printable errors b.
Proof. apply forallb_app. Qed.

Lemma printable_cons (errors : error_handler) (c : N) (a : text) :
  printable errors (c :: a) = encodable errors c && printable errors a.
Proof. reflexivity. Qed.

Lemma plain_printable (errors : error_handler) (line : text) :
  plain line = true -> printable errors line = true.
Proof.
  unfold plain, printable. rewrite !forallb_forall. intros H c Hc.
  unfold encodable. now rewrite (H c Hc).
Qed.

Lemma plain_app (a b : text) : plain (a ++ b) = plain a && plain b.
Proof. apply forallb_app. Qed.

Lemma plain_uint (u : Decimal.uint) :
  plain (lit (NilEmpty.string_of_uint u)) = true.
Proof. induction u; cbn; try reflexivity; assumption. Qed.

(** The decimal writing of an integer has digits and a sign only. *)
Lemma plain_int_str (z : Z) : plain (int_str z) = true.
Proof.
  unfold int_str. destruct (Z.to_int z) as [u|u]; cbn.
  - apply plain_uint.
  - apply plain_uint.
Qed.

Lemma printable_int_str (errors : error_handler) (z : Z) :
  printable errors (int_str z) = true.
Proof. apply plain_printable, plain_int_str. Qed.

(** What a filter keeps of a line can be written when the filter keeps
    no surrogate. *)
Lemma plain_filter (keep : N -> bool) (s : text) :
  (forall c, keep c = true -> is_surrogate c = false) ->
  plain (filter keep s) = true.
Proof.
  intros H. unfold plain. apply forallb_forall. intros c Hc.
  apply filter_In in Hc. destruct Hc as [_ Hc]. now rewrite (H c Hc).
Qed.

(** Solves goals of the form [printable errors line = true] for lines made
    of literals, integers, renderings of the runtime and parts known to
    be printable. *)
Ltac legible :=
  repeat first
    [ assumption
    | apply exn_str_printable
    | apply repr_str_printable
    | apply printable_int_str
    | reflexivity
    | rewrite printable_app; apply andb_true_intro; split
    | rewrite printable_cons; apply andb_true_intro; split ].

End Runtime.
Export Runtime.

(* ================================================================== *)
(** * The bot service: [src/bot-server/app.py] *)

Module Bot.

Local Open Scope Z_scope.
Local Open Scope monad_scope.

Definition SCHEMA_SERVICE_URL : text := lit "http://schema-service:5001".
Definition VALUES_SERVICE_URL : text := lit "http://values-service:5002".
Definition OLLAMA_URL : text := lit "http://ollama:11434".

(** The body of a [generate] call: model, prompt, no streaming, and the
    two options. *)
Definition generate_payload (prompt : text) (temperature : pyfloat)
    (num_predict : Z) : json :=
  JObject
    [ (lit "model", JString (lit "llama3.2"));
      (lit "prompt", JString prompt);
      (lit "stream", JBool false);
      (lit "options",
        JObject [ (lit "temperature", JFloat temperature);
                  (lit "num_predict", JInt num_predict) ]) ].

Definition generate_request (prompt : text) (temperature : pyfloat)
    (num_predict : Z) : http_request :=
  mk_request POST (OLLAMA_URL ++ lit "/api/generate")
             (Some (generate_payload prompt temperature num_predict)) 120.

Definition store_request (base app_name : text) : http_request :=
  mk_request GET (base ++ lit "/" ++ app_name) None 10.

(** A literal between double quotes. *)
Definition quoted (s : text) : text := dquote :: s ++ [dquote].

Definition classification_prompt (user_input : text) : text :=
  join_lines
    [ lit "Identify the application from this request. Only respond with one word: chat, matchmaking, or tournament.";
      [];
      lit "Request: " ++ user_input;
      [];
      lit "Answer (one word only):" ].

Definition edit_prompt (user_input values schema : text) : text :=
  join_lines
    [ lit "You are a configuration management assistant. Your task is to modify a JSON configuration based on a user's natural language request.";
      [];
      lit "User request: " ++ quoted user_input;
      [];
      lit "Current configuration (JSON):";
      values;
      [];
      lit "JSON Schema (for validation):";
      schema;
      [];
      lit "Instructions:";
      lit "1. Understand the user's request and identify what needs to be changed";
      lit "2. Apply ONLY the requested change to the current configuration";
      lit "3. Keep ALL other fields unchanged";
      lit "4. Ensure the modified JSON is valid and follows the schema";
      lit "5. Respond with ONLY the complete modified JSON, no explanations or markdown";
      [];
      lit "Common patterns:";
      lit "- " ++ quoted (lit "set X memory to Y") ++ lit " " ++ [arrow]
        ++ lit " modify resources.memory.limitMiB or requestMiB";
      lit "- " ++ quoted (lit "set X cpu to Y") ++ lit " " ++ [arrow]
        ++ lit " modify resources.cpu.limitMilliCPU or requestMilliCPU  ";
      lit "- " ++ quoted (lit "set X env to Y") ++ lit " " ++ [arrow]
        ++ lit " modify envs object";
      lit "- " ++ quoted (lit "lower/increase X by Y%") ++ lit " " ++ [arrow]
        ++ lit " calculate new value based on percentage";
      [];
      lit "Modified JSON:" ].

Record flask_response := mk_flask_response {
  body : json;
  status : Z
}.

(** [jsonify({'error': error, second_key: second})] *)
Definition error_body (error : text) (second_key : text) (second : json)
  : json :=
  JObject [ (lit "error", JString error); (second_key, second) ].

(** The answers that are the same for every request. *)
Definition edit_failed : flask_response :=
  mk_flask_response
    (error_body (lit "Failed to apply configuration change") (lit "hint")
       (JString (lit "The LLM could not parse or apply your request")))
    500.

Definition not_identified : flask_response :=
  mk_flask_response
    (error_body (lit "Could not identify application from request")
       (lit "hint")
       (JString (lit "Please mention one of: chat, matchmaking, or tournament")))
    400.

Definition missing_input : flask_response :=
  mk_flask_response
    (JObject [ (lit "error",
                JString (lit "Missing " ++ quoted (lit "input")
                           ++ lit " field in request")) ])
    400.

(** The answer when a store did not answer 200: [what] is [schema] or
    [values], [details] the decoded body of the store's answer. *)
Definition not_found (what app : text) (details : json) : flask_response :=
  mk_flask_response
    (error_body (lit "Could not fetch " ++ what ++ lit " for " ++ app)
                (lit "details") details)
    404.

Section Service.

Variable rt : runtime.

(** [return jsonify(body), code]: the body is encoded when the answer is
    made; a body nested deeper than the encoder has room for makes it
    raise. *)
Definition jsonify (body : json) (code : Z) : M flask_response :=
  if (depth body <=? S (encoder_depth rt))%nat
  then ret (mk_flask_response body code)
  else raise RecursionError.

Definition respond (answer : flask_response) : M flask_response :=
  jsonify (body answer) (status answer).

(** The answer to a failure of communication. *)
Definition communication_error (e : exn) : flask_response :=
  mk_flask_response
    (JObject [ (lit "error",
                JString (lit "Service communication error: "
                           ++ exn_str rt e)) ])
    500.

(** The answer to an exception that is not a [RequestException]. *)
Definition internal_error (e : exn) : flask_response :=
  mk_flask_response
    (JObject [ (lit "error",
                JString (lit "Internal server error: " ++ exn_str rt e)) ])
    500.

(** [identify_application], lines 71 to 140. *)
Definition identify_application (user_input : json) : M (option text) :=
  user_lower <- lift (str_lower user_input) ;;
  if py_in (lit "tournament") user_lower then
    print rt (lit "Identified application via keyword: tournament") ;;
    ret (Some (lit "tournament"))
  else if py_in (lit "matchmaking") user_lower then
    print rt (lit "Identified application via keyword: matchmaking") ;;
    ret (Some (lit "matchmaking"))
  else if py_in (lit "chat") user_lower then
    print rt (lit "Identified application via keyword: chat") ;;
    ret (Some (lit "chat"))
  else
    print rt (lit "No keyword match, using LLM for identification...") ;;
    let prompt := classification_prompt (format rt user_input) in
    try_except
      (response <- send rt (generate_request prompt (Dec false 0 (-1)) 10) ;;
       if status_code response =? 200 then
         result <- response_json rt response ;;
         answer <- lift (get_default result (lit "response") (JString [])) ;;
         stripped <- lift (str_strip answer) ;;
         let app_name := re_sub_non_lowercase (py_lower stripped) in
         if py_in (lit "tournament") app_name then
           print rt (lit "LLM identified: tournament") ;;
           ret (Some (lit "tournament"))
         else if py_in (lit "matchmaking") app_name then
           print rt (lit "LLM identified: matchmaking") ;;
           ret (Some (lit "matchmaking"))
         else if py_in (lit "chat") app_name then
           print rt (lit "LLM identified: chat") ;;
           ret (Some (lit "chat"))
         else
           print rt
             (lit "Could not identify application from LLM response: '"
                ++ app_name ++ lit "'") ;;
           ret None
       else
         print rt (lit "Error from Ollama: "
                     ++ int_str (status_code response)) ;;
         ret None)
      (fun e =>
         print rt (lit "Error identifying application: " ++ exn_str rt e) ;;
         ret None).

(** Lines 198 to 209: the text from the first opening brace to the last
    closing brace of [json_response], decoded into a new object. *)
Definition extract_updated_values (json_response : text) : M (option ref) :=
  let start_idx := py_find lbrace json_response in
  let end_idx := py_rfind rbrace json_response in
  if negb (start_idx =? -1) && negb (end_idx =? -1) then
    let json_str := py_slice json_response start_idx (end_idx + 1) in
    v <- lift (loads (decoder rt) json_str) ;;
    updated_values <- new_object v ;;
    print rt (lit "Successfully parsed updated configuration") ;;
    ret (Some updated_values)
  else
    print rt (lit "Could not find valid JSON in LLM response") ;;
    ret None.

(** The two [except] clauses of [apply_configuration_change], lines 215 to
    221, run where the local [json_response] is bound to [Some] text or is
    not bound yet.  An exception raised in a clause leaves the function. *)
Definition edit_handlers (json_response : option text) (e : exn)
  : M (option ref) :=
  if is_JSONDecodeError e then
    print rt (lit "Error parsing JSON from LLM response: "
                ++ exn_str rt e) ;;
    match json_response with
    | Some t =>
        print rt (lit "Response was: " ++ py_slice t 0 500) ;;
        ret None
    | None => raise (UnboundLocalError (lit "json_response"))
    end
  else
    print rt (lit "Error applying configuration change: "
                ++ exn_str rt e) ;;
    ret None.

(** Lines 198 to 218: the extraction under the [except] clauses, once
    [json_response] is bound. *)
Definition extraction (json_response : text) : M (option ref) :=
  try_except (extract_updated_values json_response)
             (edit_handlers (Some json_response)).

(** Lines 180 to 196 and 211 to 213, under the [except] clauses while
    [json_response] is not bound: the call of the provider, up to the
    completion, stripped; or what the function returns without one. *)
Definition completion_of (prompt : text) : M (option ref + text) :=
  try_except
    (response <- send rt (generate_request prompt (Dec false 1 (-1)) 4096) ;;
     if status_code response =? 200 then
       result <- response_json rt response ;;
       answer <- lift (get_default result (lit "response") (JString [])) ;;
       json_response <- lift (str_strip answer) ;;
       ret (inr json_response)
     else
       print rt (lit "Error from Ollama: "
                   ++ int_str (status_code response)) ;;
       ret (inl None))
    (fun e => returned <- edit_handlers None e ;; ret (inl returned)).

(** [apply_configuration_change], lines 142 to 221.  [schema] and
    [current_values] are the caller's objects; the result is a new one.
    The prompt is built before the [try]: the values are serialized, then
    the schema.  The [try] has one body and two clauses: its body is the
    call, then the extraction. *)
Definition apply_configuration_change (user_input : json)
    (schema current_values : ref) : M (option ref) :=
  values_doc <- load current_values ;;
  values_text <- lift (json_dumps rt values_doc) ;;
  schema_doc <- load schema ;;
  schema_text <- lift (json_dumps rt schema_doc) ;;
  let prompt := edit_prompt (format rt user_input) values_text schema_text in
  stage <- completion_of prompt ;;
  match stage with
  | inl returned => ret returned
  | inr json_response => extraction json_response
  end.

(** Lines 272 to 282 of [handle_message]: the edit and its answer.
    [updated_values] is [None] or an object, read where it is tested and
    where it is sent back. *)
Definition edit_and_respond (user_input : json)
    (schema current_values : ref) : M flask_response :=
  print rt (lit "Applying configuration change...") ;;
  updated_values <-
    apply_configuration_change user_input schema current_values ;;
  updated <-
    match updated_values with
    | None => ret JNull
    | Some r => load r
    end ;;
  if negb (truthy updated) then respond edit_failed
  else
    print rt (lit "Configuration updated successfully!") ;;
    jsonify updated 200.

(** Lines 252 to 282 of [handle_message]: the two documents are fetched
    for [app], then edited. *)
Definition fetch_and_edit (user_input : json) (app : text)
  : M flask_response :=
  print rt (lit "Fetching schema for " ++ app ++ lit "...") ;;
  schema_response <- send rt (store_request SCHEMA_SERVICE_URL app) ;;
  if negb (status_code schema_response =? 200) then
    details <- response_json rt schema_response ;;
    respond (not_found (lit "schema") app details)
  else
    schema_doc <- response_json rt schema_response ;;
    schema <- new_object schema_doc ;;
    print rt (lit "Fetching current values for " ++ app ++ lit "...") ;;
    values_response <- send rt (store_request VALUES_SERVICE_URL app) ;;
    if negb (status_code values_response =? 200) then
      details <- response_json rt values_response ;;
      respond (not_found (lit "values") app details)
    else
      values_doc <- response_json rt values_response ;;
      current_values <- new_object values_doc ;;
      edit_and_respond user_input schema current_values.

(** The two [except] clauses of [handle_message], lines 284 to 287. *)
Definition request_errors (e : exn) : M flask_response :=
  if is_RequestException e then respond (communication_error e)
  else respond (internal_error e).

(** [handle_message], lines 223 to 287.  [get_json] is what
    [request.get_json()] returns or raises. *)
Definition handle_message (get_json : exn + json) : M flask_response :=
  try_except
    (data <- lift get_json ;;
     has_input <-
       (if negb (truthy data) then ret false
        else lift (contains (lit "input") data)) ;;
     if negb has_input then respond missing_input
     else
       user_input <- lift (getitem data (lit "input")) ;;
       print rt (newline :: lit "=== Processing request: "
                   ++ format rt user_input ++ lit " ===") ;;
       app_name <- identify_application user_input ;;
       match app_name with
       | None | Some [] => respond not_identified
       | Some app => fetch_and_edit user_input app
       end)
    request_errors.

End Service.

End Bot.
Export Bot.

(* ================================================================== *)
(** * Scripted runtimes, to run the service on concrete exchanges *)

Module Script.

(** The prompt of a [generate] call. *)
Definition prompt_of (req : http_request) : text :=
  match payload req with
  | Some p =>
      match getitem p (lit "prompt") with
      | inr (JString s) => s
      | _ => []
      end
  | None => []
  end.

(** A network that gives one fixed answer to each of the four calls the
    service can make. *)
Definition scripted_http (classify schema values edit : exn + http_response)
    (req : http_request) : exn + http_response :=
  match method req with
  | GET =>
      if startswith SCHEMA_SERVICE_URL (url req) then schema else values
  | POST =>
      if startswith (lit "Identify") (prompt_of req) then classify else edit
  end.

(** The runtime of the examples: fixed renderings, the strict handler on
    standard output, the limits of an interpreter left as installed. *)
Definition scripted (classify schema values edit : exn + http_response)
  : runtime :=
  mk_runtime (scripted_http classify schema values edit)
             (fun _ => lit "error")
             (fun _ => inr (lit "<json>"))
             (fun _ => lit "<object>")
             strict default_limits 990
             (fun _ => eq_refl) (fun _ => eq_refl).

Definition ok (body : text) : exn + http_response :=
  inr (mk_response 200 body).

Definition unreachable : exn + http_response :=
  inl (RequestException (lit "connection refused")).

(** [{"key": "value"}] as text. *)
Definition object1 (key value : text) : text :=
  lit "{" ++ quoted key ++ lit ": " ++ quoted value ++ lit "}".

(** The body of a request [{"input": u}], decoded. *)
Definition ask (u : string) : exn + json :=
  inr (JObject [ (lit "input", JString (lit u)) ]).

End Script.
Export Script.

(* ================================================================== *)
(** * Facts about text *)

Module TextFacts.

Local Open Scope Z_scope.

Lemma py_find_absent (c : N) (s : text) :
  ~ In c s -> py_find c s = -1.
Proof.
  induction s as [|x r IH]; intros H; [reflexivity|].
  cbn [py_find]. destruct (N.eqb_spec x c) as [->|_].
  - exfalso. apply H. now left.
  - rewrite IH by (intros K; apply H; now right). reflexivity.
Qed.

Lemma py_find_present (c : N) (s : text) :
  In c s -> 0 <= py_find c s.
Proof.
  induction s as [|x r IH]; intros H; [destruct H|].
  cbn [py_find]. destruct (N.eqb_spec x c) as [->|Hne]; [lia|].
  destruct H as [H|H]; [congruence|].
  specialize (IH H). destruct (py_find c r <? 0) eqn:E; lia.
Qed.

Lemma py_find_first (c : N) (a m : text) :
  ~ In c a -> py_find c (a ++ c :: m) = Z.of_nat (length a).
Proof.
  induction a as [|x r IH]; intros H.
  - cbn. now rewrite N.eqb_refl.
  - cbn [app py_find length]. destruct (N.eqb_spec x c) as [->|_].
    + exfalso. apply H. now left.
    + rewrite IH by (intros K; apply H; now right).
      destruct (Z.of_nat (length r) <? 0) eqn:E; lia.
Qed.

Lemma py_rfind_absent (c : N) (s : text) :
  ~ In c s -> py_rfind c s = -1.
Proof.
  induction s as [|x r IH]; intros H; [reflexivity|].
  cbn [py_rfind]. rewrite IH by (intros K; apply H; now right).
  cbn. destruct (N.eqb_spec x c) as [->|_]; [|reflexivity].
  exfalso. apply H. now left.
Qed.

Lemma py_rfind_present (c : N) (s : text) :
  In c s -> 0 <= py_rfind c s.
Proof.
  induction s as [|x r IH]; intros H; [destruct H|].
  cbn [py_rfind]. destruct (0 <=? py_rfind c r) eqn:E; [lia|].
  destruct (N.eqb_spec x c) as [->|Hne]; [lia|].
  destruct H as [H|H]; [congruence|]. specialize (IH H). lia.
Qed.

Lemma py_rfind_last (c : N) (m b : text) :
  ~ In c b -> py_rfind c (m ++ c :: b) = Z.of_nat (length m).
Proof.
  intros H. induction m as [|x r IH].
  - cbn [app py_rfind length]. rewrite (py_rfind_absent _ _ H). cbn.
    now rewrite N.eqb_refl.
  - cbn [app py_rfind length]. rewrite IH.
    destruct (0 <=? Z.of_nat (length r)) eqn:E; lia.
Qed.

(** The first and the last occurrence of a character that occurs. *)
Lemma first_occurrence (c : N) (s : text) :
  In c s -> exists a m, s = a ++ c :: m /\ ~ In c a.
Proof.
  induction s as [|x r IH]; intros H; [destruct H|].
  destruct (N.eq_dec x c) as [->|Hne].
  - exists [], r. split; [reflexivity|intros []].
  - destruct H as [H|H]; [congruence|].
    destruct (IH H) as (a & m & -> & Ha).
    exists (x :: a), m. split; [reflexivity|].
    intros [K|K]; [congruence|auto].
Qed.

Lemma last_occurrence (c : N) (s : text) :
  In c s -> exists m b, s = m ++ c :: b /\ ~ In c b.
Proof.
  intros H. apply in_rev in H.
  destruct (first_occurrence _ _ H) as (a & m & E & Ha).
  exists (rev m), (rev a). split.
  - rewrite <- (rev_involutive s), E, rev_app_distr. cbn.
    now rewrite <- app_assoc.
  - intros K. apply Ha. now apply in_rev.
Qed.

Lemma py_slice_middle (a x b : text) :
  py_slice (a ++ x ++ b) (Z.of_nat (length a))
           (Z.of_nat (length a) + Z.of_nat (length x)) = x.
Proof.
  unfold py_slice, slice_bound. rewrite !length_app.
  destruct (Z.ltb_spec (Z.of_nat (length a)) 0); [lia|].
  destruct (Z.ltb_spec (Z.of_nat (length a) + Z.of_nat (length x)) 0);
    [lia|].
  rewrite !Z.min_l by lia.
  replace (Z.to_nat (Z.of_nat (length a) + Z.of_nat (length x)
                     - Z.of_nat (length a))) with (length x) by lia.
  rewrite Nat2Z.id, skipn_app, skipn_all, Nat.sub_diag. cbn.
  now rewrite firstn_app, firstn_all, Nat.sub_diag, firstn_O, app_nil_r.
Qed.

(** A slice that ends before it starts is empty. *)
Lemma py_slice_empty (s : text) (i j : Z) :
  0 <= j <= i -> py_slice s i j = [].
Proof.
  intros H. unfold py_slice, slice_bound.
  destruct (Z.ltb_spec i 0); [lia|]. destruct (Z.ltb_spec j 0); [lia|].
  replace (Z.to_nat _) with 0%nat by lia. reflexivity.
Qed.

Lemma py_find_bound (c : N) (s : text) :
  py_find c s < Z.of_nat (length s) \/ s = [].
Proof.
  induction s as [|x r IH]; [now right|left].
  cbn [py_find length]. destruct (N.eqb x c); [lia|].
  destruct IH as [IH| ->]; [|cbn; lia].
  destruct (Z.ltb_spec (py_find c r) 0); lia.
Qed.

Lemma py_rfind_bound (c : N) (s : text) :
  py_rfind c s < Z.of_nat (length s) \/ s = [].
Proof.
  induction s as [|x r IH]; [now right|left].
  cbn [py_rfind length]. destruct IH as [IH| ->].
  - destruct (Z.leb_spec 0 (py_rfind c r)); [lia|].
    destruct (N.eqb x c); lia.
  - cbn. destruct (N.eqb x c); lia.
Qed.

Lemma py_find_skip (c : N) (l s : text) :
  ~ In c l -> In c s ->
  py_find c (l ++ s) = Z.of_nat (length l) + py_find c s.
Proof.
  intros Hl Hs. induction l as [|x r IH]; [cbn; lia|].
  cbn [app py_find length]. destruct (N.eqb_spec x c) as [->|_].
  - exfalso. apply Hl. now left.
  - rewrite IH by (intros K; apply Hl; now right).
    apply py_find_present in Hs.
    destruct (Z.ltb_spec (Z.of_nat (length r) + py_find c s) 0); lia.
Qed.

Lemma py_find_app_l (c : N) (s r : text) :
  In c s -> py_find c (s ++ r) = py_find c s.
Proof.
  induction s as [|x s' IH]; intros H; [destruct H|].
  cbn [app py_find]. destruct (N.eqb_spec x c) as [->|Hne]; [reflexivity|].
  destruct H as [H|H]; [congruence|]. now rewrite IH.
Qed.

Lemma py_rfind_skip (c : N) (l s : text) :
  In c s -> py_rfind c (l ++ s) = Z.of_nat (length l) + py_rfind c s.
Proof.
  intros Hs. induction l as [|x r IH]; [cbn; lia|].
  cbn [app py_rfind length]. rewrite IH.
  apply py_rfind_present in Hs.
  destruct (Z.leb_spec 0 (Z.of_nat (length r) + py_rfind c s)); lia.
Qed.

Lemma py_rfind_app_l (c : N) (s r : text) :
  ~ In c r -> py_rfind c (s ++ r) = py_rfind c s.
Proof.
  intros Hr. induction s as [|x s' IH].
  - cbn. now apply py_rfind_absent.
  - cbn [app py_rfind]. now rewrite IH.
Qed.

(** A slice of the middle part of a text, taken in the whole text. *)
Lemma py_slice_shift (l s r : text) (i j : Z) :
  0 <= i -> 0 <= j <= Z.of_nat (length s) ->
  py_slice (l ++ s ++ r) (Z.of_nat (length l) + i) (Z.of_nat (length l) + j)
  = py_slice s i j.
Proof.
  intros Hi Hj. unfold py_slice, slice_bound. rewrite !length_app.
  destruct (Z.ltb_spec (Z.of_nat (length l) + i) 0); [lia|].
  destruct (Z.ltb_spec (Z.of_nat (length l) + j) 0); [lia|].
  destruct (Z.ltb_spec i 0); [lia|]. destruct (Z.ltb_spec j 0); [lia|].
  rewrite (Z.min_l j) by lia.
  rewrite (Z.min_l (Z.of_nat (length l) + j)) by lia.
  destruct (Z.le_gt_cases i (Z.of_nat (length s))) as [Hle|Hgt].
  - rewrite (Z.min_l i) by lia.
    rewrite (Z.min_l (Z.of_nat (length l) + i)) by lia.
    replace (Z.to_nat (Z.of_nat (length l) + i))
      with (Z.to_nat i + length l)%nat by lia.
    replace (Z.of_nat (length l) + j - (Z.of_nat (length l) + i))
      with (j - i) by lia.
    rewrite <- skipn_skipn, (skipn_app (length l)), skipn_all, Nat.sub_diag.
    cbn [skipn app].
    rewrite skipn_app, firstn_app. rewrite length_skipn.
    replace (Z.to_nat (j - i) - (length s - Z.to_nat i))%nat with 0%nat by lia.
    now rewrite firstn_O, app_nil_r.
  - replace (Z.to_nat (j - Z.min i (Z.of_nat (length s)))) with 0%nat by lia.
    replace (Z.to_nat (Z.of_nat (length l) + j
                       - Z.min (Z.of_nat (length l) + i)
                               (Z.of_nat (length l + (length s + length r)))))
      with 0%nat by lia.
    reflexivity.
Qed.

Definition blank (s : text) : Prop := Forall (fun c => py_isspace c = true) s.

Lemma py_lstrip_decompose (s : text) :
  exists l, s = l ++ py_lstrip s /\ blank l.
Proof.
  induction s as [|x r (l & E & Hl)]; [exists []; split; [reflexivity|constructor]|].
  cbn [py_lstrip]. destruct (py_isspace x) eqn:Hx.
  - exists (x :: l). split; [cbn; now rewrite <- E|now constructor].
  - exists []. split; [reflexivity|constructor].
Qed.

(** What [strip] removes is white space on both sides. *)
Lemma py_strip_decompose (s : text) :
  exists l r, s = l ++ py_strip s ++ r /\ blank l /\ blank r.
Proof.
  destruct (py_lstrip_decompose s) as (l & E & Hl).
  destruct (py_lstrip_decompose (rev (py_lstrip s))) as (r & E' & Hr).
  exists l, (rev r). split; [|split; [assumption|]].
  - unfold py_strip, py_rstrip. rewrite <- rev_app_distr, <- E'.
    now rewrite rev_involutive.
  - apply Forall_rev. exact Hr.
Qed.

Lemma blank_not_in (c : N) (s : text) :
  py_isspace c = false -> blank s -> ~ In c s.
Proof.
  intros Hc Hs K. unfold blank in Hs. rewrite Forall_forall in Hs.
  specialize (Hs _ K). congruence.
Qed.

End TextFacts.

(* ================================================================== *)
(** * Extraction of the edited document *)

Module Extraction.

Import TextFacts.
Local Open Scope Z_scope.

(** The text the extraction decodes. *)
Definition brace_slice (json_response : text) : text :=
  py_slice json_response (py_find lbrace json_response)
           (py_rfind rbrace json_response + 1).

(** The two failures of the extraction, as they are told apart on the
    output. *)
Definition no_json_located (w w' : world) : Prop :=
  w' = printed (lit "Could not find valid JSON in LLM response") w.

Definition malformed_json (rt : runtime) (json_response : text)
    (w w' : world) : Prop :=
  exists e,
    w' = printed (lit "Response was: " ++ py_slice json_response 0 500)
           (printed (lit "Error parsing JSON from LLM response: "
                       ++ exn_str rt e) w).

(** The completion of the specification's example, with its two line
    feeds. *)
Definition example_completion : text :=
  lit "Here is the result:" ++ [newline]
    ++ lit "{" ++ quoted (lit "a") ++ lit ":1}" ++ [newline] ++ lit "Done.".

Lemma braces_found (t : text) :
  In lbrace t -> In rbrace t ->
  negb (py_find lbrace t =? -1) && negb (py_rfind rbrace t =? -1) = true.
Proof.
  intros H1 H2. apply py_find_present in H1. apply py_rfind_present in H2.
  apply andb_true_intro; split; apply negb_true_iff, Z.eqb_neq; lia.
Qed.

Lemma braces_missing (t : text) :
  ~ In lbrace t \/ ~ In rbrace t ->
  negb (py_find lbrace t =? -1) && negb (py_rfind rbrace t =? -1) = false.
Proof.
  intros [H|H].
  - now rewrite (py_find_absent _ _ H).
  - rewrite (py_rfind_absent _ _ H). apply andb_false_r.
Qed.

Lemma brace_slice_between (a m b : text) :
  ~ In lbrace a -> ~ In rbrace b ->
  brace_slice (a ++ lbrace :: m ++ rbrace :: b) = lbrace :: m ++ [rbrace].
Proof.
  intros Ha Hb. unfold brace_slice.
  rewrite (py_find_first _ _ _ Ha).
  replace (a ++ lbrace :: m ++ rbrace :: b)
    with ((a ++ lbrace :: m) ++ rbrace :: b)
    by (now rewrite <- app_assoc).
  rewrite (py_rfind_last _ _ _ Hb).
  replace ((a ++ lbrace :: m) ++ rbrace :: b)
    with (a ++ (lbrace :: m ++ [rbrace]) ++ b)
    by (rewrite <- !app_assoc; cbn; now rewrite <- app_assoc).
  rewrite <- (py_slice_middle a (lbrace :: m ++ [rbrace]) b) at 2.
  f_equal. rewrite !length_app. cbn [length]. rewrite length_app. cbn. lia.
Qed.

Lemma in_strip (c : N) (t : text) :
  py_isspace c = false -> In c t -> In c (py_strip t).
Proof.
  intros Hc H. destruct (py_strip_decompose t) as (l & r & E & Hl & Hr).
  rewrite E in H. apply in_app_or in H. destruct H as [H|H].
  - now apply blank_not_in in H.
  - apply in_app_or in H. destruct H as [H|H]; [assumption|].
    now apply blank_not_in in H.
Qed.

(** Text without the braces, added on both sides, does not change what is
    sliced out. *)
Lemma brace_slice_padded (l s r : text) :
  ~ In lbrace l -> ~ In rbrace r -> In lbrace s -> In rbrace s ->
  brace_slice (l ++ s ++ r) = brace_slice s.
Proof.
  intros Hl Hr K1 K2. unfold brace_slice.
  rewrite py_find_skip; [|assumption|apply in_or_app; now left].
  rewrite py_find_app_l by assumption.
  rewrite py_rfind_skip by (apply in_or_app; now left).
  rewrite py_rfind_app_l by assumption.
  rewrite <- Z.add_assoc. rewrite py_slice_shift; [reflexivity| |].
  - now apply py_find_present.
  - apply py_rfind_present in K2.
    destruct (py_rfind_bound rbrace s) as [B|B]; [lia|].
    rewrite B in K2. cbn in K2. lia.
Qed.

(** Stripping the completion does not change what is sliced out of it. *)
Lemma brace_slice_strip (t : text) :
  In lbrace t -> In rbrace t -> brace_slice (py_strip t) = brace_slice t.
Proof.
  intros H1 H2.
  pose proof (in_strip lbrace t eq_refl H1) as K1.
  pose proof (in_strip rbrace t eq_refl H2) as K2.
  destruct (py_strip_decompose t) as (l & r & E & Hl & Hr).
  transitivity (brace_slice (l ++ py_strip t ++ r)); [|now rewrite <- E].
  symmetry. apply brace_slice_padded; try assumption;
    now apply blank_not_in.
Qed.

Lemma strip_in (c : N) (t : text) : In c (py_strip t) -> In c t.
Proof.
  intros H. destruct (py_strip_decompose t) as (l & r & E & _ & _).
  rewrite E. apply in_or_app. right. apply in_or_app. now left.
Qed.

(** What is sliced out starts at an opening brace, so it decodes to an
    object, if it decodes. *)
Lemma brace_slice_decodes_object (lim : limits) (t : text) (v : json) :
  In lbrace t -> json_loads lim (brace_slice t) = Some v ->
  exists m, v = JObject m.
Proof.
  intros H. destruct (first_occurrence _ _ H) as (a & m & -> & Ha).
  unfold brace_slice. rewrite (py_find_first _ _ _ Ha).
  unfold py_slice, slice_bound.
  destruct (Z.ltb_spec (Z.of_nat (length a)) 0); [lia|].
  rewrite (Z.min_l (Z.of_nat (length a)))
    by (rewrite length_app; cbn [length]; lia).
  rewrite Nat2Z.id, skipn_app, skipn_all, Nat.sub_diag. cbn [skipn app].
  destruct (Z.to_nat _) as [|k]; cbn [firstn].
  - discriminate.
  - apply DecoderFacts.json_loads_brace.
Qed.

Section WithRuntime.

Variable rt : runtime.

(** The value can be serialized: [json.dumps(v, indent=2)] returns. *)
Definition serialized (v : json) : Prop :=
  exists t, json_dumps rt v = inr t.

(** The text of a value that can be serialized. *)
Definition dumped (v : json) : text :=
  match json_dumps rt v with
  | inr t => t
  | inl _ => []
  end.

(** The request of the edit step for the two documents. *)
Definition edit_request (user_input schema_doc values_doc : json)
  : http_request :=
  generate_request
    (edit_prompt (format rt user_input) (dumped values_doc)
                 (dumped schema_doc))
    (Dec false 1 (-1)) 4096.

(** The edit, once the prompt is built: the call and, with a completion,
    the extraction. *)
Lemma apply_prompt (user_input : json) (schema values : ref) (w : world) :
  serialized (deref w values) -> serialized (deref w schema) ->
  apply_configuration_change rt user_input schema values w
  = bind (completion_of rt
            (edit_prompt (format rt user_input) (dumped (deref w values))
                         (dumped (deref w schema))))
         (fun stage =>
            match stage with
            | inl returned => ret returned
            | inr json_response => extraction rt json_response
            end) w.
Proof.
  intros [vt Hv] [st Hs]. unfold apply_configuration_change, dumped.
  rewrite bind_load, bind_lift, Hv, bind_load, bind_lift, Hs. reflexivity.
Qed.

(** With a completion in hand, the edit is the extraction from it. *)
Lemma apply_with_completion (user_input : json) (schema values : ref)
    (w : world) (reply : text) (result : json) (completion : text) :
  let req := edit_request user_input (deref w schema) (deref w values) in
  serialized (deref w values) -> serialized (deref w schema) ->
  http rt req = inr (mk_response 200 reply) ->
  json_loads (decoder rt) reply = Some result ->
  get_default result (lit "response") (JString []) = inr (JString completion) ->
  apply_configuration_change rt user_input schema values w
  = extraction rt (py_strip completion) (called req w).
Proof.
  intros req Hv Hs Hhttp Hreply Hget.
  rewrite (apply_prompt user_input schema values w Hv Hs).
  unfold bind at 1, completion_of, try_except.
  fold (edit_request user_input (deref w schema) (deref w values)). fold req.
  rewrite bind_send, Hhttp. cbn [status_code response_text].
  rewrite Z.eqb_refl.
  rewrite (bind_response_value rt _ _ _ result) by exact Hreply.
  rewrite bind_lift, Hget, bind_lift. cbn [str_strip]. reflexivity.
Qed.

Lemma extraction_parsed (t : text) (v : json) (w : world) :
  In lbrace t -> In rbrace t ->
  json_loads (decoder rt) (brace_slice t) = Some v ->
  extraction rt t w
  = (printed (lit "Successfully parsed updated configuration")
             (allocated v w),
     inr (Some (length (objects w)))).
Proof.
  intros H1 H2 Hv. unfold extraction, try_except, extract_updated_values.
  rewrite (braces_found _ H1 H2). fold (brace_slice t).
  rewrite bind_lift, (loads_value _ _ _ Hv). reflexivity.
Qed.

(** The line that tells the decoding error. *)
Definition decoding_line (t : text) : text :=
  lit "Error parsing JSON from LLM response: "
    ++ exn_str rt (JSONDecodeError (brace_slice t)).

(** The line that shows the head of the completion. *)
Definition preview_line (t : text) : text :=
  lit "Response was: " ++ py_slice t 0 500.

Lemma decoding_line_printable (t : text) :
  printable (stdout_errors rt) (decoding_line t) = true.
Proof. unfold decoding_line. legible. Qed.

Lemma extraction_malformed (t : text) (w : world) :
  In lbrace t -> In rbrace t ->
  json_decode (decoder rt) (brace_slice t) = Malformed ->
  extraction rt t w
  = if printable (stdout_errors rt) (preview_line t)
    then (printed (preview_line t) (printed (decoding_line t) w), inr None)
    else (printed (decoding_line t) w,
          inl (UnicodeEncodeError (preview_line t))).
Proof.
  intros H1 H2 Hv. unfold extraction, try_except, extract_updated_values.
  rewrite (braces_found _ H1 H2). fold (brace_slice t).
  rewrite bind_lift. unfold loads. rewrite Hv.
  unfold edit_handlers. cbn [is_JSONDecodeError].
  fold (decoding_line t). rewrite bind_print by apply decoding_line_printable.
  fold (preview_line t).
  destruct (printable (stdout_errors rt) (preview_line t)) eqn:P.
  - now rewrite bind_print by exact P.
  - now rewrite bind_print_refused by exact P.
Qed.

(** The slice is given up on: the clause for the other exceptions
    answers. *)
Lemma extraction_refused (t : text) (w : world) (r : refusal) :
  In lbrace t -> In rbrace t ->
  json_decode (decoder rt) (brace_slice t) = Exceeds r ->
  extraction rt t w
  = (printed (lit "Error applying configuration change: "
                ++ exn_str rt (refusal_exn r)) w,
     inr None).
Proof.
  intros H1 H2 Hv. unfold extraction, try_except, extract_updated_values.
  rewrite (braces_found _ H1 H2). fold (brace_slice t).
  rewrite bind_lift. unfold loads. rewrite Hv.
  unfold edit_handlers.
  replace (is_JSONDecodeError (refusal_exn r)) with false
    by (now destruct r).
  rewrite bind_print by legible. reflexivity.
Qed.

Lemma extraction_not_located (t : text) (w : world) :
  ~ In lbrace t \/ ~ In rbrace t ->
  extraction rt t w
  = (printed (lit "Could not find valid JSON in LLM response") w, inr None).
Proof.
  intros H. unfold extraction, try_except, extract_updated_values.
  rewrite (braces_missing _ H). reflexivity.
Qed.

End WithRuntime.

(** ** Where the edit succeeds and how it fails *)

Definition parsed_world (v : json) (w : world) : world :=
  printed (lit "Successfully parsed updated configuration") (allocated v w).

(** The object of the specification's example decodes wherever one
    container may be opened. *)
Lemma example_decodes (lim : limits) :
  max_depth lim <> 0%nat ->
  json_loads lim (brace_slice example_completion)
  = Some (JObject [(lit "a", JInt 1)]).
Proof.
  destruct lim as [digits [|room]]; [contradiction|]. intros _.
  destruct digits as [|digits]; vm_compute; reflexivity.
Qed.

(** A completion that is an object with one member, an integer of 4301
    digits. *)
Definition long_completion : text :=
  lit "{" ++ quoted (lit "a") ++ lit ": " ++ repeat 57%N 4301 ++ lit "}".

(** The answer of the provider that carries it. *)
Definition long_reply : text :=
  lit "{" ++ quoted (lit "response") ++ lit ": "
    ++ quoted (lit "{\" ++ [dquote] ++ lit "a\" ++ [dquote] ++ lit ": "
                 ++ repeat 57%N 4301 ++ lit "}")
    ++ lit "}".

Definition long_runtime : runtime :=
  scripted unreachable (ok (lit "{}")) (ok (lit "{}")) (ok long_reply).

(** C1, as stated, fails: the completion has both braces and the text
    between them is valid JSON, an object that the grammar of the
    decoder accepts; but its integer has more than 4300 digits,
    [json.loads] raises [ValueError] on it, and the edit returns
    nothing. *)
Lemma long_integer_is_not_returned :
  In lbrace long_completion /\ In rbrace long_completion
  /\ json_loads (no_limits (brace_slice long_completion))
                (brace_slice long_completion)
     = Some (JObject [(lit "a", JInt (10 ^ 4301 - 1))])
  /\ json_decode default_limits (brace_slice long_completion)
     = Exceeds TooManyDigits
  /\ snd (apply_configuration_change long_runtime (JString (lit "set a"))
            0%nat 1%nat (mk_world [] [] [JObject []; JObject []]))
     = inr None.
Proof.
  split; [vm_compute; tauto|].
  split; [unfold long_completion; do 4 (apply in_or_app; right);
          left; reflexivity|].
  split; [vm_compute; reflexivity|].
  split; vm_compute; reflexivity.
Qed.

(** C1, amended.  For a completion that contains an opening and a
    closing brace, the edit decodes the text from the first opening brace
    through the last closing brace: that text is [lbrace :: m ++ [rbrace]]
    for every way of writing the completion as
    [a ++ lbrace :: m ++ rbrace :: b] with no opening brace in [a] and no
    closing brace in [b]; and when [json.loads] returns [v] for it, which
    it does for valid JSON within the limits of the interpreter, the edit
    returns a new object holding [v].  On the completion of the example
    the edit returns an object holding [{"a": 1}]. *)
Theorem edit_decodes_brace_slice (rt : runtime) (user_input : json)
    (schema values : ref) (w : world) (reply : text) (result : json)
    (completion : text) :
  let req := edit_request rt user_input (deref w schema) (deref w values) in
  serialized rt (deref w values) -> serialized rt (deref w schema) ->
  http rt req = inr (mk_response 200 reply) ->
  json_loads (decoder rt) reply = Some result ->
  get_default result (lit "response") (JString []) = inr (JString completion) ->
  In lbrace completion -> In rbrace completion ->
  (forall a m b,
      completion = a ++ lbrace :: m ++ rbrace :: b ->
      ~ In lbrace a -> ~ In rbrace b ->
      brace_slice completion = lbrace :: m ++ [rbrace])
  /\ (forall v,
         json_loads (decoder rt) (brace_slice completion) = Some v ->
         apply_configuration_change rt user_input schema values w
         = (parsed_world v (called req w), inr (Some (length (objects w))))
         /\ deref (parsed_world v (called req w)) (length (objects w)) = v)
  /\ (completion = example_completion ->
      max_depth (decoder rt) <> 0%nat ->
      apply_configuration_change rt user_input schema values w
      = (parsed_world (JObject [(lit "a", JInt 1)]) (called req w),
         inr (Some (length (objects w))))).
Proof.
  intros req Hv Hs Hhttp Hreply Hget H1 H2.
  assert (G : forall v,
             json_loads (decoder rt) (brace_slice completion) = Some v ->
             apply_configuration_change rt user_input schema values w
             = (parsed_world v (called req w),
                inr (Some (length (objects w))))).
  { intros v Hdec.
    rewrite (apply_with_completion rt user_input schema values w reply
               result completion Hv Hs Hhttp Hreply Hget).
    fold req.
    rewrite (extraction_parsed rt (py_strip completion) v (called req w));
      [reflexivity|now apply in_strip|now apply in_strip|].
    now rewrite brace_slice_strip. }
  split; [|split].
  - intros a m b -> Ha Hb. now apply brace_slice_between.
  - intros v Hdec. split; [exact (G v Hdec)|].
    unfold deref, parsed_world, printed, allocated, called.
    cbn [objects]. now rewrite nth_middle.
  - intros -> Hroom. apply G. now apply example_decodes.
Qed.

(** The answer of the provider that carries the example's completion:
    [{"response": "Here is the result:\n{\"a\":1}\nDone."}]. *)
Definition example_reply : text :=
  object1 (lit "response")
    (lit "Here is the result:\n{\" ++ [dquote] ++ lit "a\" ++ [dquote]
       ++ lit ":1}\nDone.").

Definition example_runtime : runtime :=
  scripted unreachable (ok (lit "{}")) (ok (lit "{}")) (ok example_reply).

Ltac find_in := repeat (first [left; reflexivity | right]).

Lemma edit_decodes_brace_slice_witness :
  apply_configuration_change example_runtime (JString (lit "set a to 1"))
    0%nat 1%nat (mk_world [] [] [JObject []; JObject []])
  = (parsed_world (JObject [(lit "a", JInt 1)])
       (called (edit_request example_runtime (JString (lit "set a to 1"))
                             (JObject []) (JObject []))
               (mk_world [] [] [JObject []; JObject []])),
     inr (Some 2%nat)).
Proof.
  apply (edit_decodes_brace_slice example_runtime
           (JString (lit "set a to 1")) 0%nat 1%nat
           (mk_world [] [] [JObject []; JObject []])
           example_reply
           (JObject [(lit "response", JString example_completion)])
           example_completion).
  - exists (lit "<json>"). reflexivity.
  - exists (lit "<json>"). reflexivity.
  - reflexivity.
  - vm_compute. reflexivity.
  - reflexivity.
  - unfold example_completion. vm_compute. find_in.
  - vm_compute. find_in.
  - vm_compute. reflexivity.
  - vm_compute. discriminate.
Defined.

(** ** The failures *)

(** An opening brace and no closing brace: the specification's example of
    malformed JSON. *)
Definition open_brace_alone : text := lit "{ malformed".

(** Braces around text that is not JSON. *)
Definition braces_around_prose : text := lit "{ malformed }".

(** A provider whose completion is [{ malformed]. *)
Definition open_brace_runtime : runtime :=
  scripted unreachable (ok (lit "{}")) (ok (lit "{}"))
           (ok (object1 (lit "response") open_brace_alone)).

(** The world in which the examples of the edit run: the two documents,
    both empty objects. *)
Definition two_documents : world := mk_world [] [] [JObject []; JObject []].

(** C2, as stated, fails: on the completion [{ malformed] the edit reports
    that no JSON was located, not that the JSON is malformed. *)
Lemma open_brace_alone_is_not_located :
  let req := edit_request open_brace_runtime (JString (lit "set a to 1"))
                          (JObject []) (JObject []) in
  let after := apply_configuration_change open_brace_runtime
                 (JString (lit "set a to 1")) 0%nat 1%nat two_documents in
  http open_brace_runtime req
  = ok (object1 (lit "response") open_brace_alone)
  /\ snd after = inr None
  /\ no_json_located (called req two_documents) (fst after)
  /\ ~ malformed_json open_brace_runtime (py_strip open_brace_alone)
         (called req two_documents) (fst after).
Proof.
  split; [reflexivity|]. split; [vm_compute; reflexivity|].
  split; [vm_compute; reflexivity|].
  intros [e H]. vm_compute in H. discriminate H.
Qed.

(** C2, amended.  With a completion in hand, the edit reports its
    failures by kind and returns [None].  Without an opening or without a
    closing brace in the completion, no JSON is located.  When the text
    from the first opening brace to the last closing brace is not valid
    JSON, the JSON is malformed: the error is printed, then the first 500
    characters of the completion stripped of its surrounding white space,
    if standard output can take them; if it cannot, the exception of
    [print] leaves the edit.  A slice the interpreter gives up on (an
    integer too long, a nesting too deep) is a third failure, reported as
    an error of the edit.  The completion [{ malformed] has no closing
    brace: no JSON is located; the completion [{ malformed }] is
    malformed JSON. *)
Theorem extraction_failures_by_kind (rt : runtime) (user_input : json)
    (schema values : ref) (w : world) (reply : text) (result : json)
    (completion : text) :
  let req := edit_request rt user_input (deref w schema) (deref w values) in
  let after := apply_configuration_change rt user_input schema values w in
  let t := py_strip completion in
  serialized rt (deref w values) -> serialized rt (deref w schema) ->
  http rt req = inr (mk_response 200 reply) ->
  json_loads (decoder rt) reply = Some result ->
  get_default result (lit "response") (JString []) = inr (JString completion) ->
  (~ In lbrace completion \/ ~ In rbrace completion ->
   snd after = inr None /\ no_json_located (called req w) (fst after))
  /\ (In lbrace completion -> In rbrace completion ->
      json_decode (decoder rt) (brace_slice completion) = Malformed ->
      (printable (stdout_errors rt) (preview_line t) = true ->
       snd after = inr None
       /\ malformed_json rt t (called req w) (fst after))
      /\ (printable (stdout_errors rt) (preview_line t) = false ->
          after = (printed (decoding_line rt t) (called req w),
                   inl (UnicodeEncodeError (preview_line t)))))
  /\ (forall r,
        In lbrace completion -> In rbrace completion ->
        json_decode (decoder rt) (brace_slice completion) = Exceeds r ->
        after = (printed (lit "Error applying configuration change: "
                            ++ exn_str rt (refusal_exn r)) (called req w),
                 inr None))
  /\ (completion = open_brace_alone ->
      snd after = inr None /\ no_json_located (called req w) (fst after))
  /\ (completion = braces_around_prose ->
      max_depth (decoder rt) <> 0%nat ->
      snd after = inr None
      /\ malformed_json rt t (called req w) (fst after)).
Proof.
  intros req after t Hv Hs Hhttp Hreply Hget.
  assert (A : after = extraction rt t (called req w)).
  { unfold after, t, req.
    exact (apply_with_completion rt user_input schema values w reply
             result completion Hv Hs Hhttp Hreply Hget). }
  assert (Hnone : ~ In lbrace completion \/ ~ In rbrace completion ->
            snd after = inr None
            /\ no_json_located (called req w) (fst after)).
  { intros H. rewrite A, (extraction_not_located rt t (called req w)).
    - split; reflexivity.
    - destruct H as [H|H]; [left|right]; intros K; apply H;
        exact (strip_in _ _ K). }
  assert (Hbad : In lbrace completion -> In rbrace completion ->
            json_decode (decoder rt) (brace_slice completion) = Malformed ->
            printable (stdout_errors rt) (preview_line t) = true ->
            snd after = inr None
            /\ malformed_json rt t (called req w) (fst after)).
  { intros H1 H2 H3 P. rewrite A.
    rewrite (extraction_malformed rt t (called req w));
      [|now apply in_strip|now apply in_strip
       |unfold t; now rewrite brace_slice_strip].
    rewrite P. split; [reflexivity|].
    exists (JSONDecodeError (brace_slice t)). reflexivity. }
  split; [exact Hnone|]. split; [|split; [|split]].
  - intros H1 H2 H3. split; [now apply Hbad|].
    intros P. rewrite A.
    rewrite (extraction_malformed rt t (called req w));
      [|now apply in_strip|now apply in_strip
       |unfold t; now rewrite brace_slice_strip].
    now rewrite P.
  - intros r H1 H2 H3. rewrite A.
    apply extraction_refused;
      [now apply in_strip|now apply in_strip
      |unfold t; now rewrite brace_slice_strip].
  - intros E. apply Hnone. right. rewrite E. vm_compute.
    intuition discriminate.
  - intros E Hroom. apply Hbad.
    + rewrite E. vm_compute. find_in.
    + rewrite E. vm_compute. find_in.
    + rewrite E. destruct (decoder rt) as [digits [|room]];
        [contradiction|]. vm_compute. reflexivity.
    + unfold t. rewrite E. reflexivity.
Qed.

(** A provider whose completion is [{ malformed }]. *)
Definition prose_runtime : runtime :=
  scripted unreachable (ok (lit "{}")) (ok (lit "{}"))
           (ok (object1 (lit "response") braces_around_prose)).

Lemma extraction_failures_by_kind_witness :
  let req := edit_request prose_runtime (JString (lit "set a to 1"))
                          (JObject []) (JObject []) in
  let after := apply_configuration_change prose_runtime
                 (JString (lit "set a to 1")) 0%nat 1%nat two_documents in
  snd after = inr None
  /\ malformed_json prose_runtime (py_strip braces_around_prose)
       (called req two_documents) (fst after).
Proof.
  apply (proj1 (proj1 (proj2 (extraction_failures_by_kind prose_runtime
                         (JString (lit "set a to 1")) 0%nat 1%nat
                         two_documents
                         (object1 (lit "response") braces_around_prose)
                         (JObject [(lit "response",
                                    JString braces_around_prose)])
                         braces_around_prose
                         (ex_intro _ (lit "<json>") eq_refl)
                         (ex_intro _ (lit "<json>") eq_refl)
                         eq_refl eq_refl eq_refl))
                      ltac:(vm_compute; find_in) ltac:(vm_compute; find_in)
                      eq_refl)).
  reflexivity.
Defined.

End Extraction.

(* ================================================================== *)
(** * Resolution of the application *)

Module Identification.

Import Extraction.
Local Open Scope N_scope.

(** The three identifiers, in the order of their priority. *)
Definition keywords : list text :=
  [lit "tournament"; lit "matchmaking"; lit "chat"].

(** The first keyword, in the order of priority, that occurs in [s]. *)
Definition first_keyword (s : text) : option text :=
  find (fun k => py_in k s) keywords.

(** [c] is the letter [k] or its capital. *)
Definition same_letter (c k : N) : bool :=
  (c =? k) || ((65 <=? c) && (c <=? 90) && (c + 32 =? k)).

Fixpoint startswith_nocase (kw s : text) : bool :=
  match kw, s with
  | [], _ => true
  | k :: kw', c :: s' => same_letter c k && startswith_nocase kw' s'
  | _ :: _, [] => false
  end.

(** [kw], written in small letters, occurs in [s] in any mix of small and
    capital letters. *)
Fixpoint occurs_nocase (kw s : text) : bool :=
  startswith_nocase kw s ||
  match s with
  | [] => false
  | _ :: r => occurs_nocase kw r
  end.

Definition small_letter (k : N) : bool := (97 <=? k) && (k <=? 122).

Lemma lower_cp_same_letter (c k : N) :
  small_letter k = true -> same_letter c k = true -> lower_cp c = [k].
Proof.
  unfold small_letter, same_letter, lower_cp. intros Hk H.
  apply andb_true_iff in Hk. destruct Hk as [K1 K2].
  apply N.leb_le in K1, K2.
  apply orb_true_iff in H. destruct H as [H|H].
  - apply N.eqb_eq in H. subst c.
    destruct (N.leb_spec 65 k); destruct (N.leb_spec k 90);
      destruct (N.leb_spec 192 k); destruct (N.leb_spec k 222);
      destruct (N.eqb_spec k 215); destruct (N.eqb_spec k 304);
      destruct (N.eqb_spec k 8490); cbn; try reflexivity; lia.
  - apply andb_true_iff in H. destruct H as [H H3].
    apply andb_true_iff in H. destruct H as [H1 H2].
    rewrite H1, H2. cbn. apply N.eqb_eq in H3. now subst k.
Qed.

Lemma startswith_lower (kw s : text) :
  forallb small_letter kw = true ->
  startswith_nocase kw s = true -> startswith kw (py_lower s) = true.
Proof.
  revert s. induction kw as [|k kw IH]; intros s Hkw H; [reflexivity|].
  destruct s as [|c s]; [discriminate|].
  cbn [forallb] in Hkw. apply andb_true_iff in Hkw. destruct Hkw as [Hk Hkw].
  cbn [startswith_nocase] in H. apply andb_true_iff in H. destruct H as [H1 H2].
  unfold py_lower. cbn [flat_map].
  rewrite (lower_cp_same_letter c k Hk H1). cbn [app startswith].
  rewrite N.eqb_refl. exact (IH s Hkw H2).
Qed.

Lemma py_in_app_r (kw a b : text) :
  py_in kw b = true -> py_in kw (a ++ b) = true.
Proof.
  intros H. induction a as [|x a IH]; [exact H|].
  cbn [app py_in]. rewrite IH. apply orb_true_r.
Qed.

Lemma py_in_startswith (kw s : text) :
  startswith kw s = true -> py_in kw s = true.
Proof. intros H. destruct s; cbn [py_in]; now rewrite H. Qed.

(** A keyword that occurs in some mix of cases occurs in the lower-cased
    text. *)
Lemma occurs_nocase_lower (kw s : text) :
  forallb small_letter kw = true ->
  occurs_nocase kw s = true -> py_in kw (py_lower s) = true.
Proof.
  intros Hkw. induction s as [|c s IH]; intros H.
  - cbn [occurs_nocase] in H. rewrite orb_false_r in H.
    apply py_in_startswith. now apply startswith_lower.
  - cbn [occurs_nocase] in H. apply orb_true_iff in H. destruct H as [H|H].
    + apply py_in_startswith. now apply startswith_lower.
    + unfold py_lower. cbn [flat_map]. apply py_in_app_r. exact (IH H).
Qed.

(** What is left of a text without its characters other than the small
    letters can be written to standard output. *)
Lemma cleaned_printable (errors : error_handler) (s : text) :
  printable errors (re_sub_non_lowercase s) = true.
Proof.
  apply plain_printable, plain_filter. intros c H.
  apply andb_true_iff in H. destruct H as [H1 H2].
  apply N.leb_le in H1, H2. unfold is_surrogate.
  apply andb_false_iff. left. apply N.leb_gt. lia.
Qed.

Section WithRuntime.

Variable rt : runtime.

(** The one request of the classification. *)
Definition classification_request (u : text) : http_request :=
  generate_request (classification_prompt u) (Dec false 0 (-1)) 10.

Lemma first_keyword_none (s : text) :
  first_keyword s = None ->
  py_in (lit "tournament") s = false
  /\ py_in (lit "matchmaking") s = false
  /\ py_in (lit "chat") s = false.
Proof.
  unfold first_keyword, keywords. cbn [find].
  destruct (py_in (lit "tournament") s); [discriminate|].
  destruct (py_in (lit "matchmaking") s); [discriminate|].
  destruct (py_in (lit "chat") s); [discriminate|]. auto.
Qed.

(** With a keyword in the lower-cased input, the first one in the order of
    priority is returned and only a line of output is added. *)
Lemma identify_by_keyword (u : text) (kw : text) (w : world) :
  first_keyword (py_lower u) = Some kw ->
  identify_application rt (JString u) w
  = (printed (lit "Identified application via keyword: " ++ kw) w,
     inr (Some kw)).
Proof.
  unfold first_keyword, keywords. cbn [find]. intros H.
  unfold identify_application. rewrite bind_lift. cbn [str_lower].
  destruct (py_in (lit "tournament") (py_lower u)).
  { injection H as <-. reflexivity. }
  destruct (py_in (lit "matchmaking") (py_lower u)).
  { injection H as <-. reflexivity. }
  destruct (py_in (lit "chat") (py_lower u)).
  { injection H as <-. reflexivity. }
  discriminate.
Qed.

(** What the matching of the cleaned completion returns. *)
Lemma match_cleaned (s : text) (w : world) :
  let app_name := re_sub_non_lowercase s in
  exists w',
    (if py_in (lit "tournament") app_name
     then bind (print rt (lit "LLM identified: tournament"))
               (fun _ => ret (Some (lit "tournament")))
     else if py_in (lit "matchmaking") app_name
     then bind (print rt (lit "LLM identified: matchmaking"))
               (fun _ => ret (Some (lit "matchmaking")))
     else if py_in (lit "chat") app_name
     then bind (print rt (lit "LLM identified: chat"))
               (fun _ => ret (Some (lit "chat")))
     else bind (print rt
                  (lit "Could not identify application from LLM response: '"
                     ++ app_name ++ lit "'"))
               (fun _ => ret None)) w
    = (w', inr (first_keyword app_name))
    /\ calls w' = calls w /\ objects w' = objects w.
Proof.
  intros app_name. unfold first_keyword, keywords. cbn [find].
  destruct (py_in (lit "tournament") app_name);
    [eexists; split; [reflexivity|split; reflexivity]|].
  destruct (py_in (lit "matchmaking") app_name);
    [eexists; split; [reflexivity|split; reflexivity]|].
  destruct (py_in (lit "chat") app_name);
    [eexists; split; [reflexivity|split; reflexivity]|].
  rewrite bind_print.
  - eexists; split; [reflexivity|split; reflexivity].
  - rewrite !printable_app, (cleaned_printable _ s). reflexivity.
Qed.

(** The [except] clause of the classification prints and returns
    [None]. *)
Lemma classification_failed (e : exn) (w : world) :
  bind (print rt (lit "Error identifying application: " ++ exn_str rt e))
       (fun _ => ret None) w
  = (printed (lit "Error identifying application: " ++ exn_str rt e) w,
     inr (@None text)).
Proof. rewrite bind_print by legible. reflexivity. Qed.

(** Without a keyword in the lower-cased input, the provider is asked
    once; whatever it answers, the resolution returns, and creates no
    object. *)
Lemma identify_by_provider (u : text) (w : world) :
  first_keyword (py_lower u) = None ->
  exists w' r,
    identify_application rt (JString u) w = (w', inr r)
    /\ calls w' = calls w ++ [classification_request u]
    /\ objects w' = objects w
    /\ (forall a, r = Some a -> In a keywords).
Proof.
  intros H. apply first_keyword_none in H. destruct H as (H1 & H2 & H3).
  unfold identify_application. rewrite bind_lift. cbn [str_lower].
  rewrite H1, H2, H3. cbn [format]. fold (classification_request u).
  rewrite bind_print by reflexivity. unfold try_except. rewrite bind_send.
  assert (N : forall a : text, @None text = Some a -> In a keywords)
    by (intros a [=]).
  destruct (http rt (classification_request u)) as [e|response].
  { rewrite classification_failed.
    eexists; eexists. split; [reflexivity|]. split; [reflexivity|].
    split; [reflexivity|exact N]. }
  destruct (status_code response =? 200)%Z.
  2:{ rewrite bind_print by legible.
      eexists; eexists. split; [reflexivity|]. split; [reflexivity|].
      split; [reflexivity|exact N]. }
  rewrite bind_response_json.
  destruct (json_decode (decoder rt) (response_text response))
    as [result| |x];
    [|rewrite classification_failed;
      eexists; eexists; (split; [reflexivity|]); (split; [reflexivity|]);
      (split; [reflexivity|exact N])..].
  rewrite bind_lift.
  destruct (get_default result (lit "response") (JString [])) as [e|answer];
    [rewrite classification_failed;
     eexists; eexists; (split; [reflexivity|]); (split; [reflexivity|]);
     (split; [reflexivity|exact N])|].
  rewrite bind_lift.
  destruct (str_strip answer) as [e|stripped];
    [rewrite classification_failed;
     eexists; eexists; (split; [reflexivity|]); (split; [reflexivity|]);
     (split; [reflexivity|exact N])|].
  cbv zeta.
  match goal with
  | |- context [ (if py_in _ (re_sub_non_lowercase ?a) then _ else _) ?w0 ] =>
      destruct (match_cleaned a w0) as (w' & E & Hc & Ho)
  end.
  rewrite E. eexists; eexists. split; [reflexivity|].
  split; [exact Hc|]. split; [exact Ho|].
  intros a K. unfold first_keyword in K. apply find_some in K. tauto.
Qed.

(** When the provider answers 200 with an object whose [response] is the
    text [completion], the result is the first keyword of the completion
    stripped, lower-cased and reduced to its small letters. *)
Lemma identify_by_completion (u : text) (w : world) (reply : text)
    (result : json) (completion : text) :
  first_keyword (py_lower u) = None ->
  http rt (classification_request u) = inr (mk_response 200 reply) ->
  json_loads (decoder rt) reply = Some result ->
  get_default result (lit "response") (JString []) = inr (JString completion) ->
  snd (identify_application rt (JString u) w)
  = inr (first_keyword
           (re_sub_non_lowercase (py_lower (py_strip completion)))).
Proof.
  intros H Hhttp Hreply Hget.
  apply first_keyword_none in H. destruct H as (H1 & H2 & H3).
  unfold identify_application. rewrite bind_lift. cbn [str_lower].
  rewrite H1, H2, H3. cbn [format]. fold (classification_request u).
  rewrite bind_print by reflexivity. unfold try_except. rewrite bind_send, Hhttp.
  cbn [status_code]. rewrite Z.eqb_refl.
  rewrite (bind_response_value rt _ _ _ result) by exact Hreply.
  rewrite bind_lift, Hget. rewrite bind_lift. cbn [str_strip]. cbv zeta.
  match goal with
  | |- context [ (if py_in _ (re_sub_non_lowercase ?a) then _ else _) ?w0 ] =>
      destruct (match_cleaned a w0) as (w' & E & _)
  end.
  now rewrite E.
Qed.

(** When the call fails or the answer is not 200, nothing is identified. *)
Lemma identify_provider_failed (u : text) (w : world) :
  first_keyword (py_lower u) = None ->
  (exists e, http rt (classification_request u) = inl e)
  \/ (exists st reply,
        http rt (classification_request u) = inr (mk_response st reply)
        /\ st <> 200%Z) ->
  snd (identify_application rt (JString u) w) = inr None.
Proof.
  intros H Hhttp.
  apply first_keyword_none in H. destruct H as (H1 & H2 & H3).
  unfold identify_application. rewrite bind_lift. cbn [str_lower].
  rewrite H1, H2, H3. cbn [format]. fold (classification_request u).
  rewrite bind_print by reflexivity. unfold try_except. rewrite bind_send.
  destruct Hhttp as [[e ->]|(st & reply & -> & Hst)].
  - now rewrite classification_failed.
  - cbn [status_code]. apply Z.eqb_neq in Hst. rewrite Hst.
    now rewrite bind_print by legible.
Qed.

End WithRuntime.

(** ** By keyword *)

(** C3.  An input that contains [tournament] in any mix of small and
    capital letters resolves to [tournament]; more generally, when a
    keyword occurs in the lower-cased input, the first one in the order
    tournament, matchmaking, chat is returned.  In both cases only a line
    of output is added: no request is sent. *)
Theorem keyword_resolution (rt : runtime) (u : text) (w : world) :
  (occurs_nocase (lit "tournament") u = true ->
   identify_application rt (JString u) w
   = (printed (lit "Identified application via keyword: tournament") w,
      inr (Some (lit "tournament")))
   /\ calls (fst (identify_application rt (JString u) w)) = calls w)
  /\ (forall kw,
        first_keyword (py_lower u) = Some kw ->
        identify_application rt (JString u) w
        = (printed (lit "Identified application via keyword: " ++ kw) w,
           inr (Some kw))
        /\ calls (fst (identify_application rt (JString u) w)) = calls w).
Proof.
  assert (G : forall kw,
             first_keyword (py_lower u) = Some kw ->
             identify_application rt (JString u) w
             = (printed (lit "Identified application via keyword: " ++ kw) w,
                inr (Some kw))
             /\ calls (fst (identify_application rt (JString u) w)) = calls w).
  { intros kw H. rewrite (identify_by_keyword rt u kw w H).
    split; reflexivity. }
  split; [|exact G].
  intros H. apply (occurs_nocase_lower (lit "tournament") u eq_refl) in H.
  apply (G (lit "tournament")).
  unfold first_keyword, keywords. cbn [find]. now rewrite H.
Qed.

Lemma keyword_resolution_witness :
  identify_application example_runtime
    (JString (lit "Set the TOURNAMENT chat memory")) empty_world
  = (printed (lit "Identified application via keyword: tournament")
             empty_world,
     inr (Some (lit "tournament")))
  /\ calls (fst (identify_application example_runtime
                   (JString (lit "Set the TOURNAMENT chat memory"))
                   empty_world))
     = calls empty_world.
Proof.
  apply (proj1 (keyword_resolution example_runtime
                  (lit "Set the TOURNAMENT chat memory") empty_world)).
  vm_compute. reflexivity.
Defined.

(** ** By the provider *)

(** The cleaning as the specification words it: every character that is
    not a small letter is removed from the completion, then the keywords
    are matched. *)
Definition match_of_stripped_completion (completion : text) : option text :=
  first_keyword (re_sub_non_lowercase completion).

(** A provider that answers the classification with [CHAT]. *)
Definition capital_runtime : runtime :=
  scripted (ok (object1 (lit "response") (lit "CHAT")))
           unreachable unreachable unreachable.

(** C4, as stated, fails: the completion [CHAT] has no small letter and
    matches no keyword once its other characters are removed, yet the
    service resolves it to [chat]. *)
Lemma capital_completion_is_identified :
  first_keyword (py_lower (lit "set memory to 512")) = None
  /\ match_of_stripped_completion (lit "CHAT") = None
  /\ snd (identify_application capital_runtime
            (JString (lit "set memory to 512")) empty_world)
     = inr (Some (lit "chat"))
  /\ snd (identify_application capital_runtime
            (JString (lit "set memory to 512")) empty_world)
     <> inr (match_of_stripped_completion (lit "CHAT")).
Proof.
  split; [reflexivity|]. split; [reflexivity|].
  split; [vm_compute; reflexivity|]. vm_compute. discriminate.
Qed.

(** C4, amended.  For an input with none of the three keywords in its
    lower-cased form, the provider is asked exactly once, with temperature
    0.0 and at most 10 tokens; when it answers 200 with a completion, the
    completion is stripped of surrounding white space and lower-cased,
    every character that is not a small letter from a to z is removed, and
    the result is the first of tournament, matchmaking, chat that occurs in
    what is left, or nothing when none occurs. *)
Theorem provider_resolution (rt : runtime) (u : text) (w : world) :
  first_keyword (py_lower u) = None ->
  let req := generate_request (classification_prompt u) (Dec false 0 (-1)) 10
  in
  float_is_zero (Dec false 0 (-1)) = true
  /\ calls (fst (identify_application rt (JString u) w)) = calls w ++ [req]
  /\ (forall reply result completion,
        http rt req = inr (mk_response 200 reply) ->
        json_loads (decoder rt) reply = Some result ->
        get_default result (lit "response") (JString [])
        = inr (JString completion) ->
        snd (identify_application rt (JString u) w)
        = inr (first_keyword
                 (re_sub_non_lowercase (py_lower (py_strip completion))))).
Proof.
  intros H req. split; [reflexivity|]. split.
  - destruct (identify_by_provider rt u w H) as (w' & r & E & Hc & _).
    now rewrite E.
  - intros reply result completion Hhttp Hreply Hget.
    exact (identify_by_completion rt u w reply result completion
             H Hhttp Hreply Hget).
Qed.

Lemma provider_resolution_witness :
  snd (identify_application capital_runtime
         (JString (lit "set memory to 512")) empty_world)
  = inr (first_keyword
           (re_sub_non_lowercase (py_lower (py_strip (lit "CHAT"))))).
Proof.
  apply (proj2 (proj2 (provider_resolution capital_runtime
                         (lit "set memory to 512") empty_world eq_refl))
           (object1 (lit "response") (lit "CHAT"))
           (JObject [(lit "response", JString (lit "CHAT"))])
           (lit "CHAT")).
  - reflexivity.
  - vm_compute. reflexivity.
  - reflexivity.
Defined.

End Identification.

(* ================================================================== *)
(** * The request handler *)

Module Handler.

Import Extraction Identification.
Local Open Scope Z_scope.

Lemma try_except_bind {A B} (m : M A) (k : A -> M B) (h : exn -> M B)
    (w w' : world) (a : A) :
  m w = (w', inr a) ->
  try_except (bind m k) h w = try_except (k a) h w'.
Proof. intros E. unfold try_except, bind. now rewrite E. Qed.

Lemma try_except_returned {A} (m : M A) (h : exn -> M A) (w w' : world)
    (a : A) :
  m w = (w', inr a) -> try_except m h w = (w', inr a).
Proof. intros E. unfold try_except. now rewrite E. Qed.

Lemma try_except_raised {A} (m : M A) (h : exn -> M A) (w w' : world)
    (e : exn) :
  m w = (w', inl e) -> try_except m h w = h e w'.
Proof. intros E. unfold try_except. now rewrite E. Qed.

Lemma nth_first_new (l : list json) (a b : json) :
  nth (length l) ((l ++ [a]) ++ [b]) JNull = a.
Proof.
  rewrite app_nth1 by (rewrite length_app; cbn; lia). apply nth_middle.
Qed.

Lemma nth_second_new (l : list json) (a b : json) :
  nth (S (length l)) ((l ++ [a]) ++ [b]) JNull = b.
Proof.
  replace (S (length l)) with (length (l ++ [a]))
    by (rewrite length_app; cbn; lia).
  apply nth_middle.
Qed.

(** The identifiers are small letters: they can be written and none is
    empty. *)
Lemma keyword_printable (errors : error_handler) (a : text) :
  In a keywords -> printable errors a = true /\ a <> [].
Proof.
  intros [<-|[<-|[<-|[]]]]; (split; [reflexivity|discriminate]).
Qed.

Section WithRuntime.

Variable rt : runtime.

(** ** Answers *)

Lemma jsonify_returns (v : json) (code : Z) (w : world) :
  (depth v <= S (encoder_depth rt))%nat ->
  jsonify rt v code w = (w, inr (mk_flask_response v code)).
Proof.
  intros H. unfold jsonify. apply Nat.leb_le in H. now rewrite H.
Qed.

Lemma jsonify_raises (v : json) (code : Z) (w : world) :
  (S (encoder_depth rt) < depth v)%nat ->
  jsonify rt v code w = (w, inl RecursionError).
Proof.
  intros H. unfold jsonify. apply Nat.leb_gt in H. now rewrite H.
Qed.

(** An answer whose body has no container inside its outermost one is
    always made. *)
Lemma respond_flat (answer : flask_response) (w : world) :
  (depth (body answer) <= 1)%nat -> respond rt answer w = (w, inr answer).
Proof.
  intros H. unfold respond. rewrite jsonify_returns by lia.
  now destruct answer.
Qed.

(** The answer for a store that did not answer 200 carries the body of
    the store: it is made when the encoder has room for that body. *)
Lemma respond_not_found (what a : text) (details : json) (w : world) :
  respond rt (not_found what a details) w
  = (w, if (depth details <=? encoder_depth rt)%nat
        then inr (not_found what a details)
        else inl RecursionError).
Proof.
  unfold respond, jsonify, not_found, error_body.
  cbn [body status depth]. rewrite Nat.max_0_r. cbn [Nat.max Nat.leb].
  now destruct (depth details <=? encoder_depth rt)%nat.
Qed.

(** What the [except] clauses of the handler answer to [e]. *)
Definition error_answer (e : exn) : flask_response :=
  if is_RequestException e then communication_error rt e
  else internal_error rt e.

Lemma request_errors_answer (e : exn) (w : world) :
  request_errors rt e w = (w, inr (error_answer e)).
Proof.
  unfold request_errors, error_answer.
  destruct (is_RequestException e); now rewrite respond_flat.
Qed.

Lemma error_answer_status (e : exn) : status (error_answer e) = 500.
Proof. unfold error_answer. now destruct (is_RequestException e). Qed.

(** The line printed when a request is taken up. *)
Definition processing (user_input : json) : text :=
  newline :: lit "=== Processing request: " ++ format rt user_input
    ++ lit " ===".

Lemma processing_printable (u : text) :
  printable (stdout_errors rt) (processing (JString u))
  = printable (stdout_errors rt) u.
Proof.
  unfold processing. cbn [format].
  rewrite printable_cons, !printable_app.
  replace (printable (stdout_errors rt) (lit " ===")) with true
    by reflexivity.
  replace (printable (stdout_errors rt) (lit "=== Processing request: "))
    with true by reflexivity.
  replace (encodable (stdout_errors rt) newline) with true by reflexivity.
  cbn [andb]. apply andb_true_r.
Qed.

(** Lines 246 to 282: what follows the resolution. *)
Definition route (user_input : json) (app_name : option text)
  : M flask_response :=
  match app_name with
  | None | Some [] => respond rt not_identified
  | Some app => fetch_and_edit rt user_input app
  end.

(** A request whose body is an object with an [input] member goes to the
    resolution, once the line that takes it up is written. *)
Lemma handle_message_input (d : dict) (user_input : json) (w : world) :
  dict_get (lit "input") d = Some user_input ->
  printable (stdout_errors rt) (processing user_input) = true ->
  handle_message rt (inr (JObject d)) w
  = try_except (bind (identify_application rt user_input) (route user_input))
               (request_errors rt) (printed (processing user_input) w).
Proof.
  intros H P. unfold handle_message, try_except. rewrite bind_lift.
  destruct d as [|p d]; [discriminate|]. cbn [truthy negb].
  rewrite bind_lift. cbn [contains]. rewrite H. cbn [negb].
  rewrite bind_lift. cbn [getitem]. rewrite H.
  fold (processing user_input). rewrite bind_print by exact P.
  reflexivity.
Qed.

(** When standard output cannot take that line, [print] raises before
    anything else is done: the request is answered 500, no request is
    sent and nothing is written. *)
Lemma handle_message_unprintable (d : dict) (user_input : json) (w : world) :
  dict_get (lit "input") d = Some user_input ->
  printable (stdout_errors rt) (processing user_input) = false ->
  handle_message rt (inr (JObject d)) w
  = (w, inr (internal_error rt (UnicodeEncodeError (processing user_input)))).
Proof.
  intros H P. unfold handle_message, try_except. rewrite bind_lift.
  destruct d as [|p d]; [discriminate|]. cbn [truthy negb].
  rewrite bind_lift. cbn [contains]. rewrite H. cbn [negb].
  rewrite bind_lift. cbn [getitem]. rewrite H.
  fold (processing user_input). rewrite bind_print_refused by exact P.
  now rewrite request_errors_answer.
Qed.

(** What the resolution returns is one of the three identifiers. *)
Lemma identified_is_keyword (user_input : json) (w w1 : world) (a : text) :
  identify_application rt user_input w = (w1, inr (Some a)) ->
  In a keywords.
Proof.
  intros H. destruct user_input as [| | | |u| |];
    try (unfold identify_application in H; rewrite bind_lift in H;
         cbn [str_lower] in H; discriminate H).
  destruct (first_keyword (py_lower u)) as [kw|] eqn:E.
  - rewrite (identify_by_keyword rt u kw w E) in H.
    injection H as _ <-. unfold first_keyword in E.
    apply find_some in E. tauto.
  - destruct (identify_by_provider rt u w E) as (w' & r & R & _ & _ & K).
    rewrite R in H. injection H as _ ->. now apply K.
Qed.

(** What the handler answers when its body ends with [r]. *)
Definition answer_of (r : exn + flask_response) : flask_response :=
  match r with
  | inr answer => answer
  | inl e => error_answer e
  end.

Lemma handled (m : M flask_response) (w w' : world)
    (r : exn + flask_response) :
  m w = (w', r) ->
  try_except m (request_errors rt) w = (w', inr (answer_of r)).
Proof.
  intros E. unfold try_except. rewrite E. destruct r as [e|answer].
  - apply request_errors_answer.
  - reflexivity.
Qed.

(** Every request is answered: no exception leaves the handler. *)
Lemma handle_message_answers (get_json : exn + json) (w : world) :
  exists w' response, handle_message rt get_json w = (w', inr response).
Proof.
  unfold handle_message.
  match goal with |- context [ try_except ?m _ w ] =>
    destruct (m w) as [w' r] eqn:E;
    rewrite (handled m w w' r E) end.
  eexists; eexists; reflexivity.
Qed.

(** The worlds along a request that reaches the edit: after the schema is
    fetched, and after the values are. *)
Definition schema_fetched (app : text) (schema_doc : json) (w : world)
  : world :=
  allocated schema_doc
    (called (store_request SCHEMA_SERVICE_URL app)
       (printed (lit "Fetching schema for " ++ app ++ lit "...") w)).

Definition values_fetched (app : text) (schema_doc values_doc : json)
    (w : world) : world :=
  allocated values_doc
    (called (store_request VALUES_SERVICE_URL app)
       (printed (lit "Fetching current values for " ++ app ++ lit "...")
          (schema_fetched app schema_doc w))).

(** How the handler's body ends when a store answered [reply] with a
    status other than 200: the 404 answer is made from the decoded body;
    a body that is not JSON, one the decoder gives up on, and one the
    encoder of the answer gives up on, make it raise. *)
Definition store_refusal (what app reply : text) : exn + flask_response :=
  match json_decode (decoder rt) reply with
  | Value details =>
      if (depth details <=? encoder_depth rt)%nat
      then inr (not_found what app details)
      else inl RecursionError
  | Malformed => inl (RequestsJSONDecodeError reply)
  | Exceeds x => inl (refusal_exn x)
  end.

Lemma details_refusal (what app : text) (r : http_response) (w : world) :
  bind (response_json rt r)
       (fun details => respond rt (not_found what app details)) w
  = (w, store_refusal what app (response_text r)).
Proof.
  rewrite bind_response_json. unfold store_refusal.
  destruct (json_decode (decoder rt) (response_text r)) as [v| |x];
    [|reflexivity..].
  apply respond_not_found.
Qed.

(** The schema store did not answer 200. *)
Lemma fetch_schema_refused (user_input : json) (app : text) (w : world)
    (st : Z) (reply : text) :
  printable (stdout_errors rt) app = true ->
  http rt (store_request SCHEMA_SERVICE_URL app)
  = inr (mk_response st reply) ->
  st <> 200 ->
  fetch_and_edit rt user_input app w
  = (called (store_request SCHEMA_SERVICE_URL app)
       (printed (lit "Fetching schema for " ++ app ++ lit "...") w),
     store_refusal (lit "schema") app reply).
Proof.
  intros P Hhttp Hst. unfold fetch_and_edit.
  rewrite bind_print by legible. rewrite bind_send, Hhttp.
  cbn [status_code]. apply Z.eqb_neq in Hst. rewrite Hst. cbn [negb].
  now rewrite details_refusal.
Qed.


(** Both stores answered 200 with a document: the edit is run on the two
    new objects. *)
Lemma fetch_both (user_input : json) (app : text) (w : world)
    (schema_reply values_reply : text) (schema_doc values_doc : json) :
  printable (stdout_errors rt) app = true ->
  http rt (store_request SCHEMA_SERVICE_URL app)
  = inr (mk_response 200 schema_reply) ->
  json_loads (decoder rt) schema_reply = Some schema_doc ->
  http rt (store_request VALUES_SERVICE_URL app)
  = inr (mk_response 200 values_reply) ->
  json_loads (decoder rt) values_reply = Some values_doc ->
  fetch_and_edit rt user_input app w
  = edit_and_respond rt user_input (length (objects w))
      (S (length (objects w))) (values_fetched app schema_doc values_doc w).
Proof.
  intros P Hs Hsd Hv Hvd. unfold fetch_and_edit.
  rewrite bind_print by legible.
  rewrite bind_send, Hs. cbn [status_code negb Z.eqb Pos.eqb].
  rewrite (bind_response_value rt _ _ _ schema_doc) by exact Hsd.
  rewrite bind_new_object. rewrite bind_print by legible.
  rewrite bind_send. cbn [objects called printed].
  rewrite Hv. cbn [status_code negb Z.eqb Pos.eqb].
  rewrite (bind_response_value rt _ _ _ values_doc) by exact Hvd.
  rewrite bind_new_object. cbn [objects allocated called printed].
  rewrite length_app, Nat.add_1_r. reflexivity.
Qed.

(** The requests of a resolution: none, or the one classification. *)
Lemma identify_calls (u : text) (w : world) :
  calls (fst (identify_application rt (JString u) w)) = calls w
  \/ calls (fst (identify_application rt (JString u) w))
     = calls w ++ [classification_request u].
Proof.
  destruct (first_keyword (py_lower u)) as [kw|] eqn:E.
  - left. now rewrite (identify_by_keyword rt u kw w E).
  - right. destruct (identify_by_provider rt u w E) as (w' & r & R & Hc & _).
    now rewrite R.
Qed.

(** A request with a resolved application goes on to the stores. *)
Lemma handle_message_resolved (d : dict) (user_input : json) (w w1 : world)
    (a : text) :
  dict_get (lit "input") d = Some user_input ->
  printable (stdout_errors rt) (processing user_input) = true ->
  identify_application rt user_input (printed (processing user_input) w)
  = (w1, inr (Some a)) ->
  printable (stdout_errors rt) a = true
  /\ handle_message rt (inr (JObject d)) w
     = try_except (fetch_and_edit rt user_input a) (request_errors rt) w1.
Proof.
  intros Hin P Hid.
  destruct (keyword_printable (stdout_errors rt) a
              (identified_is_keyword user_input _ w1 a Hid)) as [Pa Na].
  split; [exact Pa|].
  rewrite (handle_message_input d user_input w Hin P).
  rewrite (try_except_bind _ _ _ _ w1 (Some a) Hid).
  destruct a; [congruence|reflexivity].
Qed.

End WithRuntime.

(** ** Failures of the resolution and of the stores *)

(** A schema store that answers 503 with a line of plain text. *)
Definition unavailable_runtime : runtime :=
  scripted unreachable
    (inr (mk_response 503 (lit "Service Unavailable")))
    unreachable unreachable.

(** C5, as stated, fails: the schema store answers the resolved
    application with a status other than 200 and a body that is not JSON;
    the request is answered 500, not 404. *)
Lemma schema_refusal_without_json_is_500 :
  snd (identify_application unavailable_runtime
         (JString (lit "set tournament size to 8"))
         (printed (processing unavailable_runtime
                     (JString (lit "set tournament size to 8")))
                  empty_world))
  = inr (Some (lit "tournament"))
  /\ http unavailable_runtime
          (store_request SCHEMA_SERVICE_URL (lit "tournament"))
     = inr (mk_response 503 (lit "Service Unavailable"))
  /\ snd (handle_message unavailable_runtime (ask "set tournament size to 8")
                         empty_world)
     = inr (communication_error unavailable_runtime
              (RequestsJSONDecodeError (lit "Service Unavailable")))
  /\ (forall response,
        snd (handle_message unavailable_runtime
               (ask "set tournament size to 8") empty_world)
        = inr response ->
        status response <> 404).
Proof.
  split; [vm_compute; reflexivity|]. split; [reflexivity|].
  split; [vm_compute; reflexivity|].
  intros response H. vm_compute in H. injection H as <-. discriminate.
Qed.

(** C5, amended.  Take a request whose input is written to standard
    output when it is taken up, and a schema store that answers the
    request for the resolved application with a status other than 200.
    Nothing is requested after the schema: the requests of the whole
    exchange are the classification, if there was one, and the request to
    the schema store.  When the body of the store's answer is JSON that
    the decoder returns and the encoder of the answer has room for, the
    request is answered 404 with a body of two members, an error message
    and the decoded body of the store under [details]. *)
Theorem schema_refusal_is_not_found (rt : runtime) (d : dict) (u : text)
    (w w1 : world) (app : text) (st : Z) (reply : text) :
  dict_get (lit "input") d = Some (JString u) ->
  printable (stdout_errors rt) u = true ->
  identify_application rt (JString u) (printed (processing rt (JString u)) w)
  = (w1, inr (Some app)) ->
  http rt (store_request SCHEMA_SERVICE_URL app) = inr (mk_response st reply) ->
  st <> 200 ->
  (forall details,
      json_loads (decoder rt) reply = Some details ->
      (depth details <= encoder_depth rt)%nat ->
      snd (handle_message rt (inr (JObject d)) w)
      = inr (mk_flask_response
               (JObject [ (lit "error",
                           JString (lit "Could not fetch schema for " ++ app));
                          (lit "details", details) ])
               404))
  /\ (calls (fst (handle_message rt (inr (JObject d)) w))
      = calls w ++ [store_request SCHEMA_SERVICE_URL app]
      \/ calls (fst (handle_message rt (inr (JObject d)) w))
         = calls w ++ [classification_request u;
                       store_request SCHEMA_SERVICE_URL app]).
Proof.
  intros Hin P Hid Hhttp Hst.
  rewrite <- (processing_printable rt u) in P.
  destruct (handle_message_resolved rt d (JString u) w w1 app Hin P Hid)
    as [Pa ->].
  pose proof (fetch_schema_refused rt (JString u) app w1 st reply Pa Hhttp
                Hst) as F.
  rewrite (handled rt _ _ _ _ F). cbn [fst snd].
  pose proof (identify_calls rt u (printed (processing rt (JString u)) w))
    as C.
  rewrite Hid in C. cbn [fst calls printed] in C.
  split.
  - intros details Hdet Hroom. unfold store_refusal.
    apply DecoderFacts.json_loads_value in Hdet. rewrite Hdet.
    apply Nat.leb_le in Hroom. rewrite Hroom. reflexivity.
  - cbn [calls called printed].
    destruct C as [-> | ->]; [now left|right].
    now rewrite <- app_assoc.
Qed.

(** A schema store that knows no application. *)
Definition no_schema_runtime : runtime :=
  scripted unreachable
    (inr (mk_response 404
            (object1 (lit "error")
                     (lit "Schema not found for application: chat"))))
    unreachable unreachable.

Lemma schema_refusal_is_not_found_witness :
  snd (handle_message no_schema_runtime (ask "set chat memory to 512")
                      empty_world)
  = inr (mk_flask_response
           (JObject
              [ (lit "error", JString (lit "Could not fetch schema for chat"));
                (lit "details",
                 JObject [ (lit "error",
                            JString (lit "Schema not found for application: chat")) ]) ])
           404).
Proof.
  apply (schema_refusal_is_not_found no_schema_runtime
           [(lit "input", JString (lit "set chat memory to 512"))]
           (lit "set chat memory to 512") empty_world
           (printed (lit "Identified application via keyword: chat")
              (printed (processing no_schema_runtime
                          (JString (lit "set chat memory to 512")))
                       empty_world))
           (lit "chat") 404
           (object1 (lit "error")
                    (lit "Schema not found for application: chat"))).
  - reflexivity.
  - reflexivity.
  - vm_compute. reflexivity.
  - reflexivity.
  - lia.
  - vm_compute. reflexivity.
  - vm_compute. lia.
Defined.

(** C6.  Take a request whose input has none of the keywords, and a
    classification call that raises, whatever the exception, or is
    answered with a status other than 200.  When the request is taken up,
    which is when the classification call is made, it is answered 400
    with the message that the application could not be identified and the
    hint that names the three identifiers: the answer is returned, no
    exception leaves the handler, and the classification is the only
    request sent.  The one request that is not taken up is the one whose
    input standard output cannot take: it is answered 500 and leaves the
    world as it was, no call is made for it. *)
Theorem provider_failure_is_not_identified (rt : runtime) (d : dict)
    (u : text) (w : world) :
  dict_get (lit "input") d = Some (JString u) ->
  first_keyword (py_lower u) = None ->
  (exists e, http rt (classification_request u) = inl e)
  \/ (exists st reply,
        http rt (classification_request u) = inr (mk_response st reply)
        /\ st <> 200) ->
  (printable (stdout_errors rt) u = true ->
   snd (handle_message rt (inr (JObject d)) w)
   = inr (mk_flask_response
            (JObject
               [ (lit "error",
                  JString (lit "Could not identify application from request"));
                 (lit "hint",
                  JString (lit "Please mention one of: chat, matchmaking, or tournament")) ])
            400)
   /\ calls (fst (handle_message rt (inr (JObject d)) w))
      = calls w ++ [classification_request u])
  /\ (printable (stdout_errors rt) u = false ->
      handle_message rt (inr (JObject d)) w
      = (w, inr (internal_error rt
                   (UnicodeEncodeError (processing rt (JString u)))))).
Proof.
  intros Hin Hkw Hhttp. split; intros P;
    rewrite <- (processing_printable rt u) in P.
  - rewrite (handle_message_input rt d (JString u) w Hin P).
    pose proof (identify_provider_failed rt u
                  (printed (processing rt (JString u)) w) Hkw Hhttp) as F.
    destruct (identify_by_provider rt u
                (printed (processing rt (JString u)) w) Hkw)
      as (w1 & r & E & Hc & _).
    rewrite E in F. cbn [snd] in F. injection F as ->.
    rewrite (try_except_bind _ _ _ _ w1 None E). cbn [route].
    rewrite (handled rt _ w1 w1 (inr not_identified))
      by (apply respond_flat; cbn; lia).
    split; [reflexivity|exact Hc].
  - now rewrite (handle_message_unprintable rt d (JString u) w Hin P).
Qed.

Lemma provider_failure_is_not_identified_witness :
  snd (handle_message no_schema_runtime (ask "set memory to 512") empty_world)
  = inr (mk_flask_response
           (JObject
              [ (lit "error",
                 JString (lit "Could not identify application from request"));
                (lit "hint",
                 JString (lit "Please mention one of: chat, matchmaking, or tournament")) ])
           400).
Proof.
  apply (proj1 (provider_failure_is_not_identified no_schema_runtime
           [(lit "input", JString (lit "set memory to 512"))]
           (lit "set memory to 512") empty_world eq_refl eq_refl
           (or_introl (ex_intro _ (RequestException (lit "connection refused"))
                                eq_refl)))
           eq_refl).
Defined.




(** ** The edit and its answer *)

(** What a request holds when it reaches the edit: the application, the
    two documents as the stores gave them, and the world at the end of the
    resolution. *)
Record fetched := mk_fetched {
  app : text;
  schema_doc : json;
  values_doc : json;
  resolved : world
}.

(** The request with body [d] reaches the edit step: it is taken up, the
    line that says so being written to standard output; its [input] is
    resolved to an application; and both stores answer 200 with a
    document. *)
Definition reaches_edit (rt : runtime) (d : dict) (user_input : json)
    (w : world) (f : fetched) : Prop :=
  dict_get (lit "input") d = Some user_input
  /\ printable (stdout_errors rt) (processing rt user_input) = true
  /\ identify_application rt user_input (printed (processing rt user_input) w)
     = (resolved f, inr (Some (app f)))
  /\ (exists reply,
        http rt (store_request SCHEMA_SERVICE_URL (app f))
        = inr (mk_response 200 reply)
        /\ json_loads (decoder rt) reply = Some (schema_doc f))
  /\ (exists reply,
        http rt (store_request VALUES_SERVICE_URL (app f))
        = inr (mk_response 200 reply)
        /\ json_loads (decoder rt) reply = Some (values_doc f)).

(** The world in which the edit starts. *)
Definition at_edit (f : fetched) : world :=
  values_fetched (app f) (schema_doc f) (values_doc f) (resolved f).

(** The references the handler holds to the two documents. *)
Definition schema_ref (f : fetched) : ref := length (objects (resolved f)).
Definition values_ref (f : fetched) : ref := S (length (objects (resolved f))).

Lemma at_edit_schema (f : fetched) : deref (at_edit f) (schema_ref f) = schema_doc f.
Proof. unfold deref, at_edit, schema_ref. cbn. apply nth_first_new. Qed.

Lemma at_edit_values (f : fetched) : deref (at_edit f) (values_ref f) = values_doc f.
Proof. unfold deref, at_edit, values_ref. cbn. apply nth_second_new. Qed.

Section Editing.

Variable rt : runtime.

Lemma reaches_edit_run (d : dict) (user_input : json) (w : world)
    (f : fetched) :
  reaches_edit rt d user_input w f ->
  handle_message rt (inr (JObject d)) w
  = try_except
      (edit_and_respond rt user_input (schema_ref f) (values_ref f))
      (request_errors rt) (at_edit f).
Proof.
  intros (Hin & P & Hid & (sr & Hs & Hsd) & (vr & Hv & Hvd)).
  destruct (handle_message_resolved rt d user_input w (resolved f) (app f)
              Hin P Hid) as [Pa ->].
  unfold try_except.
  now rewrite (fetch_both rt user_input (app f) (resolved f) sr vr
                 (schema_doc f) (values_doc f) Pa Hs Hsd Hv Hvd).
Qed.

(** The world after an edit that decoded [v]. *)
Definition edited (user_input : json) (f : fetched) (v : json) : world :=
  parsed_world v
    (called (edit_request rt user_input (schema_doc f) (values_doc f))
       (printed (lit "Applying configuration change...") (at_edit f))).

(** The edit step on a completion whose brace slice decodes to [v]: the
    answer is [v] with 200 when [v] is true and the encoder has room for
    it, the failure of the edit when [v] is false. *)
Lemma edit_and_respond_decoded (user_input : json) (f : fetched)
    (reply : text) (result : json) (completion : text) (v : json) :
  serialized rt (values_doc f) -> serialized rt (schema_doc f) ->
  http rt (edit_request rt user_input (schema_doc f) (values_doc f))
  = inr (mk_response 200 reply) ->
  json_loads (decoder rt) reply = Some result ->
  get_default result (lit "response") (JString []) = inr (JString completion) ->
  In lbrace completion -> In rbrace completion ->
  json_loads (decoder rt) (brace_slice completion) = Some v ->
  edit_and_respond rt user_input (schema_ref f) (values_ref f) (at_edit f)
  = if truthy v
    then (printed (lit "Configuration updated successfully!")
                  (edited user_input f v),
          if (depth v <=? S (encoder_depth rt))%nat
          then inr (mk_flask_response v 200)
          else inl RecursionError)
    else (edited user_input f v, inr edit_failed).
Proof.
  intros Sv Ss Hhttp Hreply Hget H1 H2 Hv.
  unfold edit_and_respond. rewrite bind_print by reflexivity.
  set (w0 := printed (lit "Applying configuration change...") (at_edit f)).
  assert (Ds : deref w0 (schema_ref f) = schema_doc f)
    by apply at_edit_schema.
  assert (Dv : deref w0 (values_ref f) = values_doc f)
    by apply at_edit_values.
  pose proof (apply_with_completion rt user_input (schema_ref f)
                (values_ref f) w0 reply result completion) as A.
  cbv zeta in A. rewrite Ds, Dv in A. specialize (A Sv Ss Hhttp Hreply Hget).
  rewrite (extraction_parsed rt (py_strip completion) v) in A;
    [|now apply in_strip|now apply in_strip|now rewrite brace_slice_strip].
  unfold bind at 1. rewrite A. cbv beta iota. rewrite bind_load.
  assert (D : deref
                (parsed_world v
                   (called (edit_request rt user_input (schema_doc f)
                                         (values_doc f)) w0))
                (length
                   (objects
                      (called (edit_request rt user_input (schema_doc f)
                                            (values_doc f)) w0)))
              = v).
  { unfold deref, parsed_world, printed, allocated. cbn [objects].
    apply nth_middle. }
  unfold edited. unfold parsed_world in *. rewrite D.
  destruct (truthy v); cbn [negb].
  - rewrite bind_print by reflexivity. unfold jsonify.
    now destruct (depth v <=? S (encoder_depth rt))%nat.
  - apply respond_flat. cbn. lia.
Qed.

End Editing.

(** ** Answers with status 200 *)

(** A computation whose answers with status 200 carry a body that is
    true. *)
Definition truthy_when_ok (m : M flask_response) : Prop :=
  forall w w' response,
    m w = (w', inr response) -> status response = 200 ->
    truthy (body response) = true.

Lemma ok_ret_other (r : flask_response) :
  status r <> 200 -> truthy_when_ok (ret r).
Proof. intros H w w' response E. injection E as _ <-. contradiction. Qed.

Lemma ok_ret_truthy (r : flask_response) :
  truthy (body r) = true -> truthy_when_ok (ret r).
Proof. intros H w w' response E. injection E as _ <-. now intros _. Qed.

Lemma ok_jsonify_other (rt : runtime) (v : json) (code : Z) :
  code <> 200 -> truthy_when_ok (jsonify rt v code).
Proof.
  intros H w w' response E. unfold jsonify in E.
  destruct (depth v <=? S (encoder_depth rt))%nat; [|discriminate].
  injection E as _ <-. contradiction.
Qed.

Lemma ok_jsonify_truthy (rt : runtime) (v : json) (code : Z) :
  truthy v = true -> truthy_when_ok (jsonify rt v code).
Proof.
  intros H w w' response E. unfold jsonify in E.
  destruct (depth v <=? S (encoder_depth rt))%nat; [|discriminate].
  injection E as _ <-. now intros _.
Qed.

Lemma ok_bind {A} (m : M A) (k : A -> M flask_response) :
  (forall a, truthy_when_ok (k a)) -> truthy_when_ok (bind m k).
Proof.
  intros H w w' response E. unfold bind in E.
  destruct (m w) as [w1 [e|a]]; [discriminate|]. exact (H a w1 w' response E).
Qed.

Lemma ok_try (m : M flask_response) (h : exn -> M flask_response) :
  truthy_when_ok m -> (forall e, truthy_when_ok (h e)) ->
  truthy_when_ok (try_except m h).
Proof.
  intros Hm Hh w w' response E. unfold try_except in E.
  destruct (m w) as [w1 [e|a]] eqn:Em.
  - exact (Hh e w1 w' response E).
  - injection E as <- <-. exact (Hm w w1 a Em).
Qed.

Create HintDb answers.
#[local] Hint Resolve ok_bind ok_try : answers.
#[local] Hint Extern 1 (truthy_when_ok (ret _)) =>
  (apply ok_ret_other; discriminate) : answers.
#[local] Hint Extern 1 (truthy_when_ok (respond _ _)) =>
  (apply ok_jsonify_other; discriminate) : answers.

Section Answers.

Variable rt : runtime.

Lemma edit_and_respond_ok (user_input : json) (schema values : ref) :
  truthy_when_ok (edit_and_respond rt user_input schema values).
Proof.
  unfold edit_and_respond. apply ok_bind. intros _. apply ok_bind.
  intros updated_values. apply ok_bind. intros updated.
  destruct (truthy updated) eqn:E; cbn [negb]; [|auto with answers].
  apply ok_bind. intros _. now apply ok_jsonify_truthy.
Qed.

Lemma fetch_and_edit_ok (user_input : json) (a : text) :
  truthy_when_ok (fetch_and_edit rt user_input a).
Proof.
  unfold fetch_and_edit. apply ok_bind. intros _. apply ok_bind.
  intros schema_response.
  destruct (negb (status_code schema_response =? 200));
    [auto with answers|].
  do 3 (apply ok_bind; intros ?). apply ok_bind. intros values_response.
  destruct (negb (status_code values_response =? 200));
    [auto with answers|].
  do 2 (apply ok_bind; intros ?). apply edit_and_respond_ok.
Qed.

(** The handler answers 200 only with a body that is true. *)
Lemma handle_message_ok (get_json : exn + json) :
  truthy_when_ok (handle_message rt get_json).
Proof.
  unfold handle_message. apply ok_try.
  - apply ok_bind. intros data. apply ok_bind. intros has_input.
    destruct (negb has_input); [auto with answers|].
    apply ok_bind. intros user_input. apply ok_bind. intros _.
    apply ok_bind. intros [[|c a]|]; auto with answers.
    apply fetch_and_edit_ok.
  - intros e. unfold request_errors.
    destruct (is_RequestException e); auto with answers.
Qed.

End Answers.

(** C9.  When a request reaches the edit and the text from the first
    opening brace to the last closing brace of the completion decodes to a
    value that is false, the request is answered 500 with the message that
    the change could not be applied; a value that is true is sent back as
    it is with 200, if the encoder of the answer has room for it, and
    answered 500 if not.  The empty object, the empty array, [null],
    [false], 0 and the empty string are false; what the slice decodes to
    is an object.  No request at all is answered 200 with a body that is
    false. *)
Theorem falsy_document_is_edit_failure (rt : runtime) (d : dict)
    (user_input : json) (w : world) (f : fetched) (reply : text)
    (result : json) (completion : text) (v : json) :
  reaches_edit rt d user_input w f ->
  serialized rt (values_doc f) -> serialized rt (schema_doc f) ->
  http rt (edit_request rt user_input (schema_doc f) (values_doc f))
  = inr (mk_response 200 reply) ->
  json_loads (decoder rt) reply = Some result ->
  get_default result (lit "response") (JString []) = inr (JString completion) ->
  In lbrace completion -> In rbrace completion ->
  json_loads (decoder rt) (brace_slice completion) = Some v ->
  snd (handle_message rt (inr (JObject d)) w)
  = inr (if truthy v
         then if (depth v <=? S (encoder_depth rt))%nat
              then mk_flask_response v 200
              else internal_error rt RecursionError
         else mk_flask_response
                (JObject
                   [ (lit "error",
                      JString (lit "Failed to apply configuration change"));
                     (lit "hint",
                      JString (lit "The LLM could not parse or apply your request")) ])
                500)
  /\ (exists members, v = JObject members)
  /\ (truthy (JObject []) = false /\ truthy (JArray []) = false
      /\ truthy JNull = false /\ truthy (JBool false) = false
      /\ truthy (JInt 0) = false /\ truthy (JString []) = false)
  /\ (forall get_json w0 w' response,
        handle_message rt get_json w0 = (w', inr response) ->
        status response = 200 -> truthy (body response) = true).
Proof.
  intros Hreach Sv Ss Hhttp Hreply Hget H1 H2 Hv.
  split; [|split; [|split]].
  - rewrite (reaches_edit_run rt d user_input w f Hreach).
    pose proof (edit_and_respond_decoded rt user_input f reply result
                  completion v Sv Ss Hhttp Hreply Hget H1 H2 Hv) as E.
    destruct (truthy v).
    + rewrite (handled rt _ _ _ _ E). cbn [snd].
      now destruct (depth v <=? S (encoder_depth rt))%nat.
    + now rewrite (handled rt _ _ _ _ E).
  - exact (brace_slice_decodes_object (decoder rt) completion v H1 Hv).
  - repeat split; reflexivity.
  - intros get_json w0 w' response. apply handle_message_ok.
Qed.

(** The provider's answer whose completion is the text [{}]. *)
Definition empty_object_runtime : runtime :=
  scripted unreachable
    (ok (lit "{}"))
    (ok (lit "{}"))
    (ok (object1 (lit "response") (lit "Nothing to change: {}"))).

Definition chat_fetched (rt : runtime) (u : string) (schema values : json)
  : fetched :=
  mk_fetched (lit "chat") schema values
    (printed (lit "Identified application via keyword: chat")
       (printed (processing rt (JString (lit u))) empty_world)).

Lemma falsy_document_is_edit_failure_witness :
  snd (handle_message empty_object_runtime (ask "set chat memory to 512")
                      empty_world)
  = inr (mk_flask_response
           (JObject
              [ (lit "error",
                 JString (lit "Failed to apply configuration change"));
                (lit "hint",
                 JString (lit "The LLM could not parse or apply your request")) ])
           500).
Proof.
  apply (falsy_document_is_edit_failure empty_object_runtime
           [(lit "input", JString (lit "set chat memory to 512"))]
           (JString (lit "set chat memory to 512")) empty_world
           (chat_fetched empty_object_runtime "set chat memory to 512"
                         (JObject []) (JObject []))
           (object1 (lit "response") (lit "Nothing to change: {}"))
           (JObject [(lit "response", JString (lit "Nothing to change: {}"))])
           (lit "Nothing to change: {}") (JObject [])).
  - split; [reflexivity|]. split; [reflexivity|].
    split; [vm_compute; reflexivity|]. split.
    + exists (lit "{}"). split; [reflexivity|vm_compute; reflexivity].
    + exists (lit "{}"). split; [reflexivity|vm_compute; reflexivity].
  - exists (lit "<json>"). reflexivity.
  - exists (lit "<json>"). reflexivity.
  - reflexivity.
  - vm_compute. reflexivity.
  - reflexivity.
  - vm_compute. find_in.
  - vm_compute. find_in.
  - vm_compute. reflexivity.
Defined.

End Handler.

(* ================================================================== *)
(** * What a request leaves unchanged *)

Module Frame.

Import Extraction Identification Handler.
Local Open Scope Z_scope.

(** The objects of [w] are the first objects of [w'], unchanged. *)
Definition grows (w w' : world) : Prop :=
  exists new, objects w' = objects w ++ new.

Definition same_calls (w w' : world) : Prop := calls w' = calls w.

Lemma grows_deref (w w' : world) (r : ref) :
  grows w w' -> (r < length (objects w))%nat -> deref w' r = deref w r.
Proof.
  intros [new E] H. unfold deref. rewrite E. now apply app_nth1.
Qed.

(** A change in place is seen by everyone that holds the object: the
    relation [grows] does not hold along [update]. *)
Lemma update_is_seen :
  let w := mk_world [] [] [JObject [(lit "a", JInt 1)]] in
  let w' := fst (update 0%nat (JObject [(lit "a", JInt 2)]) w) in
  deref w' 0%nat = JObject [(lit "a", JInt 2)]
  /\ deref w' 0%nat <> deref w 0%nat
  /\ ~ grows w w'.
Proof.
  split; [reflexivity|]. split; [discriminate|].
  intros [new E]. cbn in E. discriminate E.
Qed.

Section Preserved.

(** A relation between the world before and the world after that holds
    along every step of the service: the steps are those that return or
    raise, print, create an object and send a request; a change of an
    object in place is not among them. *)
Variable P : world -> world -> Prop.
Hypothesis P_refl : forall w, P w w.
Hypothesis P_trans : forall w1 w2 w3, P w1 w2 -> P w2 w3 -> P w1 w3.
Hypothesis P_printed : forall line w, P w (printed line w).
Hypothesis P_allocated : forall v w, P w (allocated v w).
Hypothesis P_called : forall req w, P w (called req w).

Definition preserved {A} (m : M A) : Prop := forall w, P w (fst (m w)).

Lemma preserved_ret {A} (a : A) : preserved (ret a).
Proof. intros w. apply P_refl. Qed.

Lemma preserved_raise {A} (e : exn) : preserved (@raise A e).
Proof. intros w. apply P_refl. Qed.

Lemma preserved_lift {A} (r : exn + A) : preserved (lift r).
Proof. intros w. apply P_refl. Qed.

Lemma preserved_load (r : ref) : preserved (load r).
Proof. intros w. apply P_refl. Qed.

Lemma preserved_print (rt : runtime) (line : text) :
  preserved (print rt line).
Proof.
  intros w. unfold print.
  destruct (printable (stdout_errors rt) line); [apply P_printed|apply P_refl].
Qed.

Lemma preserved_new_object (v : json) : preserved (new_object v).
Proof. intros w. apply P_allocated. Qed.

Lemma preserved_send (rt : runtime) (req : http_request) :
  preserved (send rt req).
Proof. intros w. apply P_called. Qed.

Lemma preserved_response_json (rt : runtime) (r : http_response) :
  preserved (response_json rt r).
Proof.
  intros w. unfold response_json. destruct (json_decode _ _); apply P_refl.
Qed.

Lemma preserved_jsonify (rt : runtime) (v : json) (code : Z) :
  preserved (jsonify rt v code).
Proof.
  intros w. unfold jsonify. destruct (_ <=? _)%nat; apply P_refl.
Qed.

Lemma preserved_bind {A B} (m : M A) (k : A -> M B) :
  preserved m -> (forall a, preserved (k a)) -> preserved (bind m k).
Proof.
  intros Hm Hk w. unfold bind. specialize (Hm w).
  destruct (m w) as [w1 [e|a]]; cbn [fst] in *; [exact Hm|].
  exact (P_trans _ _ _ Hm (Hk a w1)).
Qed.

Lemma preserved_try {A} (m : M A) (h : exn -> M A) :
  preserved m -> (forall e, preserved (h e)) -> preserved (try_except m h).
Proof.
  intros Hm Hh w. unfold try_except. specialize (Hm w).
  destruct (m w) as [w1 [e|a]]; cbn [fst] in *; [|exact Hm].
  exact (P_trans _ _ _ Hm (Hh e w1)).
Qed.

Ltac preserve :=
  repeat first
    [ apply preserved_ret | apply preserved_raise | apply preserved_lift
    | apply preserved_load | apply preserved_print
    | apply preserved_new_object | apply preserved_send
    | apply preserved_response_json | apply preserved_jsonify
    | apply preserved_bind; [|intros ?]
    | apply preserved_try; [|intros ?]
    | match goal with
      | |- preserved (if ?b then _ else _) => destruct b
      | |- preserved (match ?x with _ => _ end) => destruct x
      end ].

Variable rt : runtime.

Ltac unfold_service :=
  unfold handle_message, request_errors, fetch_and_edit, edit_and_respond,
    respond, apply_configuration_change, completion_of, extraction,
    extract_updated_values, edit_handlers, identify_application.

Lemma preserved_extraction (t : text) : preserved (extraction rt t).
Proof. unfold_service. preserve. Qed.

Lemma preserved_identify (user_input : json) :
  preserved (identify_application rt user_input).
Proof. unfold_service. preserve. Qed.

Lemma preserved_apply (user_input : json) (schema values : ref) :
  preserved (apply_configuration_change rt user_input schema values).
Proof. unfold_service. preserve. Qed.

Lemma preserved_edit_and_respond (user_input : json) (schema values : ref) :
  preserved (edit_and_respond rt user_input schema values).
Proof. unfold_service. preserve. Qed.

Lemma preserved_handle_message (get_json : exn + json) :
  preserved (handle_message rt get_json).
Proof. unfold_service. preserve. Qed.

End Preserved.

Lemma grows_refl (w : world) : grows w w.
Proof. exists []. now rewrite app_nil_r. Qed.

Lemma grows_trans (w1 w2 w3 : world) : grows w1 w2 -> grows w2 w3 -> grows w1 w3.
Proof.
  intros [n1 E1] [n2 E2]. exists (n1 ++ n2). now rewrite E2, E1, app_assoc.
Qed.

Lemma grows_printed (line : text) (w : world) : grows w (printed line w).
Proof. exists []. cbn. now rewrite app_nil_r. Qed.

Lemma grows_allocated (v : json) (w : world) : grows w (allocated v w).
Proof. now exists [v]. Qed.

Lemma grows_called (req : http_request) (w : world) : grows w (called req w).
Proof. exists []. cbn. now rewrite app_nil_r. Qed.

(** Every object that exists when a request arrives is unchanged when it
    is answered. *)
Lemma handle_message_grows (rt : runtime) (get_json : exn + json) (w : world) :
  grows w (fst (handle_message rt get_json w)).
Proof.
  exact (preserved_handle_message grows grows_refl grows_trans grows_printed
           grows_allocated grows_called rt get_json w).
Qed.

Lemma apply_grows (rt : runtime) (user_input : json) (schema values : ref)
    (w : world) :
  grows w (fst (apply_configuration_change rt user_input schema values w)).
Proof.
  exact (preserved_apply grows grows_refl grows_trans grows_printed
           grows_allocated grows_called rt user_input schema values w).
Qed.

Lemma edit_and_respond_grows (rt : runtime) (user_input : json)
    (schema values : ref) (w : world) :
  grows w (fst (edit_and_respond rt user_input schema values w)).
Proof.
  exact (preserved_edit_and_respond grows grows_refl grows_trans
           grows_printed grows_allocated grows_called rt user_input schema
           values w).
Qed.

(** Destructs the tests of [print] that a goal holds. *)
Ltac by_print :=
  repeat match goal with
         | |- context [ if printable ?a ?b then _ else _ ] =>
             destruct (printable a b)
         end.

Lemma edit_handlers_shape (rt : runtime) (json_response : option text)
    (e : exn) (w : world) :
  calls (fst (edit_handlers rt json_response e w)) = calls w
  /\ objects (fst (edit_handlers rt json_response e w)) = objects w
  /\ (forall r, snd (edit_handlers rt json_response e w) <> inr (Some r)).
Proof.
  unfold edit_handlers, bind, print, ret, raise.
  destruct (is_JSONDecodeError e); [destruct json_response|];
    by_print;
    (split; [reflexivity|split; [reflexivity|intros r; discriminate]]).
Qed.

Lemma extraction_shape (rt : runtime) (t : text) (w : world) :
  calls (fst (extraction rt t w)) = calls w
  /\ (forall r, snd (extraction rt t w) = inr (Some r) ->
                r = length (objects w)).
Proof.
  unfold extraction, try_except, extract_updated_values.
  destruct (negb (py_find lbrace t =? -1) && negb (py_rfind rbrace t =? -1)).
  - rewrite bind_lift. unfold loads.
    destruct (json_decode _ _) as [v| |x].
    + rewrite bind_new_object, bind_print by reflexivity.
      split; [reflexivity|]. intros r H. now injection H as <-.
    + destruct (edit_handlers_shape rt (Some t)
                  (JSONDecodeError
                     (py_slice t (py_find lbrace t) (py_rfind rbrace t + 1)))
                  w) as (C & _ & F).
      split; [exact C|]. intros r H. now apply F in H.
    + destruct (edit_handlers_shape rt (Some t) (refusal_exn x) w)
        as (C & _ & F).
      split; [exact C|]. intros r H. now apply F in H.
  - rewrite bind_print by reflexivity.
    split; [reflexivity|intros r; discriminate].
Qed.

Lemma bind_try {A B} (m : M A) (h : exn -> M A) (k : A -> M B) (w : world) :
  bind (try_except m h) k w
  = match m w with
    | (w', inr a) => k a w'
    | (w', inl e) => bind (h e) k w'
    end.
Proof.
  unfold bind, try_except. now destruct (m w) as [w' [e|a]].
Qed.

(** The edit, from the call on: one request is sent, and what is returned
    is a new object. *)
Lemma staged_shape (rt : runtime) (prompt : text) (w : world) :
  let after :=
    bind (completion_of rt prompt)
         (fun stage =>
            match stage with
            | inl returned => ret returned
            | inr json_response => extraction rt json_response
            end) w in
  calls (fst after)
  = calls w ++ [generate_request prompt (Dec false 1 (-1)) 4096]
  /\ (forall r, snd after = inr (Some r) -> r = length (objects w)).
Proof.
  cbv zeta. unfold completion_of.
  set (req := generate_request prompt (Dec false 1 (-1)) 4096).
  set (k := fun stage : option ref + text =>
              match stage with
              | inl returned => ret returned
              | inr json_response => extraction rt json_response
              end).
  assert (Hh : forall e w0,
             calls w0 = calls w ++ [req] ->
             calls (fst (bind (bind (edit_handlers rt None e)
                                    (fun returned => ret (inl returned)))
                              k w0))
             = calls w ++ [req]
             /\ (forall r,
                   snd (bind (bind (edit_handlers rt None e)
                                   (fun returned => ret (inl returned)))
                             k w0)
                   = inr (Some r) -> r = length (objects w))).
  { intros e w0 C0.
    destruct (edit_handlers_shape rt None e w0) as (C & _ & F).
    unfold bind.
    destruct (edit_handlers rt None e w0) as [w' [e'|returned]];
      unfold k, ret; cbv beta iota; cbn [fst snd] in *.
    - split; [congruence|intros r; discriminate].
    - split; [congruence|].
      intros r H. exfalso. apply (F r). exact H. }
  rewrite bind_try, bind_send.
  destruct (http rt req) as [e|response].
  { apply (Hh e (called req w)). reflexivity. }
  destruct (status_code response =? 200).
  - rewrite bind_response_json.
    destruct (json_decode (decoder rt) (response_text response))
      as [result| |x];
      [|apply (Hh _ (called req w)); reflexivity..].
    rewrite bind_lift.
    destruct (get_default result (lit "response") (JString []))
      as [e|answer]; [apply (Hh e (called req w)); reflexivity|].
    rewrite bind_lift.
    destruct (str_strip answer) as [e|t];
      [apply (Hh e (called req w)); reflexivity|].
    unfold ret, k. cbv beta iota.
    destruct (extraction_shape rt t (called req w)) as [C F].
    split; [exact C|exact F].
  - rewrite bind_print by legible. unfold ret, k. cbv beta iota.
    split; [reflexivity|intros r; discriminate].
Qed.

(** What the edit returns is a new object. *)
Lemma apply_result (rt : runtime) (user_input : json) (schema values : ref)
    (w : world) (r : ref) :
  snd (apply_configuration_change rt user_input schema values w)
  = inr (Some r) ->
  r = length (objects w).
Proof.
  unfold apply_configuration_change.
  rewrite bind_load, bind_lift.
  destruct (json_dumps rt (deref w values)) as [e|vt]; [discriminate|].
  rewrite bind_load, bind_lift.
  destruct (json_dumps rt (deref w schema)) as [e|st]; [discriminate|].
  cbv zeta. apply (staged_shape rt _ w).
Qed.

(** The edit sends one request, whose prompt is made of the two documents
    as they are. *)
Lemma apply_request (rt : runtime) (user_input : json) (schema values : ref)
    (w : world) :
  serialized rt (deref w values) -> serialized rt (deref w schema) ->
  calls (fst (apply_configuration_change rt user_input schema values w))
  = calls w ++ [edit_request rt user_input (deref w schema) (deref w values)].
Proof.
  intros Hv Hs.
  rewrite (apply_prompt rt user_input schema values w Hv Hs).
  apply (staged_shape rt _ w).
Qed.

(** C8.  The handler and the edit never change an object that exists: the
    objects in the world before are the first objects of the world after,
    as they were.  The edit reads the two documents to build its one
    request; the schema and the values it was given hold the same value
    after it as before; the object it returns is a new one, neither of the
    two.  After a request that reached the edit, the two documents are
    what the stores answered.  A change in place is a step of the runtime,
    [update], that would be seen; the service has no such step. *)
Theorem documents_are_not_mutated (rt : runtime) :
  (forall get_json w r,
      (r < length (objects w))%nat ->
      deref (fst (handle_message rt get_json w)) r = deref w r)
  /\ (forall user_input schema values w,
        (schema < length (objects w))%nat ->
        (values < length (objects w))%nat ->
        let after :=
          apply_configuration_change rt user_input schema values w in
        deref (fst after) schema = deref w schema
        /\ deref (fst after) values = deref w values
        /\ (serialized rt (deref w values) ->
            serialized rt (deref w schema) ->
            calls (fst after)
            = calls w ++ [edit_request rt user_input (deref w schema)
                                       (deref w values)])
        /\ (forall r,
              snd after = inr (Some r) ->
              r = length (objects w) /\ r <> schema /\ r <> values))
  /\ (forall d user_input w f,
        reaches_edit rt d user_input w f ->
        deref (fst (handle_message rt (inr (JObject d)) w)) (schema_ref f)
        = schema_doc f
        /\ deref (fst (handle_message rt (inr (JObject d)) w)) (values_ref f)
           = values_doc f).
Proof.
  split; [|split].
  - intros get_json w r H.
    exact (grows_deref _ _ r (handle_message_grows rt get_json w) H).
  - intros user_input schema values w Hs Hv after.
    pose proof (apply_grows rt user_input schema values w) as G.
    split; [exact (grows_deref _ _ schema G Hs)|].
    split; [exact (grows_deref _ _ values G Hv)|].
    split; [exact (apply_request rt user_input schema values w)|].
    intros r H. apply apply_result in H. subst r.
    split; [reflexivity|lia].
  - intros d user_input w f Hreach.
    rewrite (reaches_edit_run rt d user_input w f Hreach).
    assert (G : grows (at_edit f)
                  (fst (try_except
                          (edit_and_respond rt user_input (schema_ref f)
                                            (values_ref f))
                          (request_errors rt) (at_edit f)))).
    { apply (preserved_try grows grows_trans).
      - intros w0. apply edit_and_respond_grows.
      - intros e w0. rewrite request_errors_answer. apply grows_refl. }
    split.
    + rewrite (grows_deref _ _ (schema_ref f) G); [apply at_edit_schema|].
      unfold at_edit, schema_ref. cbn. rewrite !length_app. cbn. lia.
    + rewrite (grows_deref _ _ (values_ref f) G); [apply at_edit_values|].
      unfold at_edit, values_ref. cbn. rewrite !length_app. cbn. lia.
Qed.

(** Stores that hold a schema and values for [chat], and a provider that
    answers the edit with the completion of the example. *)
Definition stores_runtime : runtime :=
  scripted unreachable
    (ok (object1 (lit "type") (lit "object")))
    (ok (object1 (lit "memory") (lit "512")))
    (ok example_reply).

(** After the request is answered, with the document the provider wrote,
    the two documents the handler fetched are what the stores sent. *)
Lemma documents_are_not_mutated_witness :
  let after :=
    handle_message stores_runtime (ask "set chat memory to 1024")
                   empty_world in
  snd after = inr (mk_flask_response (JObject [(lit "a", JInt 1)]) 200)
  /\ deref (fst after) 0%nat = JObject [(lit "type", JString (lit "object"))]
  /\ deref (fst after) 1%nat = JObject [(lit "memory", JString (lit "512"))].
Proof.
  split; [vm_compute; reflexivity|].
  apply (proj2 (proj2 (documents_are_not_mutated stores_runtime))
           [(lit "input", JString (lit "set chat memory to 1024"))]
           (JString (lit "set chat memory to 1024")) empty_world
           (chat_fetched stores_runtime "set chat memory to 1024"
              (JObject [(lit "type", JString (lit "object"))])
              (JObject [(lit "memory", JString (lit "512"))]))).
  split; [reflexivity|]. split; [reflexivity|].
  split; [vm_compute; reflexivity|]. split.
  - exists (object1 (lit "type") (lit "object")).
    split; [reflexivity|vm_compute; reflexivity].
  - exists (object1 (lit "memory") (lit "512")).
    split; [reflexivity|vm_compute; reflexivity].
Defined.

End Frame.

(* ================================================================== *)
(** * Echo of the current values *)

Module RoundTrip.

Import Extraction Identification Handler.
Local Open Scope Z_scope.

(** The provider answers the edit of a request with [completion]: the
    two documents are serialized into the prompt, the call is answered
    200, and the member [response] of the decoded answer is
    [completion]. *)
Definition completes (rt : runtime) (user_input : json) (f : fetched)
    (completion : text) : Prop :=
  serialized rt (values_doc f) /\ serialized rt (schema_doc f)
  /\ exists reply result,
       http rt (edit_request rt user_input (schema_doc f) (values_doc f))
       = inr (mk_response 200 reply)
       /\ json_loads (decoder rt) reply = Some result
       /\ get_default result (lit "response") (JString [])
          = inr (JString completion).

(** The current values [{"a": 1}], as the values store sends them. *)
Definition sample_values : text := lit "{" ++ quoted (lit "a") ++ lit ": 1}".

(** Prose with braces of its own before the echoed values. *)
Definition braced_prose : text := lit "Kept {as it was}: ".

(** The answer of the provider: the member [response] holds the prose and
    then the values, their double quotes escaped. *)
Definition braced_reply : text :=
  object1 (lit "response")
    (braced_prose ++ lit "{\" ++ [dquote] ++ lit "a\" ++ [dquote]
       ++ lit ": 1}").

Definition braced_runtime : runtime :=
  scripted unreachable (ok (lit "{}")) (ok sample_values) (ok braced_reply).

Definition braced_fetched : fetched :=
  chat_fetched braced_runtime "set chat a to 1" (JObject [])
               (JObject [(lit "a", JInt 1)]).

(** C7, as stated, fails: the completion is the current values, serialized
    as JSON, after prose; the prose has braces of its own, the slice
    starts at the first of them and does not decode, and the request is
    answered 500. *)
Lemma echo_in_braced_prose_fails :
  reaches_edit braced_runtime [(lit "input", JString (lit "set chat a to 1"))]
               (JString (lit "set chat a to 1")) empty_world braced_fetched
  /\ json_loads default_limits sample_values
     = Some (values_doc braced_fetched)
  /\ completes braced_runtime (JString (lit "set chat a to 1")) braced_fetched
               (braced_prose ++ sample_values ++ [])
  /\ snd (handle_message braced_runtime (ask "set chat a to 1") empty_world)
     = inr edit_failed
  /\ snd (handle_message braced_runtime (ask "set chat a to 1") empty_world)
     <> inr (mk_flask_response (values_doc braced_fetched) 200).
Proof.
  split; [|split; [|split; [|split]]].
  - split; [reflexivity|]. split; [reflexivity|].
    split; [vm_compute; reflexivity|]. split.
    + exists (lit "{}"). split; [reflexivity|vm_compute; reflexivity].
    + exists sample_values. split; [reflexivity|vm_compute; reflexivity].
  - vm_compute. reflexivity.
  - split; [exists (lit "<json>"); reflexivity|].
    split; [exists (lit "<json>"); reflexivity|].
    exists braced_reply.
    exists (JObject [(lit "response",
                      JString (braced_prose ++ sample_values ++ []))]).
    split; [reflexivity|]. split; [vm_compute; reflexivity|reflexivity].
  - vm_compute. reflexivity.
  - vm_compute. discriminate.
Qed.

(** C7, amended.  For a request that reaches the edit: when the completion
    is the current values document, a JSON object that is not empty,
    serialized as JSON from its opening brace to its closing brace, with
    prose before it that has no opening brace and prose after it that has
    no closing brace, the request is answered 200 with exactly that
    document.  The serialization is one that the decoder returns the
    document for, and the document one that the encoder of the answer has
    room for. *)
Theorem echoed_document_is_returned (rt : runtime) (d : dict)
    (user_input : json) (w : world) (f : fetched) (pre m post : text) :
  reaches_edit rt d user_input w f ->
  completes rt user_input f (pre ++ (lbrace :: m ++ [rbrace]) ++ post) ->
  ~ In lbrace pre -> ~ In rbrace post ->
  json_loads (decoder rt) (lbrace :: m ++ [rbrace]) = Some (values_doc f) ->
  truthy (values_doc f) = true ->
  (depth (values_doc f) <= S (encoder_depth rt))%nat ->
  snd (handle_message rt (inr (JObject d)) w)
  = inr (mk_flask_response (values_doc f) 200).
Proof.
  intros Hreach (Sv & Ss & reply & result & Hhttp & Hreply & Hget)
    Hpre Hpost Hv Ht Hroom.
  assert (E : pre ++ (lbrace :: m ++ [rbrace]) ++ post
              = pre ++ lbrace :: m ++ rbrace :: post).
  { f_equal. rewrite <- app_comm_cons. f_equal.
    now rewrite <- app_assoc. }
  rewrite (reaches_edit_run rt d user_input w f Hreach).
  pose proof (edit_and_respond_decoded rt user_input f reply result
                (pre ++ (lbrace :: m ++ [rbrace]) ++ post) (values_doc f)
                Sv Ss Hhttp Hreply Hget) as R.
  apply Nat.leb_le in Hroom. rewrite Ht, Hroom in R.
  assert (H1 : In lbrace (pre ++ (lbrace :: m ++ [rbrace]) ++ post)).
  { rewrite E. apply in_or_app. right. now left. }
  assert (H2 : In rbrace (pre ++ (lbrace :: m ++ [rbrace]) ++ post)).
  { rewrite E. apply in_or_app. right. right.
    apply in_or_app. right. now left. }
  assert (H3 : json_loads (decoder rt)
                 (brace_slice (pre ++ (lbrace :: m ++ [rbrace]) ++ post))
               = Some (values_doc f)).
  { rewrite E, (brace_slice_between pre m post Hpre Hpost). exact Hv. }
  now rewrite (try_except_returned _ _ _ _ _ (R H1 H2 H3)).
Qed.

(** The same values echoed between prose without braces. *)
Definition plain_reply : text :=
  object1 (lit "response")
    (lit "Here you are: {\" ++ [dquote] ++ lit "a\" ++ [dquote]
       ++ lit ": 1} Done.").

Definition plain_runtime : runtime :=
  scripted unreachable (ok (lit "{}")) (ok sample_values) (ok plain_reply).

Lemma echoed_document_is_returned_witness :
  snd (handle_message plain_runtime (ask "set chat a to 1") empty_world)
  = inr (mk_flask_response (JObject [(lit "a", JInt 1)]) 200).
Proof.
  apply (echoed_document_is_returned plain_runtime
           [(lit "input", JString (lit "set chat a to 1"))]
           (JString (lit "set chat a to 1")) empty_world
           (chat_fetched plain_runtime "set chat a to 1" (JObject [])
                         (JObject [(lit "a", JInt 1)]))
           (lit "Here you are: ") (quoted (lit "a") ++ lit ": 1")
           (lit " Done.")).
  - split; [reflexivity|]. split; [reflexivity|].
    split; [vm_compute; reflexivity|]. split.
    + exists (lit "{}"). split; [reflexivity|vm_compute; reflexivity].
    + exists sample_values. split; [reflexivity|vm_compute; reflexivity].
  - split; [exists (lit "<json>"); reflexivity|].
    split; [exists (lit "<json>"); reflexivity|].
    exists plain_reply.
    exists (JObject [(lit "response",
                      JString (lit "Here you are: "
                                 ++ (lbrace :: (quoted (lit "a") ++ lit ": 1")
                                        ++ [rbrace])
                                 ++ lit " Done."))]).
    split; [reflexivity|]. split; [vm_compute; reflexivity|reflexivity].
  - vm_compute. intuition discriminate.
  - vm_compute. intuition discriminate.
  - vm_compute. reflexivity.
  - reflexivity.
  - vm_compute. lia.
Defined.

End RoundTrip.

(* ================================================================== *)
(** * The definitions at work *)

Module Examples.

Local Open Scope Z_scope.

Example find_first_brace : py_find lbrace (lit "a{b{c") = 1.
Proof. reflexivity. Qed.

Example rfind_last_brace : py_rfind rbrace (lit "a}b}c") = 3.
Proof. reflexivity. Qed.

Example find_nothing : py_find lbrace (lit "no braces here") = -1.
Proof. reflexivity. Qed.

Example slice_clamps : py_slice (lit "abcdef") 2 500 = lit "cdef".
Proof. reflexivity. Qed.

Example slice_from_the_end : py_slice (lit "abcdef") (-3) (-1) = lit "de".
Proof. reflexivity. Qed.

Example strip_both_sides :
  py_strip (9 :: 160 :: lit " {x} " ++ [newline])%N = lit "{x}".
Proof. reflexivity. Qed.

Example lower_kelvin_sign :
  py_lower (lit "MATCHMA" ++ [8490%N] ++ lit "ING") = lit "matchmaking".
Proof. reflexivity. Qed.

Example cleaned_answer :
  re_sub_non_lowercase (py_lower (py_strip (lit " Chat.  "))) = lit "chat".
Proof. reflexivity. Qed.

Example priority_of_keywords :
  Identification.first_keyword (lit "chat about the tournament")
  = Some (lit "tournament").
Proof. reflexivity. Qed.

Example brace_slice_of_reversed_braces :
  Extraction.brace_slice (lit "} and {") = [].
Proof. reflexivity. Qed.

Example loads_nested :
  json_loads default_limits (lit " {" ++ quoted (lit "k") ++ lit " : [1, -2.50e3, null, true] } ")
  = Some (JObject
            [ (lit "k",
               JArray [ JInt 1; JFloat (Dec true 250 1); JNull; JBool true ]) ]).
Proof. vm_compute. reflexivity. Qed.

Example loads_last_key_wins :
  json_loads default_limits (lit "{" ++ quoted (lit "a") ++ lit ":1," ++ quoted (lit "b")
                ++ lit ":2," ++ quoted (lit "a") ++ lit ":3}")
  = Some (JObject [ (lit "a", JInt 3); (lit "b", JInt 2) ]).
Proof. vm_compute. reflexivity. Qed.

Example loads_rejects_trailing_comma :
  json_loads default_limits (lit "[1,]") = None.
Proof. vm_compute. reflexivity. Qed.

Example loads_rejects_leading_zero :
  json_loads default_limits (lit "01") = None.
Proof. vm_compute. reflexivity. Qed.

Example loads_surrogate_pair :
  json_loads default_limits (quoted (lit "\ud83d\ude00")) = Some (JString [128512%N]).
Proof. vm_compute. reflexivity. Qed.

Example tiny_float_is_false :
  option_map truthy (json_loads default_limits (lit "2e-324")) = Some false.
Proof. vm_compute. reflexivity. Qed.

Example least_double_is_true :
  option_map truthy (json_loads default_limits (lit "5e-324")) = Some true.
Proof. vm_compute. reflexivity. Qed.

Example loads_refuses_deep_nesting :
  json_decode (mk_limits 4300 2) (lit "[[[1]]]") = Exceeds TooDeep
  /\ json_decode (mk_limits 4300 3) (lit "[[[1]]]")
     = Value (JArray [JArray [JArray [JInt 1]]]).
Proof. split; vm_compute; reflexivity. Qed.

Example loads_refuses_long_integers :
  json_decode (mk_limits 3 9) (lit "[1234]") = Exceeds TooManyDigits
  /\ json_decode (mk_limits 3 9) (lit "[-123, 1234.0]")
     = Value (JArray [JInt (-123); JFloat (Dec false 12340 (-1))]).
Proof. split; vm_compute; reflexivity. Qed.

Example lone_surrogate_is_not_printed :
  printable strict (lit "set " ++ [55357%N]) = false
  /\ printable surrogateescape (lit "set " ++ [55357%N]) = false
  /\ printable surrogateescape (lit "set " ++ [56448%N]) = true
  /\ printable strict (lit "set " ++ [128512%N]) = true.
Proof. repeat split. Qed.

Example depth_of_documents :
  depth (JObject [(lit "a", JArray [JInt 1; JObject []])]) = 3%nat
  /\ depth (JString (lit "a")) = 0%nat.
Proof. split; reflexivity. Qed.

End Examples.

(* ================================================================== *)
(** * More on the handler: bodies, statuses, requests *)

Module Requests.

Import TextFacts Extraction Identification Handler Frame.
Local Open Scope Z_scope.

(** The [except] clauses leave the world as the body of the handler left
    it. *)
Lemma fst_try_request_errors (rt : runtime) (m : M flask_response)
    (w : world) :
  fst (try_except m (request_errors rt) w) = fst (m w).
Proof.
  unfold try_except. destruct (m w) as [w' [e|r]]; [|reflexivity].
  now rewrite request_errors_answer.
Qed.

(** The line that takes up an input that is not a string is made of its
    rendering: standard output takes it. *)
Lemma processing_rendering (rt : runtime) (v : json) :
  (forall s, v <> JString s) ->
  printable (stdout_errors rt) (processing rt v) = true.
Proof.
  intros H. unfold processing.
  destruct v; try (cbn [format]; legible). exfalso. now apply (H s).
Qed.

(** ** Bodies without an input *)

(** A body that is false, or in which [input] does not occur (an object
    without that member; an array or a string that does not contain it),
    is answered 400 and leaves no trace: nothing is printed, nothing is
    requested, no object is made. *)
Theorem missing_input_is_bad_request (rt : runtime) (data : json)
    (w : world) :
  truthy data = false \/ contains (lit "input") data = inr false ->
  handle_message rt (inr data) w
  = (w, inr (mk_flask_response
               (JObject
                  [ (lit "error",
                     JString (lit "Missing " ++ quoted (lit "input")
                                ++ lit " field in request")) ])
               400)).
Proof.
  intros H. unfold handle_message, try_except. rewrite bind_lift.
  destruct (truthy data) eqn:T; cbn [negb].
  - destruct H as [H|H]; [discriminate|].
    rewrite bind_lift, H. reflexivity.
  - rewrite bind_ret. reflexivity.
Qed.

Lemma missing_input_is_bad_request_witness :
  handle_message example_runtime
    (inr (JObject [(lit "message", JString (lit "set chat memory"))]))
    empty_world
  = (empty_world,
     inr (mk_flask_response
            (JObject
               [ (lit "error",
                  JString (lit "Missing " ++ quoted (lit "input")
                             ++ lit " field in request")) ])
            400)).
Proof.
  apply (missing_input_is_bad_request example_runtime
           (JObject [(lit "message", JString (lit "set chat memory"))])
           empty_world).
  right. reflexivity.
Defined.

(** A body that is true and is neither an object, an array nor a string (a
    number, [true]) makes the test for [input] raise; an array or a string
    in which [input] occurs makes the subscript raise.  Both are answered
    500 with the message of an internal error, and leave no trace. *)
Theorem body_that_is_no_object (rt : runtime) (data : json) (w : world) :
  truthy data = true ->
  (forall d, data <> JObject d) ->
  contains (lit "input") data <> inr false ->
  exists e,
    handle_message rt (inr data) w = (w, inr (internal_error rt e))
    /\ (e = TypeError (lit "in") \/ e = TypeError (lit "getitem")).
Proof.
  intros T Hobj Hc. unfold handle_message, try_except.
  rewrite bind_lift, T. cbn [negb]. rewrite bind_lift.
  destruct data as [| b | z | f | s | l | d]; try discriminate T;
    cbn [contains] in *;
    try (exists (TypeError (lit "in")); split; [reflexivity|now left]).
  - destruct (py_in (lit "input") s); [|congruence].
    exists (TypeError (lit "getitem")). split; [reflexivity|now right].
  - destruct (existsb _ l); [|congruence].
    exists (TypeError (lit "getitem")). split; [reflexivity|now right].
  - exfalso. now apply (Hobj d).
Qed.

Lemma body_that_is_no_object_witness :
  exists e,
    handle_message example_runtime (inr (JArray [JString (lit "input")]))
                   empty_world
    = (empty_world, inr (internal_error example_runtime e))
    /\ (e = TypeError (lit "in") \/ e = TypeError (lit "getitem")).
Proof.
  apply (body_that_is_no_object example_runtime
           (JArray [JString (lit "input")]) empty_world).
  - reflexivity.
  - intros d H. discriminate H.
  - intros H. discriminate H.
Defined.

(** An [input] that is not a string makes [lower] raise before anything is
    requested: the request is answered 500 with the message of an internal
    error, one line is printed, no request is sent. *)
Theorem input_that_is_no_string (rt : runtime) (d : dict) (v : json)
    (w : world) :
  dict_get (lit "input") d = Some v ->
  (forall s, v <> JString s) ->
  handle_message rt (inr (JObject d)) w
  = (printed (processing rt v) w,
     inr (internal_error rt (AttributeError (lit "lower")))).
Proof.
  intros Hin Hv.
  rewrite (handle_message_input rt d v w Hin (processing_rendering rt v Hv)).
  apply (handled rt _ _ _ (inl (AttributeError (lit "lower")))).
  unfold bind at 1, identify_application. rewrite bind_lift.
  destruct v; try reflexivity. exfalso. now apply (Hv s).
Qed.

Lemma input_that_is_no_string_witness :
  handle_message example_runtime (inr (JObject [(lit "input", JInt 512)]))
                 empty_world
  = (printed (processing example_runtime (JInt 512)) empty_world,
     inr (internal_error example_runtime (AttributeError (lit "lower")))).
Proof.
  apply (input_that_is_no_string example_runtime [(lit "input", JInt 512)]
           (JInt 512) empty_world).
  - reflexivity.
  - intros s H. discriminate H.
Defined.

(** When [request.get_json()] raises, the exception is answered by the
    [except] clauses like any other: 500, and no trace. *)
Lemma get_json_raises (rt : runtime) (e : exn) (w : world) :
  handle_message rt (inl e) w = (w, inr (error_answer rt e)).
Proof.
  unfold handle_message, try_except. rewrite bind_lift.
  apply request_errors_answer.
Qed.

(** ** The statuses of the answers *)

(** A computation that answers with one of the four statuses of the
    handler. *)
Definition known_status (m : M flask_response) : Prop :=
  forall w w' response,
    m w = (w', inr response) ->
    In (status response) [200; 400; 404; 500].

Lemma known_jsonify (rt : runtime) (v : json) (code : Z) :
  In code [200; 400; 404; 500] -> known_status (jsonify rt v code).
Proof.
  intros H w w' response E. unfold jsonify in E.
  destruct (depth v <=? S (encoder_depth rt))%nat; [|discriminate].
  now injection E as _ <-.
Qed.

Lemma known_bind {A} (m : M A) (k : A -> M flask_response) :
  (forall a, known_status (k a)) -> known_status (bind m k).
Proof.
  intros H w w' response E. unfold bind in E.
  destruct (m w) as [w1 [e|a]]; [discriminate|]. exact (H a w1 w' response E).
Qed.

Lemma known_try (m : M flask_response) (h : exn -> M flask_response) :
  known_status m -> (forall e, known_status (h e)) ->
  known_status (try_except m h).
Proof.
  intros Hm Hh w w' response E. unfold try_except in E.
  destruct (m w) as [w1 [e|a]] eqn:Em.
  - exact (Hh e w1 w' response E).
  - injection E as <- <-. exact (Hm w w1 a Em).
Qed.

Ltac known :=
  repeat first
    [ apply known_jsonify; cbn; tauto
    | apply known_bind; intros ?
    | apply known_try; [|intros ?]
    | match goal with
      | |- known_status (if ?b then _ else _) => destruct b
      | |- known_status (match ?x with _ => _ end) => destruct x
      end ].

(** Whatever the request and whatever the stores and the provider do, the
    handler returns an answer, and its status is 200, 400, 404 or 500. *)
Theorem handler_statuses (rt : runtime) (get_json : exn + json) (w : world) :
  exists w' response,
    handle_message rt get_json w = (w', inr response)
    /\ In (status response) [200; 400; 404; 500].
Proof.
  destruct (handle_message_answers rt get_json w) as (w' & response & E).
  exists w', response. split; [exact E|].
  revert w w' response E. change (known_status (handle_message rt get_json)).
  unfold handle_message, request_errors, fetch_and_edit, edit_and_respond,
    respond.
  known.
Qed.

(** ** The resolution, whatever the input *)

(** The resolution of a string returns. *)
Lemma identify_string_returns (rt : runtime) (u : text) (w : world) :
  exists w' r, identify_application rt (JString u) w = (w', inr r).
Proof.
  destruct (first_keyword (py_lower u)) as [kw|] eqn:E.
  - rewrite (identify_by_keyword rt u kw w E). eauto.
  - destruct (identify_by_provider rt u w E) as (w' & r & R & _). eauto.
Qed.

(** The resolution of anything else raises at [lower]. *)
Lemma identify_other_raises (rt : runtime) (v : json) (w : world) :
  (forall u, v <> JString u) ->
  identify_application rt v w = (w, inl (AttributeError (lit "lower"))).
Proof.
  intros Hv. unfold identify_application. rewrite bind_lift.
  destruct v; try reflexivity. exfalso. now apply (Hv s).
Qed.

(** For a string, the resolution returns, whatever the provider does, and
    returns nothing or one of the three identifiers; only an input that is
    not a string makes it raise. *)
Theorem resolution_range (rt : runtime) (v : json) (w : world) :
  (forall u, v = JString u ->
     exists w' r, identify_application rt v w = (w', inr r))
  /\ (forall w' a,
        identify_application rt v w = (w', inr (Some a)) ->
        In a keywords /\ exists u, v = JString u)
  /\ ((forall u, v <> JString u) ->
      identify_application rt v w = (w, inl (AttributeError (lit "lower")))).
Proof.
  split; [|split].
  - intros u ->. apply identify_string_returns.
  - intros w' a H. split; [exact (identified_is_keyword rt v w w' a H)|].
    destruct v as [| | | | u | |];
      try (unfold identify_application in H; rewrite bind_lift in H;
           discriminate H).
    eauto.
  - apply identify_other_raises.
Qed.

Lemma resolution_range_witness :
  In (lit "chat") keywords /\ exists u, JString (lit "restart the Chat") = JString u.
Proof.
  apply (proj1 (proj2 (resolution_range example_runtime
                         (JString (lit "restart the Chat")) empty_world))
           (printed (lit "Identified application via keyword: chat")
                    empty_world)).
  vm_compute. reflexivity.
Defined.

(** ** The preview of a malformed completion *)

Lemma py_slice_prefix (t : text) (k : nat) :
  py_slice t 0 (Z.of_nat k) = firstn k t.
Proof.
  unfold py_slice, slice_bound.
  destruct (Z.ltb_spec 0 0); [lia|].
  destruct (Z.ltb_spec (Z.of_nat k) 0); [lia|].
  rewrite (Z.min_l 0) by lia. cbn [Z.to_nat skipn]. rewrite Z.sub_0_r.
  destruct (Z.le_gt_cases (Z.of_nat k) (Z.of_nat (length t))).
  - rewrite Z.min_l by lia. now rewrite Nat2Z.id.
  - rewrite Z.min_r by lia. rewrite Nat2Z.id.
    rewrite firstn_all. symmetry. apply firstn_all2. lia.
Qed.

(** When the slice of a completion does not decode, two lines are
    printed: the error, and a preview that holds the first 500 characters
    of the completion, stripped of the white space around it, and never
    more; the edit returns [None].  This is when standard output takes
    the preview: when it does not, the error line alone is printed and
    the exception of [print] leaves the edit. *)
Theorem malformed_preview_is_bounded (rt : runtime) (user_input : json)
    (schema values : ref) (w : world) (reply : text) (result : json)
    (completion : text) :
  let after := apply_configuration_change rt user_input schema values w in
  let preview := lit "Response was: " ++ firstn 500 (py_strip completion) in
  serialized rt (deref w values) -> serialized rt (deref w schema) ->
  http rt (edit_request rt user_input (deref w schema) (deref w values))
  = inr (mk_response 200 reply) ->
  json_loads (decoder rt) reply = Some result ->
  get_default result (lit "response") (JString []) = inr (JString completion) ->
  In lbrace completion -> In rbrace completion ->
  json_decode (decoder rt) (brace_slice completion) = Malformed ->
  (length preview <= 514)%nat
  /\ (printable (stdout_errors rt) preview = true ->
      snd after = inr None
      /\ exists error_line,
           stdout (fst after) = stdout w ++ [error_line; preview])
  /\ (printable (stdout_errors rt) preview = false ->
      snd after = inl (UnicodeEncodeError preview)
      /\ exists error_line, stdout (fst after) = stdout w ++ [error_line]).
Proof.
  intros after preview Hv Hs Hhttp Hreply Hget H1 H2 H3.
  assert (A : after
              = extraction rt (py_strip completion)
                  (called (edit_request rt user_input (deref w schema)
                                        (deref w values)) w)).
  { exact (apply_with_completion rt user_input schema values w reply
             result completion Hv Hs Hhttp Hreply Hget). }
  rewrite (extraction_malformed rt (py_strip completion)) in A;
    [|now apply in_strip|now apply in_strip|now rewrite brace_slice_strip].
  assert (P : preview_line (py_strip completion) = preview).
  { unfold preview_line, preview.
    pose proof (py_slice_prefix (py_strip completion) 500) as P.
    change (Z.of_nat 500) with 500 in P. now rewrite P. }
  rewrite P in A. split; [|split].
  - unfold preview. rewrite length_app, length_firstn.
    change (length (lit "Response was: ")) with 14%nat. lia.
  - intros K. rewrite K in A. rewrite A. split; [reflexivity|].
    eexists. cbn [fst stdout printed called]. rewrite <- app_assoc.
    reflexivity.
  - intros K. rewrite K in A. rewrite A. split; [reflexivity|].
    eexists. reflexivity.
Qed.

Lemma malformed_preview_is_bounded_witness :
  let after :=
    apply_configuration_change prose_runtime (JString (lit "set a to 1"))
      0%nat 1%nat two_documents in
  snd after = inr None
  /\ exists error_line,
       stdout (fst after)
       = stdout two_documents
           ++ [error_line; lit "Response was: { malformed }"].
Proof.
  apply (proj1 (proj2 (malformed_preview_is_bounded prose_runtime
                         (JString (lit "set a to 1")) 0%nat 1%nat
                         two_documents
                         (object1 (lit "response") braces_around_prose)
                         (JObject [(lit "response",
                                    JString braces_around_prose)])
                         braces_around_prose
                         (ex_intro _ (lit "<json>") eq_refl)
                         (ex_intro _ (lit "<json>") eq_refl)
                         eq_refl eq_refl eq_refl
                         ltac:(vm_compute; find_in) ltac:(vm_compute; find_in)
                         eq_refl))).
  reflexivity.
Defined.

(** ** When a store or the provider cannot be reached *)

(** The schema store cannot be reached, for a request that is taken up:
    the exception of the call is answered by the [except] clauses, 500
    with the message of a failure of communication when it is a
    [RequestException]; the values store and the provider's edit are not
    asked.  The same holds for the values store once the schema is
    fetched. *)
Theorem store_unreachable (rt : runtime) (d : dict) (u : text)
    (w w1 : world) (a : text) (e : exn) :
  dict_get (lit "input") d = Some (JString u) ->
  printable (stdout_errors rt) u = true ->
  identify_application rt (JString u) (printed (processing rt (JString u)) w)
  = (w1, inr (Some a)) ->
  (http rt (store_request SCHEMA_SERVICE_URL a) = inl e ->
   snd (handle_message rt (inr (JObject d)) w) = inr (error_answer rt e)
   /\ calls (fst (handle_message rt (inr (JObject d)) w))
      = calls w1 ++ [store_request SCHEMA_SERVICE_URL a])
  /\ (forall schema_reply schema_doc,
        http rt (store_request SCHEMA_SERVICE_URL a)
        = inr (mk_response 200 schema_reply) ->
        json_loads (decoder rt) schema_reply = Some schema_doc ->
        http rt (store_request VALUES_SERVICE_URL a) = inl e ->
        snd (handle_message rt (inr (JObject d)) w) = inr (error_answer rt e)
        /\ calls (fst (handle_message rt (inr (JObject d)) w))
           = calls w1 ++ [store_request SCHEMA_SERVICE_URL a;
                          store_request VALUES_SERVICE_URL a])
  /\ (is_RequestException e = true ->
      error_answer rt e
      = mk_flask_response
          (JObject [ (lit "error",
                      JString (lit "Service communication error: "
                                 ++ exn_str rt e)) ])
          500).
Proof.
  intros Hin P Hid.
  rewrite <- (processing_printable rt u) in P.
  destruct (handle_message_resolved rt d (JString u) w w1 a Hin P Hid)
    as [Pa ->].
  split; [|split].
  - intros Hs.
    assert (F : fetch_and_edit rt (JString u) a w1
                = (called (store_request SCHEMA_SERVICE_URL a)
                     (printed (lit "Fetching schema for " ++ a ++ lit "...")
                              w1),
                   inl e)).
    { unfold fetch_and_edit. rewrite bind_print by legible.
      now rewrite bind_send, Hs. }
    rewrite (handled rt _ _ _ _ F). split; reflexivity.
  - intros schema_reply schema_doc Hs Hsd Hv.
    assert (F : fetch_and_edit rt (JString u) a w1
                = (called (store_request VALUES_SERVICE_URL a)
                     (printed (lit "Fetching current values for " ++ a
                                 ++ lit "...")
                        (schema_fetched a schema_doc w1)),
                   inl e)).
    { unfold fetch_and_edit. rewrite bind_print by legible.
      rewrite bind_send, Hs. cbn [status_code negb Z.eqb Pos.eqb].
      rewrite (bind_response_value rt _ _ _ schema_doc) by exact Hsd.
      rewrite bind_new_object. rewrite bind_print by legible.
      now rewrite bind_send, Hv. }
    rewrite (handled rt _ _ _ _ F).
    split; [reflexivity|]. cbn [fst calls called printed schema_fetched
                                  allocated].
    now rewrite <- app_assoc.
  - intros He. unfold error_answer. now rewrite He.
Qed.

(** No store answers. *)
Definition stores_down_runtime : runtime :=
  scripted unreachable unreachable unreachable unreachable.

Lemma store_unreachable_witness :
  snd (handle_message stores_down_runtime (ask "set chat memory to 512")
                      empty_world)
  = inr (error_answer stores_down_runtime
           (RequestException (lit "connection refused")))
  /\ calls (fst (handle_message stores_down_runtime
                   (ask "set chat memory to 512") empty_world))
     = calls (printed (lit "Identified application via keyword: chat")
                (printed (processing stores_down_runtime
                            (JString (lit "set chat memory to 512")))
                         empty_world))
         ++ [store_request SCHEMA_SERVICE_URL (lit "chat")].
Proof.
  apply (proj1 (store_unreachable stores_down_runtime
           [(lit "input", JString (lit "set chat memory to 512"))]
           (lit "set chat memory to 512") empty_world
           (printed (lit "Identified application via keyword: chat")
              (printed (processing stores_down_runtime
                          (JString (lit "set chat memory to 512")))
                       empty_world))
           (lit "chat") (RequestException (lit "connection refused"))
           eq_refl eq_refl eq_refl)).
  reflexivity.
Defined.

Section EditFailures.

Variable rt : runtime.

(** The world and the request of the edit of a request that reached it. *)
Definition edit_start (f : fetched) : world :=
  printed (lit "Applying configuration change...") (at_edit f).

Lemma edit_start_schema (f : fetched) :
  deref (edit_start f) (schema_ref f) = schema_doc f.
Proof. apply at_edit_schema. Qed.

Lemma edit_start_values (f : fetched) :
  deref (edit_start f) (values_ref f) = values_doc f.
Proof. apply at_edit_values. Qed.

(** The call of the edit of a request that reached it, and what follows
    it. *)
Definition staged (user_input : json) (f : fetched) : M (option ref) :=
  bind (completion_of rt
          (edit_prompt (format rt user_input) (dumped rt (values_doc f))
                       (dumped rt (schema_doc f))))
       (fun stage =>
          match stage with
          | inl returned => ret returned
          | inr json_response => extraction rt json_response
          end).

(** The edit of a request that reached it, once the two documents are
    serialized. *)
Lemma apply_at_edit (user_input : json) (f : fetched) :
  serialized rt (values_doc f) -> serialized rt (schema_doc f) ->
  apply_configuration_change rt user_input (schema_ref f) (values_ref f)
                             (edit_start f)
  = staged user_input f (edit_start f).
Proof.
  intros Hv Hs.
  rewrite (apply_prompt rt user_input (schema_ref f) (values_ref f)
             (edit_start f));
    rewrite ?edit_start_schema, ?edit_start_values; try assumption.
  reflexivity.
Qed.

Lemma edit_and_respond_at_edit (user_input : json) (f : fetched)
    (w' : world) (r : exn + option ref) :
  apply_configuration_change rt user_input (schema_ref f) (values_ref f)
                             (edit_start f) = (w', r) ->
  edit_and_respond rt user_input (schema_ref f) (values_ref f) (at_edit f)
  = match r with
    | inl e => (w', inl e)
    | inr None => (w', inr edit_failed)
    | inr (Some x) =>
        if truthy (deref w' x)
        then (printed (lit "Configuration updated successfully!") w',
              if (depth (deref w' x) <=? S (encoder_depth rt))%nat
              then inr (mk_flask_response (deref w' x) 200)
              else inl RecursionError)
        else (w', inr edit_failed)
    end.
Proof.
  intros E. unfold edit_and_respond. rewrite bind_print by reflexivity.
  fold (edit_start f). unfold bind at 1. rewrite E.
  destruct r as [e|[x|]]; [reflexivity| |].
  - rewrite bind_load. destruct (truthy (deref w' x)); cbn [negb].
    + rewrite bind_print by reflexivity. unfold jsonify.
      now destruct (depth (deref w' x) <=? S (encoder_depth rt))%nat.
    + apply respond_flat. cbn. lia.
  - rewrite bind_ret. cbn [truthy negb]. apply respond_flat. cbn. lia.
Qed.

End EditFailures.

(** The provider fails at the edit: the call raises an exception that is
    not a JSON decoding error, or is answered with a status other than
    200.  The edit returns [None] and the request is answered 500 with
    the message that the change could not be applied. *)
Theorem provider_failure_at_edit (rt : runtime) (d : dict)
    (user_input : json) (w : world) (f : fetched) :
  reaches_edit rt d user_input w f ->
  serialized rt (values_doc f) -> serialized rt (schema_doc f) ->
  (exists e,
      http rt (edit_request rt user_input (schema_doc f) (values_doc f))
      = inl e /\ is_JSONDecodeError e = false)
  \/ (exists st reply,
        http rt (edit_request rt user_input (schema_doc f) (values_doc f))
        = inr (mk_response st reply) /\ st <> 200) ->
  snd (apply_configuration_change rt user_input (schema_ref f)
         (values_ref f) (edit_start f))
  = inr None
  /\ snd (handle_message rt (inr (JObject d)) w)
     = inr (mk_flask_response
              (JObject
                 [ (lit "error",
                    JString (lit "Failed to apply configuration change"));
                   (lit "hint",
                    JString (lit "The LLM could not parse or apply your request")) ])
              500).
Proof.
  intros Hreach Sv Ss Hhttp.
  rewrite (reaches_edit_run rt d user_input w f Hreach).
  assert (A : exists w',
             apply_configuration_change rt user_input (schema_ref f)
               (values_ref f) (edit_start f) = (w', inr None)).
  { rewrite (apply_at_edit rt user_input f Sv Ss).
    unfold staged, completion_of. rewrite bind_try.
    fold (edit_request rt user_input (schema_doc f) (values_doc f)).
    rewrite bind_send.
    destruct Hhttp as [(e & -> & He)|(st & reply & -> & Hst)].
    - unfold edit_handlers. rewrite He.
      unfold bind at 1. unfold bind at 1.
      rewrite bind_print by legible.
      eexists. reflexivity.
    - cbn [status_code]. apply Z.eqb_neq in Hst. rewrite Hst.
      rewrite bind_print by legible. eexists. reflexivity. }
  destruct A as [w' A]. split; [now rewrite A|].
  pose proof (edit_and_respond_at_edit rt user_input f w' (inr None) A) as E.
  cbv beta iota in E. now rewrite (handled rt _ _ _ _ E).
Qed.

(** The stores answer, the provider does not. *)
Definition provider_down_runtime : runtime :=
  scripted unreachable (ok (lit "{}")) (ok (lit "{}")) unreachable.

Lemma provider_failure_at_edit_witness :
  snd (handle_message provider_down_runtime (ask "set chat memory to 512")
                      empty_world)
  = inr (mk_flask_response
           (JObject
              [ (lit "error",
                 JString (lit "Failed to apply configuration change"));
                (lit "hint",
                 JString (lit "The LLM could not parse or apply your request")) ])
           500).
Proof.
  apply (provider_failure_at_edit provider_down_runtime
           [(lit "input", JString (lit "set chat memory to 512"))]
           (JString (lit "set chat memory to 512")) empty_world
           (chat_fetched provider_down_runtime "set chat memory to 512"
                         (JObject []) (JObject []))).
  - split; [reflexivity|]. split; [reflexivity|].
    split; [vm_compute; reflexivity|]. split.
    + exists (lit "{}"). split; [reflexivity|vm_compute; reflexivity].
    + exists (lit "{}"). split; [reflexivity|vm_compute; reflexivity].
  - exists (lit "<json>"). reflexivity.
  - exists (lit "<json>"). reflexivity.
  - left. exists (RequestException (lit "connection refused")).
    split; reflexivity.
Defined.

(** The provider answers the edit with status 200 and a body that is not
    JSON.  The decoding error reaches the clause for JSON errors, which
    prints [json_response], a local that is not bound yet: the error of
    that leaves [apply_configuration_change], and the request is answered
    500 with the message of an internal error, not with the message that
    the change could not be applied. *)
Theorem undecodable_provider_answer (rt : runtime) (d : dict)
    (user_input : json) (w : world) (f : fetched) (reply : text) :
  reaches_edit rt d user_input w f ->
  serialized rt (values_doc f) -> serialized rt (schema_doc f) ->
  http rt (edit_request rt user_input (schema_doc f) (values_doc f))
  = inr (mk_response 200 reply) ->
  json_decode (decoder rt) reply = Malformed ->
  snd (apply_configuration_change rt user_input (schema_ref f)
         (values_ref f) (edit_start f))
  = inl (UnboundLocalError (lit "json_response"))
  /\ snd (handle_message rt (inr (JObject d)) w)
     = inr (mk_flask_response
              (JObject
                 [ (lit "error",
                    JString (lit "Internal server error: "
                               ++ exn_str rt
                                    (UnboundLocalError (lit "json_response")))) ])
              500).
Proof.
  intros Hreach Sv Ss Hhttp Hreply.
  assert (A : exists w',
             apply_configuration_change rt user_input (schema_ref f)
               (values_ref f) (edit_start f)
             = (w', inl (UnboundLocalError (lit "json_response")))).
  { rewrite (apply_at_edit rt user_input f Sv Ss).
    unfold staged, completion_of. rewrite bind_try.
    fold (edit_request rt user_input (schema_doc f) (values_doc f)).
    rewrite bind_send, Hhttp.
    cbn [status_code]. rewrite Z.eqb_refl.
    rewrite bind_response_json. cbn [response_text]. rewrite Hreply.
    unfold edit_handlers. cbn [is_JSONDecodeError].
    unfold bind at 1. unfold bind at 1.
    rewrite bind_print by legible.
    eexists. reflexivity. }
  destruct A as [w' A]. split; [now rewrite A|].
  rewrite (reaches_edit_run rt d user_input w f Hreach).
  pose proof (edit_and_respond_at_edit rt user_input f w' _ A) as E.
  cbv beta iota in E.
  now rewrite (handled rt _ _ _ _ E).
Qed.

(** A provider that answers the edit with a page of HTML. *)
Definition html_provider_runtime : runtime :=
  scripted unreachable (ok (lit "{}")) (ok (lit "{}"))
           (ok (lit "<html>busy</html>")).

Lemma undecodable_provider_answer_witness :
  snd (handle_message html_provider_runtime (ask "set chat memory to 512")
                      empty_world)
  = inr (mk_flask_response
           (JObject
              [ (lit "error",
                 JString (lit "Internal server error: "
                            ++ exn_str html_provider_runtime
                                 (UnboundLocalError (lit "json_response")))) ])
           500).
Proof.
  apply (undecodable_provider_answer html_provider_runtime
           [(lit "input", JString (lit "set chat memory to 512"))]
           (JString (lit "set chat memory to 512")) empty_world
           (chat_fetched html_provider_runtime "set chat memory to 512"
                         (JObject []) (JObject []))
           (lit "<html>busy</html>")).
  - split; [reflexivity|]. split; [reflexivity|].
    split; [vm_compute; reflexivity|]. split.
    + exists (lit "{}"). split; [reflexivity|vm_compute; reflexivity].
    + exists (lit "{}"). split; [reflexivity|vm_compute; reflexivity].
  - exists (lit "<json>"). reflexivity.
  - exists (lit "<json>"). reflexivity.
  - reflexivity.
  - vm_compute. reflexivity.
Defined.

(** ** What is sent back with 200 *)

Lemma py_find_in (c : N) (t : text) : py_find c t <> -1 -> In c t.
Proof.
  intros H. destruct (in_dec N.eq_dec c t) as [K|K]; [exact K|].
  now rewrite (py_find_absent c t K) in H.
Qed.

(** The object that the extraction returns holds a JSON object. *)
Lemma extraction_object (rt : runtime) (t : text) (w w' : world) (r : ref) :
  extraction rt t w = (w', inr (Some r)) ->
  exists m, deref w' r = JObject m.
Proof.
  unfold extraction, try_except, extract_updated_values.
  destruct (negb (py_find lbrace t =? -1)) eqn:F; cbn [andb];
    [|rewrite bind_print by reflexivity; discriminate].
  destruct (negb (py_rfind rbrace t =? -1));
    [|rewrite bind_print by reflexivity; discriminate].
  fold (brace_slice t). rewrite bind_lift. unfold loads.
  destruct (json_decode (decoder rt) (brace_slice t)) as [v| |x] eqn:Hv.
  - rewrite bind_new_object, bind_print by reflexivity.
    intros H. injection H as <- <-.
    apply negb_true_iff, Z.eqb_neq, py_find_in in F.
    apply DecoderFacts.json_loads_value in Hv.
    destruct (brace_slice_decodes_object _ t v F Hv) as [m ->].
    exists m. unfold deref, printed, allocated. cbn [objects].
    apply nth_middle.
  - intros H.
    destruct (edit_handlers_shape rt (Some t)
                (JSONDecodeError (brace_slice t)) w) as (_ & _ & K).
    rewrite H in K. exfalso. now apply (K r).
  - intros H.
    destruct (edit_handlers_shape rt (Some t) (refusal_exn x) w)
      as (_ & _ & K).
    rewrite H in K. exfalso. now apply (K r).
Qed.

(** An object that the edit returns is one that the extraction made. *)
Lemma staged_result (rt : runtime) (prompt : text) (w w' : world) (r : ref) :
  bind (completion_of rt prompt)
       (fun stage =>
          match stage with
          | inl returned => ret returned
          | inr json_response => extraction rt json_response
          end) w
  = (w', inr (Some r)) ->
  exists t w0, extraction rt t w0 = (w', inr (Some r)).
Proof.
  unfold completion_of.
  set (k := fun stage : option ref + text =>
              match stage with
              | inl returned => ret returned
              | inr json_response => extraction rt json_response
              end).
  assert (Hh : forall e w0,
             bind (bind (edit_handlers rt None e)
                        (fun returned => ret (inl returned))) k w0
             <> (w', inr (Some r))).
  { intros e w0 H.
    destruct (edit_handlers_shape rt None e w0) as (_ & _ & F).
    unfold bind in H.
    destruct (edit_handlers rt None e w0) as [w1 [e'|returned]];
      unfold k, ret in H; cbv beta iota in H; cbn [fst snd] in *.
    - discriminate H.
    - injection H as _ H. apply (F r). now rewrite H. }
  rewrite bind_try, bind_send.
  destruct (http rt _) as [e|response]; [intros H; now apply Hh in H|].
  destruct (status_code response =? 200).
  - rewrite bind_response_json.
    destruct (json_decode (decoder rt) (response_text response))
      as [result| |x]; [|intros H; now apply Hh in H..].
    rewrite bind_lift.
    destruct (get_default result (lit "response") (JString []))
      as [e|answer]; [intros H; now apply Hh in H|].
    rewrite bind_lift.
    destruct (str_strip answer) as [e|t]; [intros H; now apply Hh in H|].
    unfold ret, k. cbv beta iota. intros H. eauto.
  - rewrite bind_print by legible. unfold ret, k. cbv beta iota.
    discriminate.
Qed.

(** So does the object that the edit returns. *)
Lemma apply_object (rt : runtime) (user_input : json) (schema values : ref)
    (w w' : world) (r : ref) :
  apply_configuration_change rt user_input schema values w
  = (w', inr (Some r)) ->
  exists m, deref w' r = JObject m.
Proof.
  unfold apply_configuration_change.
  rewrite bind_load, bind_lift.
  destruct (json_dumps rt (deref w values)) as [e|vt]; [discriminate|].
  rewrite bind_load, bind_lift.
  destruct (json_dumps rt (deref w schema)) as [e|st]; [discriminate|].
  cbv zeta. intros H. apply staged_result in H.
  destruct H as (t & w0 & H). exact (extraction_object rt t w0 w' r H).
Qed.

(** A computation whose answers with status 200 carry a JSON object with
    at least one member. *)
Definition object_when_ok (m : M flask_response) : Prop :=
  forall w w' response,
    m w = (w', inr response) -> status response = 200 ->
    exists p members, body response = JObject (p :: members).

Lemma object_respond_other (rt : runtime) (answer : flask_response) :
  status answer <> 200 -> object_when_ok (respond rt answer).
Proof.
  intros H w w' response E. unfold respond, jsonify in E.
  destruct (depth (body answer) <=? S (encoder_depth rt))%nat;
    [|discriminate].
  injection E as _ <-. contradiction.
Qed.

Lemma object_bind {A} (m : M A) (k : A -> M flask_response) :
  (forall a, object_when_ok (k a)) -> object_when_ok (bind m k).
Proof.
  intros H w w' response E. unfold bind in E.
  destruct (m w) as [w1 [e|a]]; [discriminate|]. exact (H a w1 w' response E).
Qed.

Lemma object_try (m : M flask_response) (h : exn -> M flask_response) :
  object_when_ok m -> (forall e, object_when_ok (h e)) ->
  object_when_ok (try_except m h).
Proof.
  intros Hm Hh w w' response E. unfold try_except in E.
  destruct (m w) as [w1 [e|a]] eqn:Em.
  - exact (Hh e w1 w' response E).
  - injection E as <- <-. exact (Hm w w1 a Em).
Qed.

Lemma edit_and_respond_object (rt : runtime) (user_input : json)
    (schema values : ref) :
  object_when_ok (edit_and_respond rt user_input schema values).
Proof.
  intros w w' response. unfold edit_and_respond.
  rewrite bind_print by reflexivity. unfold bind at 1.
  destruct (apply_configuration_change rt user_input schema values _)
    as [w1 [e|[x|]]] eqn:A; [discriminate| |].
  - rewrite bind_load. destruct (apply_object _ _ _ _ _ _ _ A) as [m Hm].
    rewrite Hm. destruct m as [|p m]; cbn [truthy negb].
    + apply object_respond_other. discriminate.
    + rewrite bind_print by reflexivity. unfold jsonify.
      destruct (_ <=? _)%nat; [|discriminate].
      intros H. injection H as _ <-. intros _.
      exists p, m. reflexivity.
  - rewrite bind_ret. cbn [truthy negb].
    apply object_respond_other. discriminate.
Qed.

(** Whatever the request, an answer with status 200 carries a JSON object
    with at least one member: the object decoded from the completion of
    the edit. *)
Theorem ok_answer_is_an_object (rt : runtime) (get_json : exn + json)
    (w w' : world) (response : flask_response) :
  handle_message rt get_json w = (w', inr response) ->
  status response = 200 ->
  exists p members, body response = JObject (p :: members).
Proof.
  revert w w' response.
  change (object_when_ok (handle_message rt get_json)).
  unfold handle_message. apply object_try.
  - apply object_bind. intros data. apply object_bind. intros has_input.
    destruct (negb has_input); [apply object_respond_other; discriminate|].
    apply object_bind. intros user_input. apply object_bind. intros _.
    apply object_bind.
    intros [[|c a]|]; try (apply object_respond_other; discriminate).
    unfold fetch_and_edit. apply object_bind. intros _.
    apply object_bind. intros schema_response.
    destruct (negb (status_code schema_response =? 200)).
    { apply object_bind. intros ?. apply object_respond_other.
      discriminate. }
    do 3 (apply object_bind; intros ?). apply object_bind.
    intros values_response.
    destruct (negb (status_code values_response =? 200)).
    { apply object_bind. intros ?. apply object_respond_other.
      discriminate. }
    do 2 (apply object_bind; intros ?). apply edit_and_respond_object.
  - intros e. unfold request_errors.
    destruct (is_RequestException e); apply object_respond_other;
      discriminate.
Qed.

Lemma ok_answer_is_an_object_witness :
  exists p members,
    body (mk_flask_response (JObject [(lit "a", JInt 1)]) 200)
    = JObject (p :: members).
Proof.
  apply (ok_answer_is_an_object RoundTrip.plain_runtime
           (ask "set chat a to 1") empty_world
           (fst (handle_message RoundTrip.plain_runtime
                   (ask "set chat a to 1") empty_world))).
  - vm_compute. reflexivity.
  - reflexivity.
Defined.

(** ** The requests of one exchange *)

(** The edit sends its one request, unless a document cannot be
    serialized into the prompt: then nothing is sent. *)
Lemma apply_calls (rt : runtime) (user_input : json) (schema values : ref)
    (w : world) :
  calls (fst (apply_configuration_change rt user_input schema values w))
  = calls w
  \/ calls (fst (apply_configuration_change rt user_input schema values w))
     = calls w ++ [edit_request rt user_input (deref w schema)
                                (deref w values)].
Proof.
  destruct (json_dumps rt (deref w values)) as [e|vt] eqn:Hv.
  { left. unfold apply_configuration_change.
    now rewrite bind_load, bind_lift, Hv. }
  destruct (json_dumps rt (deref w schema)) as [e|st] eqn:Hs.
  { left. unfold apply_configuration_change.
    now rewrite bind_load, bind_lift, Hv, bind_load, bind_lift, Hs. }
  right. apply apply_request; eexists; eassumption.
Qed.

(** After the edit, the answer is made without any request. *)
Lemma edit_and_respond_calls (rt : runtime) (user_input : json)
    (schema values : ref) (w : world) :
  calls (fst (edit_and_respond rt user_input schema values w)) = calls w
  \/ calls (fst (edit_and_respond rt user_input schema values w))
     = calls w ++ [edit_request rt user_input (deref w schema)
                                (deref w values)].
Proof.
  set (w0 := printed (lit "Applying configuration change...") w).
  pose proof (apply_calls rt user_input schema values w0) as C.
  change (calls w0) with (calls w) in C.
  change (deref w0 schema) with (deref w schema) in C.
  change (deref w0 values) with (deref w values) in C.
  assert (E : calls (fst (edit_and_respond rt user_input schema values w))
              = calls (fst (apply_configuration_change rt user_input schema
                              values w0))).
  { unfold edit_and_respond. rewrite bind_print by reflexivity. fold w0.
    unfold bind at 1.
    destruct (apply_configuration_change rt user_input schema values w0)
      as [w1 [e|[x|]]]; cbn [fst]; [reflexivity| |].
    - rewrite bind_load. destruct (truthy (deref w1 x)); cbn [negb].
      + rewrite bind_print by reflexivity. unfold jsonify.
        now destruct (_ <=? _)%nat.
      + now rewrite respond_flat by (cbn; lia).
    - rewrite bind_ret. cbn [truthy negb].
      now rewrite respond_flat by (cbn; lia). }
  rewrite E. exact C.
Qed.

(** The requests to the stores and to the provider for the edit of [a]:
    the schema; then the values, when the schema came with 200 as JSON;
    then the edit, when the values did too. *)
Definition store_requests (rt : runtime) (user_input : json) (a : text)
    (post : list http_request) : Prop :=
  post = [store_request SCHEMA_SERVICE_URL a]
  \/ (exists schema_reply schema_doc,
        http rt (store_request SCHEMA_SERVICE_URL a)
        = inr (mk_response 200 schema_reply)
        /\ json_loads (decoder rt) schema_reply = Some schema_doc
        /\ (post = [store_request SCHEMA_SERVICE_URL a;
                    store_request VALUES_SERVICE_URL a]
            \/ exists values_reply values_doc,
                 http rt (store_request VALUES_SERVICE_URL a)
                 = inr (mk_response 200 values_reply)
                 /\ json_loads (decoder rt) values_reply = Some values_doc
                 /\ post = [store_request SCHEMA_SERVICE_URL a;
                            store_request VALUES_SERVICE_URL a;
                            edit_request rt user_input schema_doc
                                         values_doc])).

Lemma response_200 (r : http_response) :
  (status_code r =? 200) = true ->
  r = mk_response 200 (response_text r).
Proof. destruct r as [st t]. cbn. intros H. apply Z.eqb_eq in H. now subst. Qed.

Lemma fetch_and_edit_calls (rt : runtime) (user_input : json) (a : text)
    (w : world) :
  printable (stdout_errors rt) a = true ->
  exists post,
    calls (fst (fetch_and_edit rt user_input a w)) = calls w ++ post
    /\ store_requests rt user_input a post.
Proof.
  intros Pa. unfold fetch_and_edit.
  rewrite bind_print by legible. rewrite bind_send.
  destruct (http rt (store_request SCHEMA_SERVICE_URL a))
    as [e|schema_response] eqn:Hs.
  { eexists. split; [reflexivity|now left]. }
  destruct (status_code schema_response =? 200) eqn:S200; cbn [negb].
  2:{ rewrite details_refusal. eexists. split; [reflexivity|now left]. }
  rewrite bind_response_json.
  destruct (json_decode (decoder rt) (response_text schema_response))
    as [schema_doc| |x] eqn:Hsd;
    [|eexists; split; [reflexivity|now left]..].
  apply DecoderFacts.json_loads_value in Hsd.
  rewrite (response_200 _ S200) in Hs.
  rewrite bind_new_object. rewrite bind_print by legible.
  rewrite bind_send.
  assert (Two : forall w',
             calls w'
             = calls w ++ [store_request SCHEMA_SERVICE_URL a;
                           store_request VALUES_SERVICE_URL a] ->
             exists post,
               calls w' = calls w ++ post
               /\ store_requests rt user_input a post).
  { intros w' E. eexists. split; [exact E|].
    right. exists (response_text schema_response), schema_doc.
    split; [exact Hs|]. split; [exact Hsd|now left]. }
  assert (After : forall x : http_request,
             (calls w ++ [store_request SCHEMA_SERVICE_URL a]) ++ [x]
             = calls w ++ [store_request SCHEMA_SERVICE_URL a; x])
    by (intros x0; now rewrite <- app_assoc).
  destruct (http rt (store_request VALUES_SERVICE_URL a))
    as [e|values_response] eqn:Hv.
  { apply Two. cbn [fst calls called printed allocated]. apply After. }
  destruct (status_code values_response =? 200) eqn:V200; cbn [negb].
  2:{ rewrite details_refusal. apply Two.
      cbn [fst calls called printed allocated]. apply After. }
  rewrite bind_response_json.
  destruct (json_decode (decoder rt) (response_text values_response))
    as [values_doc| |x] eqn:Hvd;
    [|apply Two; cbn [fst calls called printed allocated]; apply After..].
  apply DecoderFacts.json_loads_value in Hvd.
  rewrite (response_200 _ V200) in Hv.
  rewrite bind_new_object.
  match goal with
  | |- context [ edit_and_respond rt user_input ?s ?v ?w0 ] =>
      destruct (edit_and_respond_calls rt user_input s v w0) as [C|C];
      rewrite C
  end.
  - apply Two. cbn [fst calls called printed allocated]. apply After.
  - eexists. split.
    + cbn [calls allocated called printed]. rewrite <- !app_assoc.
      cbn [List.app]. reflexivity.
    + right. exists (response_text schema_response), schema_doc.
      split; [exact Hs|]. split; [exact Hsd|]. right.
      exists (response_text values_response), values_doc.
      split; [exact Hv|]. split; [exact Hvd|].
      unfold deref. cbn [objects allocated called printed List.app].
      rewrite length_app. cbn [length].
      now rewrite Nat.add_1_r, nth_first_new, nth_second_new.
Qed.

(** The requests of one exchange: the classification, if the input has no
    keyword; then, if an application is resolved, it is one of the three
    and the stores and the provider are asked for it in their order. *)
Definition exchange (rt : runtime) (new : list http_request) : Prop :=
  exists pre post,
    new = pre ++ post
    /\ (pre = [] \/ exists u, pre = [classification_request u])
    /\ (post = []
        \/ exists user_input a,
             In a keywords /\ store_requests rt user_input a post).

(** Whatever the request, the handler sends at most four requests, in
    this order: at most one classification, then the schema, the values
    and the edit.  The stores are asked for [chat], [matchmaking] or
    [tournament] only; the values are asked after the schema came with 200
    as JSON, and the edit after both documents did. *)
Theorem requests_of_an_exchange (rt : runtime) (get_json : exn + json)
    (w : world) :
  exists new,
    calls (fst (handle_message rt get_json w)) = calls w ++ new
    /\ exchange rt new
    /\ (length new <= 4)%nat.
Proof.
  assert (Hnone : exists new,
             calls w = calls w ++ new /\ exchange rt new
             /\ (length new <= 4)%nat).
  { exists []. split; [now rewrite app_nil_r|]. split; [|cbn; lia].
    exists [], []. split; [reflexivity|]. split; now left. }
  unfold handle_message. rewrite fst_try_request_errors, bind_lift.
  destruct get_json as [e|data]; [exact Hnone|].
  destruct (truthy data); cbn [negb]; [|rewrite bind_ret; exact Hnone].
  rewrite bind_lift.
  destruct (contains (lit "input") data) as [e|[|]]; cbn [negb];
    [exact Hnone| |exact Hnone].
  rewrite bind_lift.
  destruct (getitem data (lit "input")) as [e|v]; [exact Hnone|].
  fold (processing rt v).
  destruct (printable (stdout_errors rt) (processing rt v)) eqn:P;
    [|rewrite bind_print_refused by exact P; exact Hnone].
  rewrite bind_print by exact P. set (w0 := printed _ w).
  change (calls w) with (calls w0).
  destruct v as [| b | z | f | u | l | o];
    try (unfold bind at 1;
         rewrite identify_other_raises by (intros s K; discriminate K);
         exact Hnone).
  destruct (identify_string_returns rt u w0) as (w1 & r & R).
  pose proof (identify_calls rt u w0) as C. rewrite R in C. cbn [fst] in C.
  assert (Hpre : exists pre,
             calls w1 = calls w0 ++ pre
             /\ (pre = [] \/ exists u', pre = [classification_request u'])).
  { destruct C as [C|C].
    - exists []. split; [now rewrite app_nil_r|now left].
    - exists [classification_request u]. split; [exact C|right; eauto]. }
  destruct Hpre as (pre & Hc & Hp).
  assert (Lpre : (length pre <= 1)%nat).
  { destruct Hp as [->|[u' ->]]; cbn; lia. }
  unfold bind at 1. rewrite R.
  assert (Hstop : exists new,
             calls w1 = calls w0 ++ new /\ exchange rt new
             /\ (length new <= 4)%nat).
  { exists pre. split; [exact Hc|]. split; [|lia].
    exists pre, []. split; [now rewrite app_nil_r|].
    split; [exact Hp|now left]. }
  destruct r as [a|];
    [|rewrite respond_flat by (cbn; lia); exact Hstop].
  pose proof (identified_is_keyword rt (JString u) w0 w1 a R) as Ha.
  destruct (keyword_printable (stdout_errors rt) a Ha) as [Pa Na].
  destruct a as [|c a]; [congruence|].
  destruct (fetch_and_edit_calls rt (JString u) (c :: a) w1 Pa)
    as (post & Hpost & Hshape).
  exists (pre ++ post). split; [|split].
  - rewrite Hpost, Hc. now rewrite app_assoc.
  - exists pre, post. split; [reflexivity|]. split; [exact Hp|].
    right. exists (JString u), (c :: a). split; [exact Ha|exact Hshape].
  - rewrite length_app.
    assert ((length post <= 3)%nat).
    { destruct Hshape as [->|(sr & sd & _ & _ & [->|(vr & vd & _ & _ & ->)])];
        cbn; lia. }
    lia.
Qed.

End Requests.

(* ================================================================== *)
(** * Start-up of the bot: waiting for the provider, pulling the model *)

Module Startup.

Import Identification.
Local Open Scope Z_scope.

(** What start-up does that can be seen from outside, in its order. *)
Inductive event :=
| Printed (line : text)
| Requested (req : http_request)
| Slept (seconds : Z).

Definition history := list event.

Definition requests_of (h : history) : list http_request :=
  flat_map (fun e => match e with Requested req => [req] | _ => [] end) h.

Definition sleeps_of (h : history) : list Z :=
  flat_map (fun e => match e with Slept s => [s] | _ => [] end) h.

(** The number of requests sent so far. *)
Definition sent (h : history) : nat := length (requests_of h).

(** A line of a streamed body as [iter_lines] yields it: no bytes, or
    some bytes, with the text [json.loads] decodes them to if they can be
    decoded. *)
Inductive line :=
| Empty
| Bytes (decoded : option text).

(** The answer to a request sent with [stream=True]: its status, the
    lines of its body, and the exception that ends the body, if any. *)
Record streamed := mk_streamed {
  streamed_status : Z;
  streamed_lines : list line;
  streamed_failure : option exn
}.

(** The provider and the clock during start-up.  The answers of the
    provider change while it comes up: an answer depends on the request
    and on the number of requests sent before it.  [sleep_error] is the
    exception with which the platform refuses to sleep a number of
    seconds that is not negative, if it does: [OverflowError] for a
    length that does not fit its timestamps, [OSError] for one its clock
    cannot reach. *)
Record network := mk_network {
  answers : nat -> http_request -> exn + http_response;
  streams : nat -> http_request -> exn + streamed;
  sleep_error : history -> Z -> option exn
}.

(** A computation of start-up: it extends the history and returns or
    raises. *)
Definition Boot (A : Type) : Type := history -> history * (exn + A).

Definition value {A} (a : A) : Boot A := fun h => (h, inr a).

Definition failure {A} (e : exn) : Boot A := fun h => (h, inl e).

Definition result {A} (r : exn + A) : Boot A := fun h => (h, r).

Definition and_then {A B} (m : Boot A) (k : A -> Boot B) : Boot B :=
  fun h =>
    match m h with
    | (h', inr a) => k a h'
    | (h', inl e) => (h', inl e)
    end.

(** [try: m  except Exception as e: handler e] *)
Definition guarded {A} (m : Boot A) (handler : exn -> Boot A) : Boot A :=
  fun h =>
    match m h with
    | (h', inl e) => handler e h'
    | r => r
    end.

(** [print(line)]: the line is written whole, or not at all. *)
Definition say (rt : runtime) (line : text) : Boot unit :=
  fun h =>
    if printable (stdout_errors rt) line then (h ++ [Printed line], inr tt)
    else (h, inl (UnicodeEncodeError line)).

(** [requests.get] and [requests.post] without streaming. *)
Definition request (net : network) (req : http_request)
  : Boot http_response :=
  fun h => (h ++ [Requested req], answers net (sent h) req).

(** [requests.post(..., stream=True)] *)
Definition request_stream (net : network) (req : http_request)
  : Boot streamed :=
  fun h => (h ++ [Requested req], streams net (sent h) req).

(** The exception of [time.sleep(seconds)], if it raises: a negative
    length is refused, and so is one the platform cannot sleep. *)
Definition sleep_refusal (net : network) (h : history) (seconds : Z)
  : option exn :=
  if seconds <? 0
  then Some (ValueError (lit "sleep length must be non-negative"))
  else sleep_error net h seconds.

(** [time.sleep(seconds)] *)
Definition time_sleep (net : network) (seconds : Z) : Boot unit :=
  fun h =>
    match sleep_refusal net h seconds with
    | Some e => (h, inl e)
    | None => (h ++ [Slept seconds], inr tt)
    end.

Declare Scope boot_scope.
Delimit Scope boot_scope with boot.
Notation "x <- m ;; k" := (and_then m (fun x => k))
  (at level 61, m at next level, right associativity) : boot_scope.
Notation "m ;; k" := (and_then m (fun _ => k))
  (at level 61, right associativity) : boot_scope.
Local Open Scope boot_scope.

(** [requests.get(f'{OLLAMA_URL}/api/tags', timeout=timeout)] *)
Definition tags_request (timeout : Z) : http_request :=
  mk_request GET (OLLAMA_URL ++ lit "/api/tags") None timeout.

(** The line printed between two attempts, line 27. *)
Definition retry_line (max_retries delay i : Z) : text :=
  lit "Ollama not ready yet, retrying in " ++ int_str delay
    ++ lit " seconds... (" ++ int_str (i + 1) ++ lit "/"
    ++ int_str max_retries ++ lit ")".

(** The loop of [wait_for_ollama], lines 17 to 28, from index [i] with
    [remaining] turns to go. *)
Fixpoint attempts (rt : runtime) (net : network) (max_retries delay i : Z)
    (remaining : nat) : Boot bool :=
  match remaining with
  | O =>
      say rt (lit "WARNING: Ollama service did not become ready in time") ;;
      value false
  | S remaining' =>
      ready <-
        guarded
          (response <- request net (tags_request 5) ;;
           if status_code response =? 200 then
             say rt (lit "Ollama service is ready!") ;; value true
           else value false)
          (fun e => if is_RequestException e then value false
                    else failure e) ;;
      if (ready : bool) then value true
      else
        (if i <? max_retries - 1 then
           say rt (retry_line max_retries delay i) ;; time_sleep net delay
         else value tt) ;;
        attempts rt net max_retries delay (i + 1) remaining'
  end.

(** [wait_for_ollama], lines 14 to 31; [range(max_retries)] has
    [max_retries] turns, none if it is negative. *)
Definition wait_for_ollama (rt : runtime) (net : network)
    (max_retries delay : Z) : Boot bool :=
  say rt (lit "Waiting for Ollama service to be ready...") ;;
  attempts rt net max_retries delay 0 (Z.to_nat max_retries).

(** What [for x in v] goes through. *)
Definition py_iter (v : json) : exn + list json :=
  match v with
  | JArray items => inr items
  | JString s => inr (map (fun c => JString [c]) s)
  | JObject members => inr (map (fun m => JString (fst m)) members)
  | _ => inl (TypeError (lit "iter"))
  end.

(** [any(model_name in model.get('name', '') for model in models)], which
    stops at the first model that matches. *)
Fixpoint any_named (model_name : text) (models : list json) : exn + bool :=
  match models with
  | [] => inr false
  | model :: rest =>
      match get_default model (lit "name") (JString []) with
      | inl e => inl e
      | inr name =>
          match contains model_name name with
          | inl e => inl e
          | inr true => inr true
          | inr false => any_named model_name rest
          end
      end
  end.

(** [json.loads(line)] for the bytes of a line. *)
Definition loads_bytes (lim : limits) (decoded : option text) : exn + json :=
  match decoded with
  | None => inl (OtherException (lit "UnicodeDecodeError"))
  | Some t => loads lim t
  end.

(** The body of the loop over the lines of the pull, lines 55 to 61. *)
Definition report (rt : runtime) (l : line) : Boot unit :=
  match l with
  | Empty => value tt
  | Bytes decoded =>
      data <- result (loads_bytes (decoder rt) decoded) ;;
      status <- result (get_default data (lit "status") (JString [])) ;;
      has_progress <- result (contains (lit "progress") data) ;;
      if (has_progress : bool) then
        progress <- result (getitem data (lit "progress")) ;;
        say rt (lit "  " ++ format rt status ++ lit ": "
                  ++ format rt progress)
      else if truthy status then say rt (lit "  " ++ format rt status)
      else value tt
  end.

Fixpoint report_all (rt : runtime) (ls : list line) : Boot unit :=
  match ls with
  | [] => value tt
  | l :: rest => report rt l ;; report_all rt rest
  end.

Definition pull_request (model_name : text) : http_request :=
  mk_request POST (OLLAMA_URL ++ lit "/api/pull")
             (Some (JObject [ (lit "name", JString model_name) ])) 600.

Definition checking_line (model_name : text) : text :=
  lit "Checking if model '" ++ model_name ++ lit "' is available...".

Definition available_line (model_name : text) : text :=
  lit "Model '" ++ model_name ++ lit "' is already available".

Definition pulling_line (model_name : text) : text :=
  lit "Pulling model '" ++ model_name
    ++ lit "'... This may take a few minutes...".

Definition ready_line (model_name : text) : text :=
  lit "Model '" ++ model_name ++ lit "' is ready!".

Definition error_line (rt : runtime) (e : exn) : text :=
  lit "Error ensuring model is available: " ++ exn_str rt e.

(** Lines 38 to 41: whether the provider lists the model. *)
Definition model_exists (rt : runtime) (net : network) (model_name : text)
  : Boot bool :=
  response <- request net (tags_request 10) ;;
  if status_code response =? 200 then
    listing <- result (match json_decode (decoder rt)
                               (response_text response) with
                       | Value v => inr v
                       | Malformed => inl (RequestsJSONDecodeError
                                             (response_text response))
                       | Exceeds x => inl (refusal_exn x)
                       end) ;;
    models <- result (get_default listing (lit "models") (JArray [])) ;;
    items <- result (py_iter models) ;;
    result (any_named model_name items)
  else value false.

(** Lines 47 to 64: the pull and its report. *)
Definition pull_model (rt : runtime) (net : network) (model_name : text)
  : Boot bool :=
  say rt (pulling_line model_name) ;;
  pull_response <- request_stream net (pull_request model_name) ;;
  report_all rt (streamed_lines pull_response) ;;
  match streamed_failure pull_response with
  | Some e => failure e
  | None => value tt
  end ;;
  say rt (ready_line model_name) ;;
  value true.

(** [ensure_model_pulled], lines 33 to 69. *)
Definition ensure_model_pulled (rt : runtime) (net : network)
    (model_name : text) : Boot bool :=
  say rt (checking_line model_name) ;;
  guarded
    (listed <- model_exists rt net model_name ;;
     if (listed : bool) then
       say rt (available_line model_name) ;; value true
     else pull_model rt net model_name)
    (fun e => say rt (error_line rt e) ;; value false).

(** Lines 305 and 306 of the main block: the model is looked after only
    if the provider got ready. *)
Definition prepare_provider (rt : runtime) (net : network) : Boot unit :=
  ready <- wait_for_ollama rt net 30 2 ;;
  if (ready : bool) then
    ensure_model_pulled rt net (lit "llama3.2") ;; value tt
  else value tt.

(** ** How the operations compose *)

Lemma and_then_value {A B} (a : A) (k : A -> Boot B) (h : history) :
  and_then (value a) k h = k a h.
Proof. reflexivity. Qed.

Lemma and_then_result {A B} (r : exn + A) (k : A -> Boot B) (h : history) :
  and_then (result r) k h
  = match r with inr a => k a h | inl e => (h, inl e) end.
Proof. unfold and_then, result. now destruct r. Qed.

Lemma say_line (rt : runtime) (line : text) (h : history) :
  printable (stdout_errors rt) line = true ->
  say rt line h = (h ++ [Printed line], inr tt).
Proof. intros P. unfold say. now rewrite P. Qed.

Lemma and_then_say {B} (rt : runtime) (line : text) (k : unit -> Boot B)
    (h : history) :
  printable (stdout_errors rt) line = true ->
  and_then (say rt line) k h = k tt (h ++ [Printed line]).
Proof. intros P. unfold and_then. now rewrite say_line. Qed.

Lemma and_then_say_refused {B} (rt : runtime) (line : text)
    (k : unit -> Boot B) (h : history) :
  printable (stdout_errors rt) line = false ->
  and_then (say rt line) k h = (h, inl (UnicodeEncodeError line)).
Proof. intros P. unfold and_then, say. now rewrite P. Qed.

Lemma and_then_request {B} (net : network) (req : http_request)
    (k : http_response -> Boot B) (h : history) :
  and_then (request net req) k h
  = match answers net (sent h) req with
    | inr response => k response (h ++ [Requested req])
    | inl e => (h ++ [Requested req], inl e)
    end.
Proof. unfold and_then, request. now destruct (answers net (sent h) req). Qed.

Lemma and_then_request_stream {B} (net : network) (req : http_request)
    (k : streamed -> Boot B) (h : history) :
  and_then (request_stream net req) k h
  = match streams net (sent h) req with
    | inr response => k response (h ++ [Requested req])
    | inl e => (h ++ [Requested req], inl e)
    end.
Proof.
  unfold and_then, request_stream. now destruct (streams net (sent h) req).
Qed.

Lemma requests_of_app (a b : history) :
  requests_of (a ++ b) = requests_of a ++ requests_of b.
Proof. apply flat_map_app. Qed.

Lemma sleeps_of_app (a b : history) :
  sleeps_of (a ++ b) = sleeps_of a ++ sleeps_of b.
Proof. apply flat_map_app. Qed.

Lemma sent_requested (h : history) (req : http_request) :
  sent (h ++ [Requested req]) = S (sent h).
Proof.
  unfold sent. rewrite requests_of_app, length_app. cbn. lia.
Qed.

Lemma sent_printed (h : history) (line : text) :
  sent (h ++ [Printed line]) = sent h.
Proof.
  unfold sent. rewrite requests_of_app, length_app. cbn. lia.
Qed.

Lemma sent_slept (h : history) (seconds : Z) :
  sent (h ++ [Slept seconds]) = sent h.
Proof.
  unfold sent. rewrite requests_of_app, length_app. cbn. lia.
Qed.

(** ** Waiting for the provider *)


Definition ready_line_of_wait : text := lit "Ollama service is ready!".

Definition warning_line : text :=
  lit "WARNING: Ollama service did not become ready in time".

(** The line between two attempts is made of literals and numbers. *)
Lemma retry_line_printable (errors : error_handler) (max_retries delay i : Z) :
  printable errors (retry_line max_retries delay i) = true.
Proof. unfold retry_line. legible. Qed.



(** What follows an attempt that did not find the provider ready. *)
Definition pause (rt : runtime) (net : network) (max_retries delay i : Z)
    (remaining : nat) (h : history) : history * (exn + bool) :=
  if i <? max_retries - 1 then
    match sleep_refusal net (h ++ [Printed (retry_line max_retries delay i)])
                        delay with
    | Some e => (h ++ [Printed (retry_line max_retries delay i)], inl e)
    | None =>
        attempts rt net max_retries delay (i + 1) remaining
          ((h ++ [Printed (retry_line max_retries delay i)]) ++ [Slept delay])
    end
  else attempts rt net max_retries delay (i + 1) remaining h.

(** One turn of the loop. *)
Lemma attempts_turn (rt : runtime) (net : network) (max_retries delay i : Z)
    (remaining : nat) (h : history) :
  attempts rt net max_retries delay i (S remaining) h
  = match answers net (sent h) (tags_request 5) with
    | inr response =>
        if status_code response =? 200 then
          ((h ++ [Requested (tags_request 5)])
             ++ [Printed ready_line_of_wait], inr true)
        else pause rt net max_retries delay i remaining
               (h ++ [Requested (tags_request 5)])
    | inl e =>
        if is_RequestException e then
          pause rt net max_retries delay i remaining
            (h ++ [Requested (tags_request 5)])
        else (h ++ [Requested (tags_request 5)], inl e)
    end.
Proof.
  assert (Sr : forall h0,
             say rt (retry_line max_retries delay i) h0
             = (h0 ++ [Printed (retry_line max_retries delay i)], inr tt))
    by (intros h0; apply say_line, retry_line_printable).
  cbn [attempts].
  unfold and_then, guarded, request, value, failure, pause.
  destruct (answers net (sent h) (tags_request 5)) as [e|response].
  - destruct (is_RequestException e); [|reflexivity].
    destruct (i <? max_retries - 1); [|reflexivity].
    rewrite Sr. unfold time_sleep.
    now destruct (sleep_refusal net _ delay).
  - destruct (status_code response =? 200); [reflexivity|].
    destruct (i <? max_retries - 1); [|reflexivity].
    rewrite Sr. unfold time_sleep.
    now destruct (sleep_refusal net _ delay).
Qed.

Lemma attempts_none (rt : runtime) (net : network) (max_retries delay i : Z)
    (h : history) :
  attempts rt net max_retries delay i 0 h
  = (h ++ [Printed warning_line], inr false).
Proof. reflexivity. Qed.

Opaque attempts.



(** Whatever the provider answers: the requests are probes, no more of
    them than turns; the sleeps are fewer than the probes; and [True] is
    returned only after a probe that was answered with 200, the last one. *)
Lemma attempts_sound (rt : runtime) (net : network)
    (max_retries delay : Z) :
  forall (remaining : nat) (i : Z) (h : history),
    max_retries <= i + Z.of_nat remaining ->
    exists new outcome n m,
      attempts rt net max_retries delay i remaining h = (h ++ new, outcome)
      /\ requests_of new = repeat (tags_request 5) n
      /\ (n <= remaining)%nat
      /\ (remaining <> 0 -> n <> 0)%nat
      /\ sleeps_of new = repeat delay m
      /\ (m <= pred n)%nat
      /\ (outcome = inr true ->
          n <> 0%nat
          /\ exists response,
               answers net (sent h + pred n) (tags_request 5) = inr response
               /\ status_code response = 200).
Proof.
  induction remaining as [|remaining IH]; intros i h Hi.
  - exists [Printed warning_line], (inr false), 0%nat, 0%nat.
    rewrite attempts_none. repeat split; try lia; discriminate.
  - assert (Hstop : forall e,
               exists new outcome n m,
                 (h ++ [Requested (tags_request 5)], @inl exn bool e)
                 = (h ++ new, outcome)
                 /\ requests_of new = repeat (tags_request 5) n
                 /\ (n <= S remaining)%nat
                 /\ (S remaining <> 0 -> n <> 0)%nat
                 /\ sleeps_of new = repeat delay m
                 /\ (m <= pred n)%nat
                 /\ (outcome = inr true ->
                     n <> 0%nat
                     /\ exists response,
                          answers net (sent h + pred n) (tags_request 5)
                          = inr response
                          /\ status_code response = 200)).
    { intros e. exists [Requested (tags_request 5)], (inl e), 1%nat, 0%nat.
      repeat split; try lia; discriminate. }
    assert (Hpause :
      exists new outcome n m,
        pause rt net max_retries delay i remaining
          (h ++ [Requested (tags_request 5)]) = (h ++ new, outcome)
        /\ requests_of new = repeat (tags_request 5) n
        /\ (n <= S remaining)%nat
        /\ (S remaining <> 0 -> n <> 0)%nat
        /\ sleeps_of new = repeat delay m
        /\ (m <= pred n)%nat
        /\ (outcome = inr true ->
            n <> 0%nat
            /\ exists response,
                 answers net (sent h + pred n) (tags_request 5) = inr response
                 /\ status_code response = 200)).
    { unfold pause. destruct (i <? max_retries - 1) eqn:Hlast.
      - apply Z.ltb_lt in Hlast.
        destruct (sleep_refusal net _ delay) as [refused|].
        + exists [Requested (tags_request 5);
                  Printed (retry_line max_retries delay i)],
            (inl refused), 1%nat, 0%nat.
          rewrite <- app_assoc. repeat split; try lia; discriminate.
        + set (h' := ((h ++ [Requested (tags_request 5)])
                        ++ [Printed (retry_line max_retries delay i)])
                       ++ [Slept delay]).
          assert (Hsent : sent h' = S (sent h)).
          { unfold h'. now rewrite sent_slept, sent_printed, sent_requested. }
          destruct (IH (i + 1) h' ltac:(lia))
            as (new & outcome & n & m & E & R & Hn & Hn0 & Z0 & Hm & Hok).
          specialize (Hn0 ltac:(lia)).
          exists ([Requested (tags_request 5);
                   Printed (retry_line max_retries delay i); Slept delay]
                    ++ new), outcome, (S n), (S m).
          split; [rewrite E; unfold h'; now rewrite <- !app_assoc|].
          split; [rewrite requests_of_app, R; reflexivity|].
          split; [lia|]. split; [lia|].
          split; [rewrite sleeps_of_app, Z0; reflexivity|].
          split; [lia|].
          intros Ho. destruct (Hok Ho) as (_ & response & Ha & Hs).
          split; [lia|]. exists response. split; [|exact Hs].
          rewrite Hsent in Ha.
          now replace (sent h + pred (S n))%nat
            with (S (sent h) + pred n)%nat by lia.
      - set (h' := h ++ [Requested (tags_request 5)]).
        assert (Hsent : sent h' = S (sent h)) by apply sent_requested.
        destruct (IH (i + 1) h' ltac:(lia))
          as (new & outcome & n & m & E & R & Hn & Hn0 & Z0 & Hm & Hok).
        exists ([Requested (tags_request 5)] ++ new), outcome, (S n), m.
        split; [rewrite E; unfold h'; now rewrite <- !app_assoc|].
        split; [rewrite requests_of_app, R; reflexivity|].
        split; [lia|]. split; [lia|].
        split; [rewrite sleeps_of_app, Z0; reflexivity|].
        split; [lia|].
        intros Ho. destruct (Hok Ho) as (Hn1 & response & Ha & Hs).
        split; [lia|]. exists response. split; [|exact Hs].
        rewrite Hsent in Ha.
        now replace (sent h + pred (S n))%nat
          with (S (sent h) + pred n)%nat by lia. }
    rewrite attempts_turn.
    destruct (answers net (sent h) (tags_request 5)) as [e|response] eqn:Ha.
    + destruct (is_RequestException e); [exact Hpause|apply Hstop].
    + destruct (status_code response =? 200) eqn:Hs; [|exact Hpause].
      exists [Requested (tags_request 5); Printed ready_line_of_wait],
        (inr true), 1%nat, 0%nat.
      rewrite <- app_assoc. repeat split; try lia.
      exists response. cbn [pred]. rewrite Nat.add_0_r.
      split; [exact Ha|now apply Z.eqb_eq].
Qed.

Transparent attempts.

Definition waiting_line : text :=
  lit "Waiting for Ollama service to be ready...".

Lemma wait_for_ollama_attempts (rt : runtime) (net : network)
    (max_retries delay : Z) (h : history) :
  wait_for_ollama rt net max_retries delay h
  = attempts rt net max_retries delay 0 (Z.to_nat max_retries)
      (h ++ [Printed waiting_line]).
Proof. reflexivity. Qed.

(** Whatever the provider answers. *)
Lemma wait_for_ollama_run (rt : runtime) (net : network)
    (max_retries delay : Z) (h : history) :
  exists new outcome n m,
    wait_for_ollama rt net max_retries delay h = (h ++ new, outcome)
    /\ requests_of new = repeat (tags_request 5) n
    /\ (n <= Z.to_nat max_retries)%nat
    /\ sleeps_of new = repeat delay m
    /\ (m <= pred n)%nat
    /\ (outcome = inr true ->
        n <> 0%nat
        /\ exists response,
             answers net (sent h + pred n) (tags_request 5) = inr response
             /\ status_code response = 200).
Proof.
  rewrite wait_for_ollama_attempts.
  destruct (attempts_sound rt net max_retries delay (Z.to_nat max_retries) 0
              (h ++ [Printed waiting_line]) ltac:(lia))
    as (new & outcome & n & m & E & R & Hn & _ & Z0 & Hm & Hok).
  exists (Printed waiting_line :: new), outcome, n, m.
  split; [rewrite E; now rewrite <- app_assoc|].
  split; [exact R|]. split; [exact Hn|]. split; [exact Z0|].
  split; [exact Hm|]. rewrite sent_printed in Hok. exact Hok.
Qed.


(** The renderings used in the examples. *)
Definition renderings : runtime :=
  scripted unreachable unreachable unreachable unreachable.

(** A platform that sleeps any length that is not negative. *)
Definition sleeps_well : history -> Z -> option exn := fun _ _ => None.






(** A platform that cannot sleep as long as it is asked to: the wait ends
    with the exception of [time.sleep], after one probe and the line that
    announces the retry. *)
Lemma long_sleep_ends_the_wait :
  let net :=
    mk_network (fun _ _ => unreachable)
               (fun _ _ => inl (RequestException (lit "connection refused")))
               (fun _ seconds =>
                  if 9223372036 <? seconds
                  then Some (OtherException (lit "OverflowError"))
                  else None) in
  wait_for_ollama renderings net 30 (10 ^ 20) []
  = ([Printed waiting_line; Requested (tags_request 5);
      Printed (retry_line 30 (10 ^ 20) 0)],
     inl (OtherException (lit "OverflowError"))).
Proof. vm_compute. reflexivity. Qed.

(** Whatever the provider answers and whatever the parameters, the wait
    sends nothing but probes, at most [max_retries] of them; it sleeps
    [delay] seconds each time, and fewer times than it probes; and it
    returns [True] only when its last probe was answered with 200. *)
Theorem wait_for_ollama_sound (rt : runtime) (net : network)
    (max_retries delay : Z) (h : history) :
  exists new outcome,
    wait_for_ollama rt net max_retries delay h = (h ++ new, outcome)
    /\ Forall (eq (tags_request 5)) (requests_of new)
    /\ Z.of_nat (length (requests_of new)) <= Z.max 0 max_retries
    /\ Forall (eq delay) (sleeps_of new)
    /\ (length (sleeps_of new) <= pred (length (requests_of new)))%nat
    /\ (outcome = inr true ->
        exists response,
          nth_error (requests_of new) (pred (length (requests_of new)))
          = Some (tags_request 5)
          /\ answers net (sent h + pred (length (requests_of new)))
                     (tags_request 5) = inr response
          /\ status_code response = 200).
Proof.
  destruct (wait_for_ollama_run rt net max_retries delay h)
    as (new & outcome & n & m & E & R & Hn & Z0 & Hm & Hok).
  exists new, outcome. rewrite R, Z0, !repeat_length.
  split; [exact E|].
  split; [apply Forall_forall; intros x Hx; symmetry;
          exact (repeat_spec _ _ _ Hx)|].
  split; [lia|].
  split; [apply Forall_forall; intros x Hx; symmetry;
          exact (repeat_spec _ _ _ Hx)|].
  split; [exact Hm|].
  intros Ho. destruct (Hok Ho) as (Hn0 & response & Ha & Hs).
  exists response. split; [|split; assumption].
  destruct n as [|n]; [contradiction|]. cbn [pred].
  clear. induction n as [|n IH]; [reflexivity|exact IH].
Qed.

(** ** Looking after the model *)

(** The listing does not name the model in this entry: the entry is an
    object whose [name], or the empty string in its place, does not
    contain the name of the model. *)
Definition unrelated (model_name : text) (model : json) : Prop :=
  exists members,
    model = JObject members
    /\ contains model_name
         (match dict_get (lit "name") members with
          | Some name => name
          | None => JString []
          end) = inr false.

Lemma any_named_unrelated (model_name : text) (before rest : list json) :
  Forall (unrelated model_name) before ->
  any_named model_name (before ++ rest) = any_named model_name rest.
Proof.
  induction 1 as [|model before (members & -> & H) _ IH]; [reflexivity|].
  cbn [app any_named get_default]. now rewrite H.
Qed.

Lemma py_in_middle (k a b : text) : py_in k (a ++ k ++ b) = true.
Proof.
  apply py_in_app_r, py_in_startswith.
  induction k as [|c k IH]; [reflexivity|].
  cbn [app startswith]. now rewrite N.eqb_refl.
Qed.

Lemma model_exists_run (rt : runtime) (net : network) (model_name : text)
    (h : history) :
  exists outcome,
    model_exists rt net model_name h
    = (h ++ [Requested (tags_request 10)], outcome).
Proof.
  unfold model_exists. rewrite and_then_request.
  destruct (answers net (sent h) (tags_request 10)) as [e|response];
    [eexists; reflexivity|].
  destruct (status_code response =? 200); [|eexists; reflexivity].
  rewrite and_then_result.
  destruct (json_decode (decoder rt) (response_text response))
    as [listing| |x]; [|eexists; reflexivity..].
  rewrite and_then_result.
  destruct (get_default listing (lit "models") (JArray [])) as [e|models];
    [eexists; reflexivity|].
  rewrite and_then_result.
  destruct (py_iter models) as [e|items]; eexists; reflexivity.
Qed.

(** The provider lists the model. *)
Lemma model_exists_listed (rt : runtime) (net : network) (model_name : text)
    (h : history) (reply : text) (listing : dict) (before after : list json)
    (members : dict) (prefix suffix : text) :
  answers net (sent h) (tags_request 10) = inr (mk_response 200 reply) ->
  json_loads (decoder rt) reply = Some (JObject listing) ->
  dict_get (lit "models") listing
  = Some (JArray (before ++ JObject members :: after)) ->
  Forall (unrelated model_name) before ->
  dict_get (lit "name") members
  = Some (JString (prefix ++ model_name ++ suffix)) ->
  model_exists rt net model_name h
  = (h ++ [Requested (tags_request 10)], inr true).
Proof.
  intros Ha Hl Hm Hb Hn. unfold model_exists.
  apply DecoderFacts.json_loads_value in Hl.
  rewrite and_then_request, Ha. cbn [status_code response_text Z.eqb Pos.eqb].
  rewrite Hl, and_then_result, and_then_result. cbn [get_default].
  rewrite Hm, and_then_result. cbn [py_iter].
  unfold result. rewrite (any_named_unrelated _ _ _ Hb).
  cbn [any_named get_default]. rewrite Hn. cbn [contains].
  now rewrite py_in_middle.
Qed.

(** The provider does not list the model: it answers the listing with a
    status other than 200, or with a listing none of whose entries names
    the model. *)
Definition not_listed (rt : runtime) (net : network) (model_name : text)
    (h : history) : Prop :=
  exists response,
    answers net (sent h) (tags_request 10) = inr response
    /\ (status_code response <> 200
        \/ exists listing items,
             json_loads (decoder rt) (response_text response)
             = Some (JObject listing)
             /\ match dict_get (lit "models") listing with
                | Some models => models
                | None => JArray []
                end = JArray items
             /\ Forall (unrelated model_name) items).

Lemma model_exists_not_listed (rt : runtime) (net : network)
    (model_name : text) (h : history) :
  not_listed rt net model_name h ->
  model_exists rt net model_name h
  = (h ++ [Requested (tags_request 10)], inr false).
Proof.
  intros (response & Ha & H). unfold model_exists.
  rewrite and_then_request, Ha.
  destruct H as [H|(listing & items & Hl & Hm & Hi)].
  - apply Z.eqb_neq in H. now rewrite H.
  - destruct (status_code response =? 200); [|reflexivity].
    apply DecoderFacts.json_loads_value in Hl.
    rewrite Hl, and_then_result, and_then_result. cbn [get_default].
    rewrite Hm, and_then_result. cbn [py_iter]. unfold result.
    rewrite <- (app_nil_r items), (any_named_unrelated _ _ _ Hi).
    reflexivity.
Qed.

(** A computation that only prints. *)
Definition prints_only {A} (m : Boot A) : Prop :=
  forall h, exists new outcome,
    m h = (h ++ new, outcome)
    /\ requests_of new = [] /\ sleeps_of new = [].

Lemma prints_only_result {A} (r : exn + A) : prints_only (result r).
Proof.
  intros h. exists [], r. unfold result. now rewrite app_nil_r.
Qed.

Lemma prints_only_value {A} (a : A) : prints_only (value a).
Proof. apply (prints_only_result (inr a)). Qed.

Lemma prints_only_say (rt : runtime) (l : text) : prints_only (say rt l).
Proof.
  intros h. unfold say. destruct (printable (stdout_errors rt) l).
  - exists [Printed l], (inr tt). repeat split.
  - exists [], (inl (UnicodeEncodeError l)). now rewrite app_nil_r.
Qed.

Lemma prints_only_and_then {A B} (m : Boot A) (k : A -> Boot B) :
  prints_only m -> (forall a, prints_only (k a)) ->
  prints_only (and_then m k).
Proof.
  intros Hm Hk h. unfold and_then.
  destruct (Hm h) as (new & outcome & E & R & Z0). rewrite E.
  destruct outcome as [e|a].
  - exists new, (inl e). repeat split; assumption.
  - destruct (Hk a (h ++ new)) as (new' & outcome' & E' & R' & Z0').
    exists (new ++ new'), outcome'. rewrite E', <- app_assoc.
    rewrite requests_of_app, sleeps_of_app, R, R', Z0, Z0'. repeat split.
Qed.

Lemma report_prints_only (rt : runtime) (l : line) : prints_only (report rt l).
Proof.
  destruct l as [|decoded]; [apply prints_only_value|]. cbn [report].
  repeat first
    [ apply prints_only_and_then; [|intros ?]
    | apply prints_only_result
    | apply prints_only_value
    | apply prints_only_say
    | match goal with |- prints_only (if ?b then _ else _) => destruct b end ].
Qed.

Lemma report_all_prints_only (rt : runtime) (ls : list line) :
  prints_only (report_all rt ls).
Proof.
  induction ls as [|l ls IH]; [apply prints_only_value|].
  cbn [report_all]. apply prints_only_and_then;
    [apply report_prints_only|intros _; exact IH].
Qed.

(** What the report prints for a line that holds the object [members]:
    the status and the progress, the status alone if it is true, or
    nothing. *)
Definition reported (rt : runtime) (members : dict) : option text :=
  let status :=
    match dict_get (lit "status") members with
    | Some status => status
    | None => JString []
    end in
  match dict_get (lit "progress") members with
  | Some progress =>
      Some (lit "  " ++ format rt status ++ lit ": " ++ format rt progress)
  | None =>
      if truthy status then Some (lit "  " ++ format rt status) else None
  end.

(** A line the report goes through: no bytes, or the text of a JSON
    object that the decoder returns and whose report, if it has one,
    standard output takes. *)
Definition reportable (rt : runtime) (l : line) : Prop :=
  l = Empty
  \/ exists t members,
       l = Bytes (Some t)
       /\ json_loads (decoder rt) t = Some (JObject members)
       /\ match reported rt members with
          | Some said => printable (stdout_errors rt) said = true
          | None => True
          end.

Lemma report_reportable (rt : runtime) (l : line) (h : history) :
  reportable rt l ->
  exists new, report rt l h = (h ++ new, inr tt)
              /\ requests_of new = [] /\ sleeps_of new = [].
Proof.
  intros [->|(t & members & -> & Ht & P)].
  - exists []. cbn. now rewrite app_nil_r.
  - cbn [report loads_bytes]. rewrite (loads_value _ _ _ Ht).
    rewrite !and_then_result.
    cbn [get_default contains getitem]. rewrite !and_then_result.
    unfold reported in P.
    destruct (dict_get (lit "progress") members) as [progress|].
    + rewrite and_then_result. rewrite (say_line rt _ _ P).
      eexists. repeat split.
    + destruct (truthy _).
      * rewrite (say_line rt _ _ P). eexists. repeat split.
      * exists []. unfold value. now rewrite app_nil_r.
Qed.

Lemma report_all_reportable (rt : runtime) (ls : list line) :
  Forall (reportable rt) ls ->
  forall h, exists new,
    report_all rt ls h = (h ++ new, inr tt)
    /\ requests_of new = [] /\ sleeps_of new = [].
Proof.
  induction 1 as [|l ls Hl _ IH]; intros h.
  - exists []. cbn. unfold value. now rewrite app_nil_r.
  - cbn [report_all]. unfold and_then.
    destruct (report_reportable rt l h Hl) as (new & E & R & Z0). rewrite E.
    destruct (IH (h ++ new)) as (new' & E' & R' & Z0').
    exists (new ++ new'). rewrite E', <- app_assoc.
    rewrite requests_of_app, sleeps_of_app, R, R', Z0, Z0'. repeat split.
Qed.

(** The lines that name the model are written when its name is. *)
Section Named.

Variable rt : runtime.
Variable model_name : text.
Hypothesis named : printable (stdout_errors rt) model_name = true.

Lemma checking_line_printable :
  printable (stdout_errors rt) (checking_line model_name) = true.
Proof. unfold checking_line. legible. Qed.

Lemma available_line_printable :
  printable (stdout_errors rt) (available_line model_name) = true.
Proof. unfold available_line. legible. Qed.

Lemma pulling_line_printable :
  printable (stdout_errors rt) (pulling_line model_name) = true.
Proof. unfold pulling_line. legible. Qed.

Lemma ready_line_printable :
  printable (stdout_errors rt) (ready_line model_name) = true.
Proof. unfold ready_line. legible. Qed.

End Named.

Lemma error_line_printable (rt : runtime) (e : exn) :
  printable (stdout_errors rt) (error_line rt e) = true.
Proof. unfold error_line. legible. Qed.

(** Whatever the provider answers to the pull. *)
Lemma pull_model_run (rt : runtime) (net : network) (model_name : text)
    (h : history) :
  printable (stdout_errors rt) model_name = true ->
  exists new outcome,
    pull_model rt net model_name h = (h ++ new, outcome)
    /\ requests_of new = [pull_request model_name]
    /\ sleeps_of new = []
    /\ (forall b, outcome = inr b ->
          b = true
          /\ exists before, new = before ++ [Printed (ready_line model_name)]).
Proof.
  intros Pm. unfold pull_model.
  rewrite and_then_say by now apply pulling_line_printable.
  rewrite and_then_request_stream.
  rewrite sent_printed.
  destruct (streams net (sent h) (pull_request model_name))
    as [e|pull_response].
  { exists [Printed (pulling_line model_name);
            Requested (pull_request model_name)], (inl e).
    rewrite <- app_assoc. repeat split; discriminate. }
  unfold and_then at 1.
  destruct (report_all_prints_only rt (streamed_lines pull_response)
              ((h ++ [Printed (pulling_line model_name)])
                 ++ [Requested (pull_request model_name)]))
    as (new & outcome & E & R & Z0).
  rewrite E. destruct outcome as [e|[]].
  { exists ([Printed (pulling_line model_name);
             Requested (pull_request model_name)] ++ new), (inl e).
    rewrite <- !app_assoc. rewrite requests_of_app, sleeps_of_app, R, Z0.
    repeat split; discriminate. }
  destruct (streamed_failure pull_response) as [e|].
  { exists ([Printed (pulling_line model_name);
             Requested (pull_request model_name)] ++ new), (inl e).
    unfold and_then, failure. rewrite <- !app_assoc.
    rewrite requests_of_app, sleeps_of_app, R, Z0.
    repeat split; discriminate. }
  exists ([Printed (pulling_line model_name);
           Requested (pull_request model_name)] ++ new
            ++ [Printed (ready_line model_name)]), (inr true).
  cbv beta iota. rewrite and_then_value.
  rewrite and_then_say by now apply ready_line_printable.
  unfold value. rewrite <- !app_assoc.
  rewrite !requests_of_app, !sleeps_of_app, R, Z0.
  split; [reflexivity|]. split; [reflexivity|]. split; [reflexivity|].
  intros b [= <-]. split; [reflexivity|].
  exists ([Printed (pulling_line model_name);
           Requested (pull_request model_name)] ++ new).
  now rewrite <- !app_assoc.
Qed.

Lemma ensure_model_pulled_guarded (rt : runtime) (net : network)
    (model_name : text) (h : history) :
  printable (stdout_errors rt) model_name = true ->
  ensure_model_pulled rt net model_name h
  = match model_exists rt net model_name
            (h ++ [Printed (checking_line model_name)])
    with
    | (h1, inr true) =>
        (h1 ++ [Printed (available_line model_name)], inr true)
    | (h1, inr false) =>
        match pull_model rt net model_name h1 with
        | (h2, inl e) => (h2 ++ [Printed (error_line rt e)], inr false)
        | answered => answered
        end
    | (h1, inl e) => (h1 ++ [Printed (error_line rt e)], inr false)
    end.
Proof.
  intros Pm. unfold ensure_model_pulled.
  rewrite and_then_say by now apply checking_line_printable.
  unfold guarded, and_then at 1.
  destruct (model_exists rt net model_name
              (h ++ [Printed (checking_line model_name)]))
    as [h1 [e|[|]]].
  - now rewrite and_then_say by apply error_line_printable.
  - now rewrite and_then_say by now apply available_line_printable.
  - destruct (pull_model rt net model_name h1) as [h2 [e|b]];
      [|reflexivity].
    now rewrite and_then_say by apply error_line_printable.
Qed.

(** The name of the model is printed before the [try]: a name that
    standard output does not take makes [ensure_model_pulled] raise, and
    nothing is requested. *)
Lemma unprintable_model_name_raises (rt : runtime) (net : network)
    (model_name : text) (h : history) :
  printable (stdout_errors rt) model_name = false ->
  ensure_model_pulled rt net model_name h
  = (h, inl (UnicodeEncodeError (checking_line model_name))).
Proof.
  intros Pm. unfold ensure_model_pulled.
  apply and_then_say_refused. unfold checking_line.
  rewrite !printable_app, Pm. apply andb_false_r.
Qed.

(** When the listing of the provider, answered with 200, has an entry
    whose name contains the name of the model, the entries before it
    naming other models, the model counts as available: [True] is
    returned after the one request of the listing, and nothing is
    pulled.  The name need not be equal: it is searched as a substring.
    The name of the model is one that standard output takes. *)
Theorem listed_model_is_not_pulled (rt : runtime) (net : network)
    (model_name : text) (h : history) (reply : text) (listing : dict)
    (before after : list json) (members : dict) (prefix suffix : text) :
  printable (stdout_errors rt) model_name = true ->
  answers net (sent h) (tags_request 10) = inr (mk_response 200 reply) ->
  json_loads (decoder rt) reply = Some (JObject listing) ->
  dict_get (lit "models") listing
  = Some (JArray (before ++ JObject members :: after)) ->
  Forall (unrelated model_name) before ->
  dict_get (lit "name") members
  = Some (JString (prefix ++ model_name ++ suffix)) ->
  ensure_model_pulled rt net model_name h
  = (h ++ [Printed (checking_line model_name);
           Requested (tags_request 10);
           Printed (available_line model_name)],
     inr true).
Proof.
  intros Pm Ha Hl Hm Hb Hn. rewrite ensure_model_pulled_guarded by exact Pm.
  rewrite (model_exists_listed rt net model_name _ reply listing before after
             members prefix suffix);
    try assumption; [|now rewrite sent_printed].
  now rewrite <- !app_assoc.
Qed.

(** A provider that lists one model, [llama3.2-vision:latest]. *)
Definition vision_listing : text :=
  lit "{" ++ quoted (lit "models") ++ lit ": ["
    ++ object1 (lit "name") (lit "llama3.2-vision:latest") ++ lit "]}".

Definition vision_provider : network :=
  mk_network (fun _ _ => ok vision_listing)
             (fun _ _ => inl (RequestException (lit "connection refused")))
             sleeps_well.

Lemma listed_model_is_not_pulled_witness :
  ensure_model_pulled renderings vision_provider (lit "llama3.2") []
  = ([] ++ [Printed (checking_line (lit "llama3.2"));
            Requested (tags_request 10);
            Printed (available_line (lit "llama3.2"))],
     inr true).
Proof.
  apply (listed_model_is_not_pulled renderings vision_provider
           (lit "llama3.2") [] vision_listing
           [ (lit "models",
              JArray [ JObject [ (lit "name",
                                  JString (lit "llama3.2-vision:latest")) ] ]) ]
           [] [] [ (lit "name", JString (lit "llama3.2-vision:latest")) ]
           [] (lit "-vision:latest")).
  - reflexivity.
  - reflexivity.
  - vm_compute. reflexivity.
  - reflexivity.
  - constructor.
  - reflexivity.
Defined.

(** When the provider does not list the model, the model is pulled, and
    when the pull is answered, whatever the status of the answer, with
    lines that are empty or JSON objects whose report standard output
    takes, and a body that ends well, [True] is returned and the last
    line says that the model is ready. *)
Theorem unlisted_model_is_pulled (rt : runtime) (net : network)
    (model_name : text) (h : history) (pull_response : streamed) :
  printable (stdout_errors rt) model_name = true ->
  not_listed rt net model_name h ->
  streams net (S (sent h)) (pull_request model_name) = inr pull_response ->
  Forall (reportable rt) (streamed_lines pull_response) ->
  streamed_failure pull_response = None ->
  exists progress,
    ensure_model_pulled rt net model_name h
    = (h ++ [Printed (checking_line model_name);
             Requested (tags_request 10);
             Printed (pulling_line model_name);
             Requested (pull_request model_name)]
         ++ progress ++ [Printed (ready_line model_name)],
       inr true)
    /\ requests_of progress = []
    /\ sleeps_of progress = [].
Proof.
  intros Pm Hn Hs Hlines Hend.
  rewrite ensure_model_pulled_guarded by exact Pm.
  rewrite model_exists_not_listed
    by (destruct Hn as (response & Ha & H); exists response;
        rewrite sent_printed; now split).
  unfold pull_model.
  rewrite and_then_say by now apply pulling_line_printable.
  rewrite and_then_request_stream.
  rewrite sent_printed, sent_requested, sent_printed, Hs.
  unfold and_then at 1.
  destruct (report_all_reportable rt _ Hlines
              ((((h ++ [Printed (checking_line model_name)])
                   ++ [Requested (tags_request 10)])
                  ++ [Printed (pulling_line model_name)])
                 ++ [Requested (pull_request model_name)]))
    as (progress & E & R & Z0).
  rewrite E, Hend. exists progress. split; [|split; assumption].
  cbv beta iota. rewrite and_then_value.
  rewrite and_then_say by now apply ready_line_printable.
  unfold value. now rewrite <- !app_assoc.
Qed.

(** A provider whose listing fails with 503 and which refuses the pull
    with 500 and one line of JSON. *)
Definition refusing_provider : network :=
  mk_network
    (fun _ _ => inr (mk_response 503 (lit "Service Unavailable")))
    (fun _ _ =>
       inr (mk_streamed 500
              [ Bytes (Some (object1 (lit "error")
                                     (lit "pull model manifest: not found"))) ]
              None))
    sleeps_well.

Lemma unlisted_model_is_pulled_witness :
  exists progress,
    ensure_model_pulled renderings refusing_provider (lit "llama3.2") []
    = ([] ++ [Printed (checking_line (lit "llama3.2"));
              Requested (tags_request 10);
              Printed (pulling_line (lit "llama3.2"));
              Requested (pull_request (lit "llama3.2"))]
          ++ progress ++ [Printed (ready_line (lit "llama3.2"))],
       inr true)
    /\ requests_of progress = []
    /\ sleeps_of progress = [].
Proof.
  apply (unlisted_model_is_pulled renderings refusing_provider
           (lit "llama3.2") []
           (mk_streamed 500
              [ Bytes (Some (object1 (lit "error")
                                     (lit "pull model manifest: not found"))) ]
              None)).
  - reflexivity.
  - exists (mk_response 503 (lit "Service Unavailable")).
    split; [reflexivity|]. left. cbn. lia.
  - reflexivity.
  - constructor; [|constructor]. right.
    exists (object1 (lit "error") (lit "pull model manifest: not found")),
      [ (lit "error", JString (lit "pull model manifest: not found")) ].
    split; [reflexivity|]. split; [vm_compute; reflexivity|exact I].
  - reflexivity.
Defined.

(** A line of the pull whose status standard output does not take: the
    report raises, the clause of [ensure_model_pulled] answers, and
    [False] is returned. *)
Lemma unprintable_status_ends_the_pull :
  let net :=
    mk_network
      (fun _ _ => inr (mk_response 503 (lit "Service Unavailable")))
      (fun _ _ =>
         inr (mk_streamed 200
                [ Bytes (Some (object1 (lit "status") (lit "\ud83d"))) ]
                None))
      sleeps_well in
  json_loads default_limits (object1 (lit "status") (lit "\ud83d"))
  = Some (JObject [(lit "status", JString [55357%N])])
  /\ snd (ensure_model_pulled renderings net (lit "llama3.2") [])
     = inr false.
Proof. split; vm_compute; reflexivity. Qed.

(** Whatever the provider answers. *)
Lemma ensure_model_pulled_run (rt : runtime) (net : network)
    (model_name : text) (h : history) :
  printable (stdout_errors rt) model_name = true ->
  exists before last b,
    ensure_model_pulled rt net model_name h
    = (h ++ before ++ [Printed last], inr b)
    /\ (requests_of before = [tags_request 10]
        \/ requests_of before
           = [tags_request 10; pull_request model_name])
    /\ sleeps_of before = []
    /\ (if b then last = available_line model_name
                  \/ last = ready_line model_name
        else exists e, last = error_line rt e).
Proof.
  intros Pm. rewrite ensure_model_pulled_guarded by exact Pm.
  destruct (model_exists_run rt net model_name
              (h ++ [Printed (checking_line model_name)])) as (outcome & E).
  rewrite E. destruct outcome as [e|[|]].
  - exists [Printed (checking_line model_name); Requested (tags_request 10)],
      (error_line rt e), false.
    rewrite <- !app_assoc. split; [reflexivity|].
    split; [now left|]. split; [reflexivity|]. now exists e.
  - exists [Printed (checking_line model_name); Requested (tags_request 10)],
      (available_line model_name), true.
    rewrite <- !app_assoc. split; [reflexivity|].
    split; [now left|]. split; [reflexivity|]. now left.
  - destruct (pull_model_run rt net model_name
                ((h ++ [Printed (checking_line model_name)])
                   ++ [Requested (tags_request 10)]) Pm)
      as (new & outcome & E' & R & Z0 & Hok).
    rewrite E'. destruct outcome as [e|b].
    + exists ([Printed (checking_line model_name);
               Requested (tags_request 10)] ++ new),
        (error_line rt e), false.
      rewrite <- !app_assoc. split; [reflexivity|].
      rewrite requests_of_app, sleeps_of_app, R, Z0.
      split; [now right|]. split; [reflexivity|]. now exists e.
    + destruct (Hok b eq_refl) as (-> & before & ->).
      exists ([Printed (checking_line model_name);
               Requested (tags_request 10)] ++ before),
        (ready_line model_name), true.
      rewrite <- !app_assoc. split; [reflexivity|].
      rewrite requests_of_app, sleeps_of_app in *.
      cbn [requests_of sleeps_of flat_map List.app] in R, Z0.
      rewrite app_nil_r in R, Z0.
      rewrite R, Z0. split; [now right|]. split; [reflexivity|]. now right.
Qed.

(** Whatever the provider answers, [ensure_model_pulled], called with a
    name that standard output takes, raises nothing and returns [True] or
    [False].  It sends the listing request, then at most the pull, and
    never sleeps.  Its last line tells the result: that the model is
    available or ready when it returns [True], the error when it returns
    [False]. *)
Theorem ensure_model_pulled_settles (rt : runtime) (net : network)
    (model_name : text) (h : history) :
  printable (stdout_errors rt) model_name = true ->
  exists new b,
    ensure_model_pulled rt net model_name h = (h ++ new, inr b)
    /\ (requests_of new = [tags_request 10]
        \/ requests_of new = [tags_request 10; pull_request model_name])
    /\ sleeps_of new = []
    /\ exists before last,
         new = before ++ [Printed last]
         /\ (b = true ->
             last = available_line model_name
             \/ last = ready_line model_name)
         /\ (b = false -> exists e, last = error_line rt e).
Proof.
  intros Pm.
  destruct (ensure_model_pulled_run rt net model_name h Pm)
    as (before & last & b & E & R & Z0 & Hlast).
  exists (before ++ [Printed last]), b.
  rewrite requests_of_app, sleeps_of_app, Z0.
  cbn [requests_of sleeps_of flat_map List.app].
  rewrite app_nil_r.
  split; [exact E|]. split; [exact R|]. split; [reflexivity|].
  exists before, last. split; [reflexivity|].
  destruct b; split; intros Hb; try discriminate Hb; exact Hlast.
Qed.

Lemma ensure_model_pulled_settles_witness :
  exists new b,
    ensure_model_pulled renderings refusing_provider (lit "llama3.2") []
    = ([] ++ new, inr b)
    /\ (requests_of new = [tags_request 10]
        \/ requests_of new
           = [tags_request 10; pull_request (lit "llama3.2")])
    /\ sleeps_of new = []
    /\ exists before last,
         new = before ++ [Printed last]
         /\ (b = true ->
             last = available_line (lit "llama3.2")
             \/ last = ready_line (lit "llama3.2"))
         /\ (b = false -> exists e, last = error_line renderings e).
Proof.
  apply (ensure_model_pulled_settles renderings refusing_provider
           (lit "llama3.2") []).
  reflexivity.
Defined.

(** ** The two together *)

(** Whatever the provider answers, start-up sends at most thirty probes,
    sleeping two seconds at most twenty-nine times, then at most the
    listing request and the pull of [llama3.2]; and it sends the listing
    request or the pull only after a probe was answered with 200. *)
Theorem provider_is_prepared_when_ready (rt : runtime) (net : network)
    (h : history) :
  exists new outcome probes sleeps care,
    prepare_provider rt net h = (h ++ new, outcome)
    /\ requests_of new = repeat (tags_request 5) probes ++ care
    /\ (probes <= 30)%nat
    /\ sleeps_of new = repeat 2 sleeps
    /\ (sleeps <= pred probes)%nat
    /\ (care = []
        \/ (care = [tags_request 10]
            \/ care = [tags_request 10; pull_request (lit "llama3.2")])
           /\ outcome = inr tt
           /\ probes <> 0%nat
           /\ exists response,
                answers net (sent h + pred probes) (tags_request 5)
                = inr response
                /\ status_code response = 200).
Proof.
  unfold prepare_provider, and_then at 1.
  destruct (wait_for_ollama_run rt net 30 2 h)
    as (new & outcome & n & m & E & R & Hn & Z0 & Hm & Hok).
  rewrite E. change (Z.to_nat 30) with 30%nat in Hn.
  destruct outcome as [e|[|]].
  - exists new, (inl e), n, m, []. rewrite app_nil_r.
    repeat split; try assumption. now left.
  - unfold and_then.
    destruct (ensure_model_pulled_run rt net (lit "llama3.2") (h ++ new)
                eq_refl)
      as (before & last & b & E' & R' & Z0' & _).
    rewrite E'.
    exists (new ++ before ++ [Printed last]), (inr tt), n, m,
      (requests_of before).
    rewrite <- app_assoc. split; [reflexivity|].
    rewrite !requests_of_app, !sleeps_of_app, R, Z0, Z0'.
    cbn [requests_of sleeps_of flat_map List.app]. rewrite !app_nil_r.
    split; [reflexivity|]. split; [exact Hn|]. split; [reflexivity|].
    split; [exact Hm|]. right.
    destruct (Hok eq_refl) as (Hn0 & response & Ha & Hs).
    split; [exact R'|]. split; [reflexivity|]. split; [exact Hn0|].
    now exists response.
  - exists new, (inr tt), n, m, []. rewrite app_nil_r.
    repeat split; try assumption. now left.
Qed.

End Startup.

(* ================================================================== *)
(** * The two stores, and the bot in front of them *)

Module Stores.

Import Extraction Handler Requests.
Local Open Scope Z_scope.

Definition slash : N := 47%N.

(** [os.path.join(a, b)] of [posixpath]. *)
Definition os_path_join (a b : text) : text :=
  if startswith [slash] b then b
  else
    match rev a with
    | [] => b
    | c :: _ => if (c =? slash)%N then a ++ b else a ++ slash :: b
    end.

(** What the store finds at a path: nothing ([os.path.exists] is false);
    something that [open] or the reading refuses to give, raising [e]; or
    a file and its text. *)
Inductive file :=
| Missing
| Unreadable (e : exn)
| Holds (content : text).

Definition files := text -> file.

(** [jsonify({'error': message}), code] *)
Definition error_object (message : text) (code : Z) : flask_response :=
  mk_flask_response (JObject [ (lit "error", JString message) ]) code.

(** The two [except] clauses of a store, lines 34 to 37: [noun] is
    [schema] or [values]. *)
Definition store_errors (rt : runtime) (noun : text) (e : exn)
  : flask_response :=
  if is_JSONDecodeError e then
    error_object
      (lit "Invalid JSON in " ++ noun ++ lit " file: " ++ exn_str rt e) 500
  else error_object (lit "Internal server error: " ++ exn_str rt e) 500.

(** [with open(filepath, 'r') as f: json.load(f)] *)
Definition json_load (lim : limits) (f : file) : exn + json :=
  match f with
  | Missing => inl (OtherException (lit "FileNotFoundError"))
  | Unreadable e => inl e
  | Holds content => loads lim content
  end.

(** [return jsonify(doc), 200] under the [except] clauses of a store: a
    document nested deeper than the encoder has room for makes [jsonify]
    raise, and the clause for the other exceptions answers. *)
Definition send_document (rt : runtime) (noun : text) (doc : json)
  : flask_response :=
  if (depth doc <=? S (encoder_depth rt))%nat
  then mk_flask_response doc 200
  else store_errors rt noun RecursionError.

(** [get_schema] of the schema store, lines 10 to 37. *)
Definition get_schema (rt : runtime) (fs : files) (SCHEMA_DIR app_name : text)
  : flask_response :=
  let filepath := os_path_join SCHEMA_DIR (app_name ++ lit ".schema.json") in
  match fs filepath with
  | Missing =>
      error_object (lit "Schema not found for application: " ++ app_name) 404
  | f =>
      match json_load (decoder rt) f with
      | inr schema => send_document rt (lit "schema") schema
      | inl e => store_errors rt (lit "schema") e
      end
  end.


(** The file a store reads for an application. *)
Definition schema_file (fs : files) (SCHEMA_DIR app_name : text) : file :=
  fs (os_path_join SCHEMA_DIR (app_name ++ lit ".schema.json")).


(** The file holds a JSON document: its text is one that [json.load]
    returns [doc] for. *)
Definition holds_document (rt : runtime) (f : file) (doc : json) : Prop :=
  exists content,
    f = Holds content /\ json_loads (decoder rt) content = Some doc.

(** The encoder of the store's answer has room for the document. *)
Definition can_be_sent (rt : runtime) (doc : json) : Prop :=
  (depth doc <= S (encoder_depth rt))%nat.

(** [host, port = listen.split(':')] of the three main blocks. *)
Definition colon : N := 58%N.

(** [s.split(sep)] for a separator of one character. *)
Fixpoint py_split (sep : N) (s : text) : list text :=
  match s with
  | [] => [[]]
  | c :: rest =>
      if (c =? sep)%N then [] :: py_split sep rest
      else
        match py_split sep rest with
        | first :: others => (c :: first) :: others
        | [] => [[c]]
        end
  end.

Definition listen_address (listen : text) : exn + text * text :=
  match py_split colon listen with
  | [host; port] => inr (host, port)
  | _ => inl (OtherException (lit "ValueError"))
  end.

(** ** What a store answers *)

(** ** What a store answers *)

Lemma store_errors_refusal (rt : runtime) (noun : text) (e : exn) :
  exists message, store_errors rt noun e = error_object message 500.
Proof.
  unfold store_errors. destruct (is_JSONDecodeError e); eexists; reflexivity.
Qed.

(** A file holds at most one document. *)
Lemma holds_one_document (rt : runtime) (f : file) (a b : json) :
  holds_document rt f a -> holds_document rt f b -> a = b.
Proof.
  intros (ca & Ea & Ha) (cb & Eb & Hb). congruence.
Qed.

(** The answer for the file [f], once it is known to exist. *)
Lemma found_cases (rt : runtime) (noun : text) (f : file) :
  f <> Missing ->
  let answer :=
    match json_load (decoder rt) f with
    | inr doc => send_document rt noun doc
    | inl e => store_errors rt noun e
    end in
  (exists doc,
      holds_document rt f doc /\ can_be_sent rt doc
      /\ answer = mk_flask_response doc 200)
  \/ ((forall doc, holds_document rt f doc -> ~ can_be_sent rt doc)
      /\ exists message, answer = error_object message 500).
Proof.
  intros Hf. cbv zeta. destruct f as [|e|content]; [contradiction| |].
  - right. split; [|apply store_errors_refusal].
    intros doc (content & H & _). discriminate H.
  - cbn [json_load]. unfold loads.
    destruct (json_decode (decoder rt) content) as [doc| |x] eqn:D.
    + apply DecoderFacts.json_loads_value in D.
      assert (H : holds_document rt (Holds content) doc)
        by now exists content.
      unfold send_document.
      destruct (depth doc <=? S (encoder_depth rt))%nat eqn:R.
      * left. exists doc. apply Nat.leb_le in R. now repeat split.
      * right. split; [|apply store_errors_refusal].
        intros doc' H' K. rewrite (holds_one_document rt _ _ _ H' H) in K.
        apply Nat.leb_gt in R. unfold can_be_sent in K. lia.
    + right. split; [|apply store_errors_refusal].
      intros doc (content' & [= <-] & H) _.
      apply DecoderFacts.json_loads_value in H. congruence.
    + right. split; [|apply store_errors_refusal].
      intros doc (content' & [= <-] & H) _.
      apply DecoderFacts.json_loads_value in H. congruence.
Qed.

(** The answer of a store, by what it finds. *)
Lemma get_schema_cases (rt : runtime) (fs : files) (dir app_name : text) :
  (schema_file fs dir app_name = Missing
   /\ get_schema rt fs dir app_name
      = error_object (lit "Schema not found for application: " ++ app_name)
                     404)
  \/ (exists doc,
        holds_document rt (schema_file fs dir app_name) doc
        /\ can_be_sent rt doc
        /\ get_schema rt fs dir app_name = mk_flask_response doc 200)
  \/ (schema_file fs dir app_name <> Missing
      /\ (forall doc, holds_document rt (schema_file fs dir app_name) doc ->
                      ~ can_be_sent rt doc)
      /\ exists message,
           get_schema rt fs dir app_name = error_object message 500).
Proof.
  unfold get_schema, schema_file.
  destruct (fs (os_path_join dir (app_name ++ lit ".schema.json")))
    as [|e|content] eqn:F.
  - left. now split.
  - right. destruct (found_cases rt (lit "schema") (Unreadable e))
      as [H|H]; [discriminate|now left|right].
    split; [discriminate|exact H].
  - right. destruct (found_cases rt (lit "schema") (Holds content))
      as [H|H]; [discriminate|now left|right].
    split; [discriminate|exact H].
Qed.





(** A schema file whose one integer has 4301 digits: the text is JSON,
    [json.load] raises a [ValueError] that is no decoding error, and the
    store answers 500 with the message of an internal error. *)
Lemma long_integer_file_is_refused :
  let fs : files := fun _ => Holds (brace_slice long_completion) in
  json_loads (no_limits (brace_slice long_completion))
             (brace_slice long_completion)
  = Some (JObject [(lit "a", JInt (10 ^ 4301 - 1))])
  /\ get_schema Startup.renderings fs (lit "/data/schemas") (lit "chat")
     = error_object (lit "Internal server error: error") 500.
Proof. split; vm_compute; reflexivity. Qed.

(** ** The bot in front of the stores *)

(** The store behind [base] refuses the bot's request for [app_name] with
    [answer]: a status other than 200, and a body, an object with the one
    member [error], sent as a JSON text that reads back as that body. *)
Definition refused_by (rt : runtime) (base app_name : text)
    (answer : flask_response) : Prop :=
  status answer <> 200
  /\ exists reply,
       http rt (store_request base app_name)
       = inr (mk_response (status answer) reply)
       /\ json_loads (decoder rt) reply = Some (body answer).

(** When the schema store is this program and refuses the request for
    the resolved application (there is no file, it cannot be read, its
    text is not a JSON document that can be loaded and sent), the bot
    answers 404, whether the store said 404 or 500, with the error object
    of the store under [details]; and the values store is not asked.
    The request is one that is taken up, and the encoder of the bot's
    answer has room for an object inside it. *)
Theorem schema_failure_is_answered_not_found (rt store_rt : runtime)
    (fs : files) (dir : text) (d : dict) (u : text) (w w1 : world)
    (app : text) :
  dict_get (lit "input") d = Some (JString u) ->
  printable (stdout_errors rt) u = true ->
  identify_application rt (JString u) (printed (processing rt (JString u)) w)
  = (w1, inr (Some app)) ->
  (0 < encoder_depth rt)%nat ->
  refused_by rt SCHEMA_SERVICE_URL app (get_schema store_rt fs dir app) ->
  exists message,
    handle_message rt (inr (JObject d)) w
    = (called (store_request SCHEMA_SERVICE_URL app)
         (printed (lit "Fetching schema for " ++ app ++ lit "...") w1),
       inr (not_found (lit "schema") app
              (JObject [ (lit "error", JString message) ])))
    /\ (schema_file fs dir app = Missing ->
        message = lit "Schema not found for application: " ++ app).
Proof.
  intros Hin P Hid Hroom (Hrefused & reply & Hhttp & Hreply).
  rewrite <- (processing_printable rt u) in P.
  destruct (handle_message_resolved rt d (JString u) w w1 app Hin P Hid)
    as [Pa ->].
  assert (Hanswer : exists message code,
             get_schema store_rt fs dir app = error_object message code
             /\ code <> 200
             /\ (schema_file fs dir app = Missing ->
                 message = lit "Schema not found for application: " ++ app)).
  { destruct (get_schema_cases store_rt fs dir app)
      as [(F & E)|[(doc & _ & _ & E)|(F & _ & message & E)]].
    - eexists. exists 404. split; [exact E|]. split; [lia|reflexivity].
    - rewrite E in Hrefused. now contradiction Hrefused.
    - exists message, 500. split; [exact E|]. split; [lia|].
      intros K. now contradiction F. }
  destruct Hanswer as (message & code & E & Hcode & Hmissing).
  rewrite E in Hhttp, Hreply. cbn [status body error_object] in Hhttp, Hreply.
  exists message. split; [|exact Hmissing].
  pose proof (fetch_schema_refused rt (JString u) app w1 code reply Pa Hhttp
                Hcode) as F.
  apply DecoderFacts.json_loads_value in Hreply.
  unfold store_refusal in F. rewrite Hreply in F.
  cbn [depth Nat.max] in F.
  replace (1 <=? encoder_depth rt)%nat with true in F
    by (symmetry; apply Nat.leb_le; lia).
  exact (try_except_returned _ _ _ _ _ F).
Qed.

(** An empty schema directory behind the bot. *)
Definition empty_store : files := fun _ => Missing.

Definition bot_at_empty_store : runtime :=
  scripted unreachable
    (inr (mk_response 404
            (object1 (lit "error")
                     (lit "Schema not found for application: chat"))))
    unreachable unreachable.

Lemma schema_failure_is_answered_not_found_witness :
  exists message,
    handle_message bot_at_empty_store (ask "set chat memory to 512")
                   empty_world
    = (called (store_request SCHEMA_SERVICE_URL (lit "chat"))
         (printed (lit "Fetching schema for " ++ lit "chat" ++ lit "...")
            (printed (lit "Identified application via keyword: chat")
               (printed (processing bot_at_empty_store
                           (JString (lit "set chat memory to 512")))
                        empty_world))),
       inr (not_found (lit "schema") (lit "chat")
              (JObject [ (lit "error", JString message) ])))
    /\ (schema_file empty_store (lit "/data/schemas") (lit "chat") = Missing ->
        message = lit "Schema not found for application: " ++ lit "chat").
Proof.
  apply (schema_failure_is_answered_not_found bot_at_empty_store
           bot_at_empty_store empty_store (lit "/data/schemas")
           [ (lit "input", JString (lit "set chat memory to 512")) ]
           (lit "set chat memory to 512") empty_world).
  - reflexivity.
  - reflexivity.
  - vm_compute. reflexivity.
  - vm_compute. lia.
  - split; [discriminate|].
    exists (object1 (lit "error")
                    (lit "Schema not found for application: chat")).
    split; [reflexivity|vm_compute; reflexivity].
Defined.

(** ** The address to listen on *)

(** [sep.join(parts)] for a separator of one character. *)
Fixpoint py_join (sep : N) (parts : list text) : text :=
  match parts with
  | [] => []
  | [part] => part
  | part :: rest => part ++ sep :: py_join sep rest
  end.

Lemma py_split_not_nil (sep : N) (s : text) : py_split sep s <> [].
Proof.
  destruct s as [|c s]; cbn [py_split]; [discriminate|].
  destruct (c =? sep)%N; [discriminate|].
  destruct (py_split sep s); discriminate.
Qed.

Lemma py_join_cons (sep : N) (part next : text) (rest : list text) :
  py_join sep (part :: next :: rest)
  = part ++ sep :: py_join sep (next :: rest).
Proof. reflexivity. Qed.

(** Joining the parts gives the text back. *)
Lemma py_join_split (sep : N) (s : text) : py_join sep (py_split sep s) = s.
Proof.
  induction s as [|c s IH]; [reflexivity|]. cbn [py_split].
  pose proof (py_split_not_nil sep s) as Hn.
  destruct (py_split sep s) as [|first others]; [contradiction|].
  destruct (c =? sep)%N eqn:E.
  - apply N.eqb_eq in E. subst c.
    rewrite py_join_cons, IH. reflexivity.
  - destruct others as [|next rest].
    + change (first = s) in IH. now subst.
    + rewrite py_join_cons in *. now rewrite <- IH.
Qed.

(** No part holds the separator. *)
Lemma py_split_parts (sep : N) (s : text) :
  Forall (fun part => ~ In sep part) (py_split sep s).
Proof.
  induction s as [|c s IH]; [repeat constructor; intros []|].
  cbn [py_split]. destruct (c =? sep)%N eqn:E.
  - constructor; [intros []|exact IH].
  - destruct (py_split sep s) as [|first others];
      [repeat constructor; intros [H|[]]; subst; now rewrite N.eqb_refl in E|].
    inversion IH as [|? ? Hfirst Hothers]; subst.
    constructor; [|exact Hothers].
    intros [H|H]; [subst; now rewrite N.eqb_refl in E|now apply Hfirst].
Qed.

(** A text without the separator is one part. *)
Lemma py_split_whole (sep : N) (s : text) :
  ~ In sep s -> py_split sep s = [s].
Proof.
  induction s as [|c s IH]; [reflexivity|]. intros H. cbn [py_split].
  destruct (c =? sep)%N eqn:E;
    [apply N.eqb_eq in E; subst; now contradiction H; left|].
  rewrite IH; [reflexivity|]. intros K. apply H. now right.
Qed.

Lemma py_split_at (sep : N) (first rest : text) :
  ~ In sep first ->
  py_split sep (first ++ sep :: rest) = first :: py_split sep rest.
Proof.
  induction first as [|c first IH]; intros H.
  - cbn [List.app py_split]. now rewrite N.eqb_refl.
  - cbn [List.app py_split].
    destruct (c =? sep)%N eqn:E;
      [apply N.eqb_eq in E; subst; now contradiction H; left|].
    rewrite IH; [reflexivity|]. intros K. apply H. now right.
Qed.

(** The address splits into a host and a port exactly when it has one
    colon, the host being what is before it and the port what is after;
    any other address, without a colon or with several, is refused. *)
Theorem listen_address_has_one_colon (listen host port : text) :
  listen_address listen = inr (host, port)
  <-> listen = host ++ colon :: port
      /\ ~ In colon host /\ ~ In colon port.
Proof.
  unfold listen_address. split.
  - intros H.
    pose proof (py_join_split colon listen) as J.
    pose proof (py_split_parts colon listen) as P.
    destruct (py_split colon listen) as [|h [|p [|x others]]];
      try discriminate H.
    injection H as <- <-. cbn [py_join] in J.
    inversion P as [|? ? Hh P']; subst. inversion P' as [|? ? Hp _]; subst.
    now split.
  - intros (-> & Hh & Hp).
    now rewrite (py_split_at colon host port Hh), (py_split_whole colon port Hp).
Qed.

End Stores.
